(** * Land-records retrieval: a shallow embedding of [main.py],
      [land_record_crud.py] and [models.py]

    The program drives a postback web form through a fixed chain of
    requests (page, districts, sub-districts, villages, years, khasras,
    nakals, selection, document), each wrapped by a retry decorator, and
    caches the outcome in a table of land records.

    Effects are modelled by explicit state passing: the state holds the
    extractor object, the replies the network is going to give, the
    observable trace (prints, sleeps, requests, files written) and the
    table.  A raised Python exception keeps every mutation made before
    the raise, as in Python. *)

From Stdlib Require Import String Ascii List Bool Arith ZArith Lia.
From Stdlib Require Import DecimalString.
Import ListNotations.
Open Scope string_scope.
Open Scope list_scope.

Infix "+++" := String.append (at level 60, right associativity).

(** ** Python values used by the program *)

(** A value that is either [None] or a [str]: what [Selector.get()]
    returns, and what the form fields and columns hold. *)
Definition pystr := option string.

(** Python truthiness of such a value: [None] and [''] are falsy. *)
Definition truthy (v : pystr) : bool :=
  match v with
  | None => false
  | Some s => negb (String.eqb s "")
  end.

Definition pystr_eqb (a b : pystr) : bool :=
  match a, b with
  | None, None => true
  | Some x, Some y => String.eqb x y
  | _, _ => false
  end.

(** *** String helpers: [in], [split(sep)[-1]], [replace], [str(int)] *)

(** [needle in hay] for strings. *)
Fixpoint contains_str (needle hay : string) : bool :=
  String.prefix needle hay ||
  match hay with
  | EmptyString => false
  | String _ rest => contains_str needle rest
  end.

(** [s.split(sep)[-1]] for a one-character separator: the text after the
    last separator, or the whole string when there is none. *)
Fixpoint split_last_from (sep : ascii) (acc s : string) : string :=
  match s with
  | EmptyString => acc
  | String c rest =>
      if Ascii.eqb c sep then split_last_from sep rest rest
      else split_last_from sep acc rest
  end.

Definition split_last (sep : ascii) (s : string) : string :=
  split_last_from sep s s.

(** [s.replace(old, new)] for a non-empty [old]: occurrences are replaced
    left to right without overlap.  [skip] counts the characters of a
    matched occurrence that are still to be dropped. *)
Fixpoint replace_from (old new : string) (skip : nat) (s : string) : string :=
  match s with
  | EmptyString => EmptyString
  | String c rest =>
      match skip with
      | S k => replace_from old new k rest
      | O =>
          if String.prefix old s
          then new +++ replace_from old new (String.length old - 1) rest
          else String c (replace_from old new 0 rest)
      end
  end.

Definition replace (old new s : string) : string := replace_from old new 0 s.

Definition str_of_nat (n : nat) : string :=
  NilZero.string_of_uint (Nat.to_uint n).

(** ** Dictionaries

    A Python [dict] keeps insertion order and one value per key: setting
    an existing key overwrites the value in place. *)
Section Dict.
Context {V : Type}.

Definition dict := list (pystr * V).

Fixpoint dict_set (k : pystr) (v : V) (d : dict) : dict :=
  match d with
  | [] => [(k, v)]
  | (k', v') :: d' =>
      if pystr_eqb k k' then (k, v) :: d' else (k', v') :: dict_set k v d'
  end.

Fixpoint dict_get (k : pystr) (d : dict) : option V :=
  match d with
  | [] => None
  | (k', v') :: d' => if pystr_eqb k k' then Some v' else dict_get k d'
  end.

(** [k in d] *)
Definition dict_mem (k : pystr) (d : dict) : bool :=
  match dict_get k d with Some _ => true | None => false end.

(** [{key: value for ...}] over the pairs in iteration order. *)
Definition dict_of_pairs (l : list (pystr * V)) : dict :=
  fold_left (fun d kv => dict_set (fst kv) (snd kv) d) l [].
End Dict.
Arguments dict V : clear implicits.

(** ** Response documents

    The program never looks at a response as text: it hands it to
    [scrapy.Selector] and asks a fixed set of XPath queries.  A document
    is therefore represented by the elements those queries can see. *)

(** [<option>]: whether it carries [@selected], its first text node and
    its [@value]. *)
Record OptionElt := {
  opt_selected : bool;
  opt_text : pystr;
  opt_value : pystr
}.

(** A [<div>] with a [<label>] child and [<select>] children: the first
    text node of the label and the options of the selects, in document
    order. *)
Record FormDiv := {
  div_label : pystr;
  div_options : list OptionElt
}.

(** [<tr>] with at least one [<td>]: the first [./td/a/@href], the first
    text node of the second cell and of the third cell. *)
Record GridRow := {
  row_href : pystr;
  row_td2 : pystr;
  row_td3 : pystr
}.

Record Table := {
  table_id : pystr;
  table_rows : list GridRow
}.

Record Html := {
  inputs : list (string * pystr);   (* <input name=.. [value=..]> *)
  divs : list FormDiv;
  tables : list Table;
  spans : list (string * pystr)     (* <span id=..>: first text node *)
}.

(** [selector.xpath('//input[@name="N"]/@value').get()]: the first
    [value] attribute among the inputs named [N]. *)
Fixpoint xpath_input_value (name : string) (l : list (string * pystr)) : pystr :=
  match l with
  | [] => None
  | (n, v) :: rest =>
      if String.eqb n name
      then match v with
           | Some s => Some s
           | None => xpath_input_value name rest
           end
      else xpath_input_value name rest
  end.

(** [contains(./label/text(), caption)]: a missing label text converts
    to the empty string. *)
Definition label_contains (caption : string) (d : FormDiv) : bool :=
  match div_label d with
  | Some t => contains_str caption t
  | None => contains_str caption ""
  end.

(** [//div[contains(./label/text(), caption)]/select/option[not(@selected)]] *)
Definition xpath_options (caption : string) (h : Html) : list OptionElt :=
  flat_map
    (fun d => if label_contains caption d
              then filter (fun o => negb (opt_selected o)) (div_options d)
              else [])
    (divs h).

(** [//table[contains(@id, "GridView")]//tr[./td]] *)
Definition xpath_grid_rows (h : Html) : list GridRow :=
  flat_map
    (fun t => match table_id t with
              | Some i => if contains_str "GridView" i then table_rows t else []
              | None => []
              end)
    (tables h).

(** [//span[@id="I"]/text()] followed by [get()]. *)
Fixpoint xpath_span_text (id : string) (l : list (string * pystr)) : pystr :=
  match l with
  | [] => None
  | (i, t) :: rest =>
      if String.eqb i id
      then match t with
           | Some s => Some s
           | None => xpath_span_text id rest
           end
      else xpath_span_text id rest
  end.

(** [{o.xpath('./text()').get(): o.xpath('./@value').get() for o in options}] *)
Definition options_dict (opts : list OptionElt) : dict pystr :=
  dict_of_pairs (map (fun o => (opt_text o, opt_value o)) opts).

(** [.../option[not(@selected)]/@value] followed by [getall()]: options
    without a [value] attribute contribute nothing. *)
Definition option_values (opts : list OptionElt) : list string :=
  flat_map (fun o => match opt_value o with Some v => [v] | None => [] end) opts.

(** ** Exceptions *)

Inductive exn :=
| FormFieldNotFoundException (missing_fields : list string)
| RequestException (detail : string)
| AttributeError (detail : string)
| IntegrityError (detail : string).

(** [str(e)] *)
Definition exn_str (e : exn) : string :=
  match e with
  | FormFieldNotFoundException missing_fields =>
      "Failed to extract essential fields: " +++ String.concat ", " missing_fields +++ "."
  | RequestException detail => detail
  | AttributeError detail => detail
  | IntegrityError detail => detail
  end.

(** ** The table of land records ([models.py]) *)

(** The sixteen data columns of [LandRecord], all declared
    [nullable=False].  ([created_at] and [updated_at] are filled by the
    database clock and are left out.) *)
Record RecordData := {
  district_name : pystr;
  district_code : pystr;
  tehsil_name : pystr;
  tehsil_code : pystr;
  villege_name : pystr;
  villege_code : pystr;
  jamabandi_year : pystr;
  khewat_no : pystr;
  khatoni_no : pystr;
  khasra_code : pystr;
  khasra_no : pystr;
  nakal_villege : pystr;
  nakal_hadbast : pystr;
  nakal_tehsil : pystr;
  nakal_district : pystr;
  nakal_year : pystr
}.

(** A stored row; [to_dict] of a row is represented by the row itself. *)
Record LandRecord := {
  id : Z;
  fields : RecordData
}.

Definition is_some (v : pystr) : bool :=
  match v with Some _ => true | None => false end.

(** The [NOT NULL] constraints checked when a row is flushed. *)
Definition not_null (d : RecordData) : bool :=
  forallb is_some
    [district_name d; district_code d; tehsil_name d; tehsil_code d;
     villege_name d; villege_code d; jamabandi_year d; khewat_no d;
     khatoni_no d; khasra_code d; khasra_no d; nakal_villege d;
     nakal_hadbast d; nakal_tehsil d; nakal_district d; nakal_year d].

(** ** What [extract_data] returns *)

Record InnerDetails := {
  in_villege : pystr;
  in_hadbast_no : pystr;
  in_tehsil : pystr;
  in_district : pystr;
  in_year : pystr
}.

Record Output := {
  out_district_name : string;
  out_district_code : pystr;
  out_tehsil_name : string;
  out_tehsil_code : pystr;
  out_villege_name : string;
  out_villege_code : pystr;
  out_jamabandi_year : string;
  out_khewat_no : pystr;
  out_khatoni_no : pystr;
  out_khasra_code : pystr;
  out_khasra_no : string;
  out_inner_details : InnerDetails
}.

(** [extract_data] returns either a message ([str]) or the output
    [dict]. *)
Inductive Extracted :=
| Message (text : string)
| Resolved (output : Output).

(** The value bound to [nakal_data] in the main block. *)
Inductive NakalData :=
| DataRecords (rows : list LandRecord)
| DataRecord (row : LandRecord)
| DataMessage (text : string)
| DataNone.

(** ** State and observable trace *)

Inductive Event :=
| EvPrint (text : string)
| EvPrintTraceback (err : option exn)
| EvPrintData (data : NakalData)
| EvSleep (seconds : nat)
| EvGet (url : string)
| EvPost (url : string) (data : dict pystr)
| EvWriteText (path : list string) (content : Html)
| EvMkdir (path : string).

(** The four hidden-field values kept on the [JamabandiDataExtractor]
    instance. *)
Record Extractor := {
  viewstate : pystr;
  event_arg : pystr;
  event_validation : pystr;
  viewstate_generator : pystr
}.

(** What the network answers to one request: no answer at all
    (time-out, refused connection), or a response with its status and
    body. *)
Inductive Reply :=
| ConnectionError (detail : string)
| Response (status_code : Z) (text : Html).

Record State := {
  obj : Extractor;          (* the extractor instance *)
  net : list Reply;         (* replies to the requests still to come *)
  log : list Event;         (* trace so far, oldest first *)
  db : list LandRecord      (* rows of [land_records], in rowid order *)
}.

Definition with_obj (o : Extractor) (s : State) : State :=
  {| obj := o; net := net s; log := log s; db := db s |}.
Definition with_net (n : list Reply) (s : State) : State :=
  {| obj := obj s; net := n; log := log s; db := db s |}.
Definition with_log (l : list Event) (s : State) : State :=
  {| obj := obj s; net := net s; log := l; db := db s |}.
Definition with_db (d : list LandRecord) (s : State) : State :=
  {| obj := obj s; net := net s; log := log s; db := d |}.

Definition add_log (evs : list Event) (s : State) : State :=
  with_log (log s ++ evs) s.

(** ** The effect monad *)

Inductive Outcome (A : Type) :=
| Ret (a : A)             (* normal return *)
| Raise (e : exn)         (* an [Exception] propagates *)
| Exit (msg : string).    (* [SystemExit] propagates *)
Arguments Ret {A} a.
Arguments Raise {A} e.
Arguments Exit {A} msg.

Definition M (A : Type) := State -> Outcome A * State.

Definition ret {A} (a : A) : M A := fun s => (Ret a, s).

Definition bind {A B} (m : M A) (k : A -> M B) : M B :=
  fun s =>
    match m s with
    | (Ret a, s') => k a s'
    | (Raise e, s') => (Raise e, s')
    | (Exit msg, s') => (Exit msg, s')
    end.

Notation "x <- m ;; k" := (bind m (fun x => k))
  (at level 61, m at next level, right associativity).
Notation "m ;; k" := (bind m (fun _ => k))
  (at level 61, right associativity).

Definition raise {A} (e : exn) : M A := fun s => (Raise e, s).
Definition sys_exit {A} (msg : string) : M A := fun s => (Exit msg, s).
Definition emit (ev : Event) : M unit := fun s => (Ret tt, add_log [ev] s).
Definition print (text : string) : M unit := emit (EvPrint text).
Definition sleep (seconds : nat) : M unit := emit (EvSleep seconds).
Definition get_self : M Extractor := fun s => (Ret (obj s), s).
Definition set_self (o : Extractor) : M unit := fun s => (Ret tt, with_obj o s).

(** Attribute assignments [self.x = v]. *)
Definition set_viewstate (v : pystr) : M unit :=
  fun s => (Ret tt, with_obj {| viewstate := v;
                                event_arg := event_arg (obj s);
                                event_validation := event_validation (obj s);
                                viewstate_generator := viewstate_generator (obj s) |} s).
Definition set_event_arg (v : pystr) : M unit :=
  fun s => (Ret tt, with_obj {| viewstate := viewstate (obj s);
                                event_arg := v;
                                event_validation := event_validation (obj s);
                                viewstate_generator := viewstate_generator (obj s) |} s).
Definition set_event_validation (v : pystr) : M unit :=
  fun s => (Ret tt, with_obj {| viewstate := viewstate (obj s);
                                event_arg := event_arg (obj s);
                                event_validation := v;
                                viewstate_generator := viewstate_generator (obj s) |} s).
Definition set_viewstate_generator (v : pystr) : M unit :=
  fun s => (Ret tt, with_obj {| viewstate := viewstate (obj s);
                                event_arg := event_arg (obj s);
                                event_validation := event_validation (obj s);
                                viewstate_generator := v |} s).

(** ** [retry_on_exception]

    [while attempt < retries] runs once per unit of [retries - attempt];
    [remaining] is that difference.  [err] holds the formatted traceback
    of the latest failure, represented by the exception it describes. *)
Fixpoint wrapper {A} (retries delay : nat) (func : M A)
         (remaining attempt : nat) (err : option exn) : M A :=
  match remaining with
  | O =>
      emit (EvPrintTraceback err) ;;
      print "All retries failed. Here's the traceback:" ;;
      sys_exit "Please try again later; something went wrong."
  | S remaining' =>
      fun s =>
        match func s with
        | (Raise e, s') =>
            (print ("Error: " +++ exn_str e +++ ". Retrying "
                    +++ str_of_nat (S attempt) +++ "/" +++ str_of_nat retries +++ "...") ;;
             sleep delay ;;
             wrapper retries delay func remaining' (S attempt) (Some e)) s'
        | r => r
        end
  end.

Definition retry_on_exception {A} (retries delay : nat) (func : M A) : M A :=
  wrapper retries delay func retries 0 None.

(** ** [JamabandiDataExtractor] *)

Definition jamabandi_uri : string :=
  "https://jamabandi.nic.in/land%20records/NakalRecord".

Definition nakal_khewat_uri : string :=
  "https://jamabandi.nic.in/land%20records/Nakal_khewat".

(** [__init__]: every hidden-field value starts as [None]. *)
Definition new_extractor : Extractor :=
  {| viewstate := None; event_arg := None;
     event_validation := None; viewstate_generator := None |}.

(** [self.req_session.get(url, ...)] and [.post(url, data=...)]: the
    request is sent, the next reply of the network is consumed; no reply
    raises a [RequestException]. *)
Definition take_reply (ev : Event) : M (Z * Html) :=
  fun s =>
    match net s with
    | [] => (Raise (RequestException "ConnectionError"), add_log [ev] s)
    | ConnectionError detail :: rest =>
        (Raise (RequestException detail), add_log [ev] (with_net rest s))
    | Response status_code text :: rest =>
        (Ret (status_code, text), add_log [ev] (with_net rest s))
    end.

Definition session_get (url : string) : M (Z * Html) :=
  take_reply (EvGet url).

Definition session_post (url : string) (data : dict pystr) : M (Z * Html) :=
  take_reply (EvPost url data).

(** [response.raise_for_status()]: [HTTPError] for 4xx and 5xx. *)
Definition raise_for_status (response : Z * Html) : M unit :=
  if ((400 <=? fst response) && (fst response <? 600))%Z
  then raise (RequestException "HTTPError")
  else ret tt.

Definition failed_fields_text : string :=
  "Failed to extract essential form fields from the Jamabandi page.".

Definition get_jamabandi_page_func : M unit :=
  response <- session_get jamabandi_uri ;;
  raise_for_status response ;;
  let selector := snd response in
  set_viewstate (xpath_input_value "__VIEWSTATE" (inputs selector)) ;;
  set_event_arg (xpath_input_value "__EVENTARGUMENT" (inputs selector)) ;;
  set_event_validation (xpath_input_value "__EVENTVALIDATION" (inputs selector)) ;;
  set_viewstate_generator (xpath_input_value "__VIEWSTATEGENERATOR" (inputs selector)) ;;
  self <- get_self ;;
  if negb (truthy (viewstate self)) || negb (truthy (viewstate_generator self))
     || negb (truthy (event_validation self))
  then
    print failed_fields_text ;;
    raise (FormFieldNotFoundException ["viewstate"; "event_validation"; "viewstate_generator"])
  else ret tt.

Definition get_jamabandi_page : M unit :=
  retry_on_exception 3 5 get_jamabandi_page_func.

(** The block every POST step repeats after building its [data]: send,
    check the status, read the two refreshed hidden fields into local
    variables, validate them, and only then store them on [self]. *)
Definition postback (data : dict pystr) : M Html :=
  response <- session_post jamabandi_uri data ;;
  raise_for_status response ;;
  let selector := snd response in
  let viewstate := xpath_input_value "__VIEWSTATE" (inputs selector) in
  let event_validation := xpath_input_value "__EVENTVALIDATION" (inputs selector) in
  if negb (truthy viewstate) || negb (truthy event_validation)
  then
    print failed_fields_text ;;
    raise (FormFieldNotFoundException ["viewstate"; "event_validation"])
  else
    set_viewstate viewstate ;;
    set_event_validation event_validation ;;
    ret selector.

(** Keys of the form. *)
Definition k_ddldname : pystr := Some "ctl00$ContentPlaceHolder1$ddldname".
Definition k_ddltname : pystr := Some "ctl00$ContentPlaceHolder1$ddltname".
Definition k_ddlvname : pystr := Some "ctl00$ContentPlaceHolder1$ddlvname".
Definition k_ddlPeriod : pystr := Some "ctl00$ContentPlaceHolder1$ddlPeriod".
Definition k_ddlkhasra : pystr := Some "ctl00$ContentPlaceHolder1$ddlkhasra".

(** The ten entries every [data] literal starts with; they differ only in
    the event target and in the event argument. *)
Definition base_data (self : Extractor) (event_target event_argument : pystr)
  : list (pystr * pystr) :=
  [ (Some "__EVENTTARGET", event_target);
    (Some "__EVENTARGUMENT", event_argument);
    (Some "__LASTFOCUS", Some "");
    (Some "__VIEWSTATE", viewstate self);
    (Some "__VIEWSTATEGENERATOR", viewstate_generator self);
    (Some "__SCROLLPOSITIONX", Some "0");
    (Some "__SCROLLPOSITIONY", Some "0");
    (Some "__VIEWSTATEENCRYPTED", Some "");
    (Some "__EVENTVALIDATION", event_validation self);
    (Some "ctl00$ContentPlaceHolder1$a", Some "RdobtnKhasra") ].

Definition get_districts_data (self : Extractor) : dict pystr :=
  dict_of_pairs
    (base_data self (Some "ctl00$ContentPlaceHolder1$RdobtnKhasra") (Some "")
     ++ [ (k_ddldname, Some "-1") ]).

Definition get_sub_districts_data (self : Extractor) (district_id : pystr)
  : dict pystr :=
  dict_of_pairs
    (base_data self (Some "ctl00$ContentPlaceHolder1$ddldname") (event_arg self)
     ++ [ (k_ddldname, district_id) ]).

Definition get_villeges_data (self : Extractor) (district_id sub_district_id : pystr)
  : dict pystr :=
  dict_of_pairs
    (base_data self (Some "ctl00$ContentPlaceHolder1$ddltname") (event_arg self)
     ++ [ (k_ddldname, district_id);
          (k_ddltname, sub_district_id) ]).

Definition get_years_data (self : Extractor)
           (district_id sub_district_id villege_id : pystr) : dict pystr :=
  dict_of_pairs
    (base_data self (Some "ctl00$ContentPlaceHolder1$ddlvname") (event_arg self)
     ++ [ (k_ddldname, district_id);
          (k_ddltname, sub_district_id);
          (k_ddlvname, villege_id) ]).

Definition get_khasras_data (self : Extractor)
           (district_id sub_district_id villege_id year : pystr) : dict pystr :=
  dict_of_pairs
    (base_data self (Some "ctl00$ContentPlaceHolder1$ddlPeriod") (event_arg self)
     ++ [ (k_ddldname, district_id);
          (k_ddltname, sub_district_id);
          (k_ddlvname, villege_id);
          (k_ddlPeriod, year) ]).

Definition get_nakals_data (self : Extractor)
           (district_id sub_district_id villege_id year khasra_id : pystr)
  : dict pystr :=
  dict_of_pairs
    (base_data self (Some "ctl00$ContentPlaceHolder1$ddlkhasra") (event_arg self)
     ++ [ (k_ddldname, district_id);
          (k_ddltname, sub_district_id);
          (k_ddlvname, villege_id);
          (k_ddlPeriod, year);
          (k_ddlkhasra, khasra_id) ]).

Definition select_nakals_data (self : Extractor)
           (district_id sub_district_id villege_id year khasra_id nakal_id : pystr)
  : dict pystr :=
  dict_of_pairs
    (base_data self (Some "ctl00$ContentPlaceHolder1$GridView1") nakal_id
     ++ [ (k_ddldname, district_id);
          (k_ddltname, sub_district_id);
          (k_ddlvname, villege_id);
          (k_ddlPeriod, year);
          (k_ddlkhasra, khasra_id) ]).

(** A listing step: post, refresh the tokens, read the options under the
    captioned label, fail on an empty dictionary. *)
Definition get_districts_func : M (dict pystr) :=
  self <- get_self ;;
  selector <- postback (get_districts_data self) ;;
  let districts := options_dict (xpath_options "Select District" selector) in
  match districts with
  | [] => raise (FormFieldNotFoundException ["districts"])
  | _ => ret districts
  end.

Definition get_districts : M (dict pystr) :=
  retry_on_exception 3 5 get_districts_func.

Definition get_sub_districts_func (district_id : pystr) : M (dict pystr) :=
  self <- get_self ;;
  seletor <- postback (get_sub_districts_data self district_id) ;;
  let sub_districts :=
    options_dict (xpath_options "Select Tehsil/ Sub-Tehsil" seletor) in
  match sub_districts with
  | [] => raise (FormFieldNotFoundException ["sub-districts"])
  | _ => ret sub_districts
  end.

Definition get_sub_districts (district_id : pystr) : M (dict pystr) :=
  retry_on_exception 3 5 (get_sub_districts_func district_id).

Definition get_villeges_func (district_id sub_district_id : pystr) : M (dict pystr) :=
  self <- get_self ;;
  seletor <- postback (get_villeges_data self district_id sub_district_id) ;;
  let villages := options_dict (xpath_options "Select Village" seletor) in
  match villages with
  | [] => raise (FormFieldNotFoundException ["villeges"])
  | _ => ret villages
  end.

Definition get_villeges (district_id sub_district_id : pystr) : M (dict pystr) :=
  retry_on_exception 3 5 (get_villeges_func district_id sub_district_id).

Definition get_years_func (district_id sub_district_id villege_id : pystr)
  : M (list string) :=
  self <- get_self ;;
  seletor <- postback (get_years_data self district_id sub_district_id villege_id) ;;
  let years := option_values (xpath_options "Jamabandi Year" seletor) in
  match years with
  | [] => raise (FormFieldNotFoundException ["years"])
  | _ => ret years
  end.

Definition get_years (district_id sub_district_id villege_id : pystr)
  : M (list string) :=
  retry_on_exception 3 5 (get_years_func district_id sub_district_id villege_id).

Definition get_khasras_func (district_id sub_district_id villege_id year : pystr)
  : M (dict pystr) :=
  self <- get_self ;;
  seletor <- postback
    (get_khasras_data self district_id sub_district_id villege_id year) ;;
  let khasras := options_dict (xpath_options "Khasra" seletor) in
  match khasras with
  | [] => raise (FormFieldNotFoundException ["khasras"])
  | _ => ret khasras
  end.

Definition get_khasras (district_id sub_district_id villege_id year : pystr)
  : M (dict pystr) :=
  retry_on_exception 3 5
    (get_khasras_func district_id sub_district_id villege_id year).

(** [nakal_detail]: the dictionary with the keys ['khewat_no'] and
    ['khatoni_no']. *)
Record NakalDetail := {
  nd_khewat_no : pystr;
  nd_khatoni_no : pystr
}.

(** ['Select$' + nakal_id.split('$')[-1].replace("')", "")] *)
Definition nakal_id_of_href (href : string) : string :=
  "Select$" +++ replace "')" "" (split_last "$" href).

(** The [for] loop over the table rows.  A row without a link makes
    [nakal_id.split] fail on [None]. *)
Fixpoint nakal_rows_loop (nakal_table_rows : list GridRow)
         (nakals : list string) (nakal_detail : NakalDetail)
  : M (list string * NakalDetail) :=
  match nakal_table_rows with
  | [] => ret (nakals, nakal_detail)
  | nakal_table_row :: rest =>
      match row_href nakal_table_row with
      | None => raise (AttributeError "'NoneType' object has no attribute 'split'")
      | Some href =>
          nakal_rows_loop rest
            (nakals ++ [nakal_id_of_href href])
            {| nd_khewat_no := row_td2 nakal_table_row;
               nd_khatoni_no := row_td3 nakal_table_row |}
      end
  end.

(** [not nakal_detail] is never true, the dictionary always has its two
    keys; the guard reduces to [not nakals]. *)
Definition get_nakals_func
           (district_id sub_district_id villege_id year khasra_id : pystr)
  : M (list string * NakalDetail) :=
  self <- get_self ;;
  seletor <- postback
    (get_nakals_data self district_id sub_district_id villege_id year khasra_id) ;;
  let nakal_table_rows := xpath_grid_rows seletor in
  r <- nakal_rows_loop nakal_table_rows []
         {| nd_khewat_no := Some ""; nd_khatoni_no := Some "" |} ;;
  match fst r with
  | [] => raise (FormFieldNotFoundException ["nakals"; "nakal_detail"])
  | _ => ret r
  end.

Definition get_nakals
           (district_id sub_district_id villege_id year khasra_id : pystr)
  : M (list string * NakalDetail) :=
  retry_on_exception 3 5
    (get_nakals_func district_id sub_district_id villege_id year khasra_id).

Definition select_nakals_func
           (district_id sub_district_id villege_id year khasra_id nakal_id : pystr)
  : M unit :=
  self <- get_self ;;
  postback (select_nakals_data self district_id sub_district_id villege_id
              year khasra_id nakal_id) ;;
  ret tt.

Definition select_nakals
           (district_id sub_district_id villege_id year khasra_id nakal_id : pystr)
  : M unit :=
  retry_on_exception 3 5
    (select_nakals_func district_id sub_district_id villege_id year khasra_id nakal_id).

(** The document is fetched with a GET; no hidden field is read.  The
    file is written into the directory the main block has created;
    [write_text] is taken to succeed. *)
Definition get_nakal_html_func (destination_path : option (list string)) : M Html :=
  response <- session_get nakal_khewat_uri ;;
  raise_for_status response ;;
  match destination_path with
  | Some path => emit (EvWriteText path (snd response))
  | None => ret tt
  end ;;
  ret (snd response).

Definition get_nakal_html (destination_path : option (list string)) : M Html :=
  retry_on_exception 3 5 (get_nakal_html_func destination_path).

(** ** [extract_data] *)

Definition extract_data (inp_district_name inp_sub_district_name
                         inp_villege_name inp_khasra_no : string)
           (destination_path : option (list string)) : M Extracted :=
  set_self new_extractor ;;
  print "Fetching jamabandi page." ;;
  get_jamabandi_page ;;
  print "Getting districts." ;;
  districts <- get_districts ;;
  match dict_get (Some inp_district_name) districts with
  | None => ret (Message ("District name:" +++ inp_district_name +++ " not found!"))
  | Some district_id =>
  print "Getting sub-districts." ;;
  sub_districts <- get_sub_districts district_id ;;
  match dict_get (Some inp_sub_district_name) sub_districts with
  | None => ret (Message ("sub-district/tehsil name:" +++ inp_sub_district_name
                          +++ " not found!"))
  | Some sub_district_id =>
  print "Getting villeges." ;;
  villeges <- get_villeges district_id sub_district_id ;;
  match dict_get (Some inp_villege_name) villeges with
  | None => ret (Message ("Villege name:" +++ inp_villege_name +++ " not found!"))
  | Some villege_id =>
  print "Getting years." ;;
  years <- get_years district_id sub_district_id villege_id ;;
  match years with
  | [] => ret (Message "Year is empty!")
  | years_0 :: _ =>
  print "Getting khasras." ;;
  khasras <- get_khasras district_id sub_district_id villege_id (Some years_0) ;;
  match dict_get (Some inp_khasra_no) khasras with
  | None => ret (Message ("Khasra number:" +++ inp_khasra_no +++ " not found!"))
  | Some khasra_id =>
  print "Getting nakals." ;;
  r <- get_nakals district_id sub_district_id villege_id (Some years_0) khasra_id ;;
  let nakals := fst r in
  let nakal_detail := snd r in
  match nakals with
  | [] => ret (Message "Nakal is empty!")
  | nakals_0 :: _ =>
  print "Selecing nakal." ;;
  select_nakals district_id sub_district_id villege_id (Some years_0) khasra_id
                (Some nakals_0) ;;
  print "Getting nakal html." ;;
  nakal_html_response <- get_nakal_html destination_path ;;
  let nakal_selector := nakal_html_response in
  let nakal_villege := xpath_span_text "lblvill" (spans nakal_selector) in
  let nakal_hadbast := xpath_span_text "lblhad" (spans nakal_selector) in
  let nakal_tehsil := xpath_span_text "lblteh" (spans nakal_selector) in
  let nakal_district := xpath_span_text "lbldis" (spans nakal_selector) in
  let nakal_year := xpath_span_text "lblyer" (spans nakal_selector) in
  ret (Resolved
         {| out_district_name := inp_district_name;
            out_district_code := district_id;
            out_tehsil_name := inp_sub_district_name;
            out_tehsil_code := sub_district_id;
            out_villege_name := inp_villege_name;
            out_villege_code := villege_id;
            out_jamabandi_year := years_0;
            out_khewat_no := nd_khewat_no nakal_detail;
            out_khatoni_no := nd_khatoni_no nakal_detail;
            out_khasra_code := khasra_id;
            out_khasra_no := inp_khasra_no;
            out_inner_details :=
              {| in_villege := nakal_villege;
                 in_hadbast_no := nakal_hadbast;
                 in_tehsil := nakal_tehsil;
                 in_district := nakal_district;
                 in_year := nakal_year |} |})
  end end end end end end.

(** ** [LandRecordCRUD]

    The table is kept as the list of its rows in rowid order, which is
    the order in which SQLite returns them when a query scans the table
    or looks up one value of the index on the three names.  The methods
    are followed on one session up to the first refused commit: the
    code never calls [rollback], so what the session answers after a
    commit has raised is not described by the state. *)

(** The rowids SQLite can hold: signed 64-bit integers. *)
Definition max_rowid : Z := 9223372036854775807.
Definition min_rowid : Z := (-9223372036854775808)%Z.

Definition is_rowid (i : Z) : bool :=
  ((min_rowid <=? i) && (i <=? max_rowid))%Z.

Fixpoint ascending (ids : list Z) : bool :=
  match ids with
  | i :: (j :: _) as rest => (i <? j)%Z && ascending rest
  | _ => true
  end.

(** A list of rows that is the content of a table in rowid order: every
    id is a rowid and the ids go up. *)
Definition rowid_table (rows : list LandRecord) : bool :=
  forallb is_rowid (map id rows) && ascending (map id rows).

(** The largest rowid is still free. *)
Definition has_room (rows : list LandRecord) : bool :=
  forallb (fun i => (i <? max_rowid)%Z) (map id rows).

(** [filter_by(district_name=.., tehsil_name=.., villege_name=.., khasra_no=..)]:
    the rows found have the same three names, so the index returns them
    in rowid order. *)
Definition matches_input (district_name' tehsil_name' villege_name' khasra_no' : string)
           (r : LandRecord) : bool :=
  pystr_eqb (district_name (fields r)) (Some district_name')
  && pystr_eqb (tehsil_name (fields r)) (Some tehsil_name')
  && pystr_eqb (villege_name (fields r)) (Some villege_name')
  && pystr_eqb (khasra_no (fields r)) (Some khasra_no').

Definition search_records_by_input_data
           (district_name' tehsil_name' villege_name' khasra_no' : string)
  : M (list LandRecord) :=
  fun s =>
    (Ret (filter (matches_input district_name' tehsil_name' villege_name' khasra_no')
                 (db s)), s).

(** [session.commit()] of a row holding [data]: the flush is refused when
    a column is [None], and the table is left as it was.  (The session
    then stays in its failed transaction; see the head of this
    section.) *)
Definition check_not_null (data : RecordData) : M unit :=
  if not_null data then ret tt
  else raise (IntegrityError "NOT NULL constraint failed").

(** The first row with the given id gets every column of [data].
    [data] is a dictionary whose keys are the sixteen data columns, as
    the one the main block builds; a dictionary with other keys (['id']
    among them) or with fewer keys is not represented. *)
Fixpoint set_fields (record_id : Z) (data : RecordData) (rows : list LandRecord)
  : list LandRecord :=
  match rows with
  | [] => []
  | r :: rest =>
      if (id r =? record_id)%Z
      then {| id := id r; fields := data |} :: rest
      else r :: set_fields record_id data rest
  end.

Definition update_record (record_id : Z) (data : RecordData) : M NakalData :=
  fun s =>
    match find (fun r => (id r =? record_id)%Z) (db s) with
    | Some record =>
        (check_not_null data ;;
         (fun s' => (Ret (DataRecord {| id := id record; fields := data |}),
                     with_db (set_fields record_id data (db s')) s'))) s
    | None => (Ret DataNone, s)
    end.

(** The rowid SQLite gives to a row inserted without one: 1 in an empty
    table, otherwise one more than the largest rowid in use.  (When
    [max_rowid] itself is in use SQLite draws an unused rowid at random;
    the statements about the id of a new row exclude that table by
    [has_room].) *)
Definition next_id (rows : list LandRecord) : Z :=
  match map id rows with
  | [] => 1%Z
  | i :: ids => (fold_right Z.max i ids + 1)%Z
  end.

Definition add_and_commit (data : RecordData) : M NakalData :=
  check_not_null data ;;
  (fun s =>
     let record := {| id := next_id (db s); fields := data |} in
     (Ret (DataRecord record), with_db (db s ++ [record]) s)).

Definition create_record_by_checking_record
           (district_name' tehsil_name' villege_name' khasra_no' : string)
           (data : RecordData) (force_refresh : bool) : M NakalData :=
  nakal_data <- search_records_by_input_data
                  district_name' tehsil_name' villege_name' khasra_no' ;;
  match nakal_data with
  | nakal_data_0 :: _ =>
      if negb force_refresh then ret (DataRecord nakal_data_0)
      else update_record (id nakal_data_0) data
  | [] => add_and_commit data
  end.

(** ** The main block *)

Record Args := {
  arg_district_name : string;
  arg_sub_district_name : string;
  arg_village_name : string;
  arg_khasra_no : string;
  arg_force_refresh : bool
}.

Fixpoint str_mul (s : string) (n : nat) : string :=
  match n with
  | O => ""
  | S k => s +++ str_mul s k
  end.

(** The prints of [get_command_line_arg] once the arguments are parsed. *)
Definition get_command_line_arg (args : Args) : M Args :=
  print ">>>>>>>>>>>>>>>>>>>>> Inserted Inputs <<<<<<<<<<<<<<<<<<<<<" ;;
  print ("District Name: " +++ arg_district_name args) ;;
  print ("Sub-district Name: " +++ arg_sub_district_name args) ;;
  print ("Village Name: " +++ arg_village_name args) ;;
  print ("Khasra Number: " +++ arg_khasra_no args) ;;
  print ("Force Refresh: " +++ (if arg_force_refresh args then "True" else "False")) ;;
  ret args.

(** The [data] dictionary built from the output of [extract_data]. *)
Definition record_data_of (nakal_data : Output) : RecordData :=
  {| district_name := Some (out_district_name nakal_data);
     district_code := out_district_code nakal_data;
     tehsil_name := Some (out_tehsil_name nakal_data);
     tehsil_code := out_tehsil_code nakal_data;
     villege_name := Some (out_villege_name nakal_data);
     villege_code := out_villege_code nakal_data;
     jamabandi_year := Some (out_jamabandi_year nakal_data);
     khewat_no := out_khewat_no nakal_data;
     khatoni_no := out_khatoni_no nakal_data;
     khasra_code := out_khasra_code nakal_data;
     khasra_no := Some (out_khasra_no nakal_data);
     nakal_villege := in_villege (out_inner_details nakal_data);
     nakal_hadbast := in_hadbast_no (out_inner_details nakal_data);
     nakal_tehsil := in_tehsil (out_inner_details nakal_data);
     nakal_district := in_district (out_inner_details nakal_data);
     nakal_year := in_year (out_inner_details nakal_data) |}.

(** [path.joinpath(f"{d}_{t}_{v}_{k.replace('/', '-')}.html")], kept as
    the two joined parts. *)
Definition html_path_of (inp_district_name inp_sub_district_name
                         inp_villege_name inp_khasra_no : string) : list string :=
  [ "nakal_html_data";
    inp_district_name +++ "_" +++ inp_sub_district_name +++ "_" +++ inp_villege_name
      +++ "_" +++ replace "/" "-" inp_khasra_no +++ ".html" ].

Definition main (argv : Args) : M unit :=
  emit (EvMkdir "nakal_html_data") ;;
  args <- get_command_line_arg argv ;;
  let inp_district_name := arg_district_name args in
  let inp_sub_district_name := arg_sub_district_name args in
  let inp_villege_name := arg_village_name args in
  let inp_khasra_no := arg_khasra_no args in
  let force_refresh := arg_force_refresh args in
  let html_path :=
    html_path_of inp_district_name inp_sub_district_name inp_villege_name inp_khasra_no in
  found <- search_records_by_input_data
             inp_district_name inp_sub_district_name inp_villege_name inp_khasra_no ;;
  nakal_data <-
    (if match found with [] => true | _ => false end || force_refresh
     then
       print ">>>>>>>>>>>>>>>>>>>>>>>>> Data extraction started... <<<<<<<<<<<<<<<<<<" ;;
       extracted <- extract_data inp_district_name inp_sub_district_name
                                 inp_villege_name inp_khasra_no (Some html_path) ;;
       match extracted with
       | Resolved output =>
           create_record_by_checking_record
             inp_district_name inp_sub_district_name inp_villege_name inp_khasra_no
             (record_data_of output) force_refresh
       | Message text => ret (DataMessage text)
       end
     else ret (DataRecords found)) ;;
  print (str_mul "#" 60) ;;
  emit (EvPrintData nakal_data).

(** ** Vocabulary for the statements *)

(** The steps that post the form, with the codes they are given. *)
Inductive CascadeStep :=
| ListDistricts
| ListSubDistricts (district_id : pystr)
| ListVillages (district_id sub_district_id : pystr)
| ListYears (district_id sub_district_id villege_id : pystr)
| ListKhasras (district_id sub_district_id villege_id year : pystr)
| ListNakals (district_id sub_district_id villege_id year khasra_id : pystr)
| SelectNakal (district_id sub_district_id villege_id year khasra_id nakal_id : pystr).

(** The undecorated method behind each step, its result dropped. *)
Definition step_func (st : CascadeStep) : M unit :=
  match st with
  | ListDistricts => get_districts_func ;; ret tt
  | ListSubDistricts d => get_sub_districts_func d ;; ret tt
  | ListVillages d t => get_villeges_func d t ;; ret tt
  | ListYears d t v => get_years_func d t v ;; ret tt
  | ListKhasras d t v y => get_khasras_func d t v y ;; ret tt
  | ListNakals d t v y k => get_nakals_func d t v y k ;; ret tt
  | SelectNakal d t v y k n => select_nakals_func d t v y k n
  end.

(** The [data] literal of each step. *)
Definition step_data (st : CascadeStep) (self : Extractor) : dict pystr :=
  match st with
  | ListDistricts => get_districts_data self
  | ListSubDistricts d => get_sub_districts_data self d
  | ListVillages d t => get_villeges_data self d t
  | ListYears d t v => get_years_data self d t v
  | ListKhasras d t v y => get_khasras_data self d t v y
  | ListNakals d t v y k => get_nakals_data self d t v y k
  | SelectNakal d t v y k n => select_nakals_data self d t v y k n
  end.

(** The codes resolved before a step runs, each with the form key of its
    level. *)
Definition resolved_codes (st : CascadeStep) : list (pystr * pystr) :=
  match st with
  | ListDistricts => []
  | ListSubDistricts d => [(k_ddldname, d)]
  | ListVillages d t => [(k_ddldname, d); (k_ddltname, t)]
  | ListYears d t v => [(k_ddldname, d); (k_ddltname, t); (k_ddlvname, v)]
  | ListKhasras d t v y =>
      [(k_ddldname, d); (k_ddltname, t); (k_ddlvname, v); (k_ddlPeriod, y)]
  | ListNakals d t v y k =>
      [(k_ddldname, d); (k_ddltname, t); (k_ddlvname, v); (k_ddlPeriod, y);
       (k_ddlkhasra, k)]
  | SelectNakal d t v y k _ =>
      [(k_ddldname, d); (k_ddltname, t); (k_ddlvname, v); (k_ddlPeriod, y);
       (k_ddlkhasra, k)]
  end.

(** The value a step puts under [__EVENTARGUMENT]. *)
Definition event_argument_sent (st : CascadeStep) (self : Extractor) : pystr :=
  match st with
  | ListDistricts => Some ""
  | SelectNakal _ _ _ _ _ nakal_id => nakal_id
  | _ => event_arg self
  end.

(** The entries that are the same in every request. *)
Definition protocol_constants : list (pystr * pystr) :=
  [ (Some "__LASTFOCUS", Some "");
    (Some "__SCROLLPOSITIONX", Some "0");
    (Some "__SCROLLPOSITIONY", Some "0");
    (Some "__VIEWSTATEENCRYPTED", Some "");
    (Some "ctl00$ContentPlaceHolder1$a", Some "RdobtnKhasra") ].

(** [data] holds every pair of [l]. *)
Definition holds_all (l : list (pystr * pystr)) (data : dict pystr) : Prop :=
  Forall (fun kv => dict_get (fst kv) data = Some (snd kv)) l.

Definition status_ok (status_code : Z) : bool :=
  negb ((400 <=? status_code) && (status_code <? 600))%Z.

(** Both hidden fields every POST step insists on are present and not
    empty. *)
Definition tokens_ok (page : Html) : bool :=
  truthy (xpath_input_value "__VIEWSTATE" (inputs page))
  && truthy (xpath_input_value "__EVENTVALIDATION" (inputs page)).

(** The extractor after a POST step has stored the refreshed fields. *)
Definition refreshed (page : Html) (self : Extractor) : Extractor :=
  {| viewstate := xpath_input_value "__VIEWSTATE" (inputs page);
     event_arg := event_arg self;
     event_validation := xpath_input_value "__EVENTVALIDATION" (inputs page);
     viewstate_generator := viewstate_generator self |}.

(** The extractor after the first page has been read. *)
Definition seeded (page : Html) : Extractor :=
  {| viewstate := xpath_input_value "__VIEWSTATE" (inputs page);
     event_arg := xpath_input_value "__EVENTARGUMENT" (inputs page);
     event_validation := xpath_input_value "__EVENTVALIDATION" (inputs page);
     viewstate_generator := xpath_input_value "__VIEWSTATEGENERATOR" (inputs page) |}.

Definition is_request (ev : Event) : bool :=
  match ev with
  | EvGet _ | EvPost _ _ => true
  | _ => false
  end.

Definition is_sleep (ev : Event) : bool :=
  match ev with
  | EvSleep _ => true
  | _ => false
  end.

(** The line the decorator prints after a failed attempt. *)
Definition retrying_text (e : exn) (attempt retries : nat) : string :=
  "Error: " +++ exn_str e +++ ". Retrying "
  +++ str_of_nat attempt +++ "/" +++ str_of_nat retries +++ "...".

Definition exit_text : string :=
  "Please try again later; something went wrong.".

(** The levels at which a name is looked up, and the message returned
    when the name is missing. *)
Inductive Level := District | SubDistrict | Village | Khasra.

Definition not_found_text (level : Level) (name : string) : string :=
  match level with
  | District => "District name:" +++ name +++ " not found!"
  | SubDistrict => "sub-district/tehsil name:" +++ name +++ " not found!"
  | Village => "Villege name:" +++ name +++ " not found!"
  | Khasra => "Khasra number:" +++ name +++ " not found!"
  end.

(** What the main block has put on the trace when it starts the
    extraction. *)
Definition announced (args : Args) : list Event :=
  [ EvMkdir "nakal_html_data";
    EvPrint ">>>>>>>>>>>>>>>>>>>>> Inserted Inputs <<<<<<<<<<<<<<<<<<<<<";
    EvPrint ("District Name: " +++ arg_district_name args);
    EvPrint ("Sub-district Name: " +++ arg_sub_district_name args);
    EvPrint ("Village Name: " +++ arg_village_name args);
    EvPrint ("Khasra Number: " +++ arg_khasra_no args);
    EvPrint ("Force Refresh: " +++ (if arg_force_refresh args then "True" else "False"));
    EvPrint ">>>>>>>>>>>>>>>>>>>>>>>>> Data extraction started... <<<<<<<<<<<<<<<<<<" ].

(** A computation that leaves the table as it found it. *)
Definition keeps_db {A} (m : M A) : Prop :=
  forall s, db (snd (m s)) = db s.

(** ** A canned run

    Nine replies, one per step, for the request
    ("DistrictA", "TehsilA", "VillageA", "6"). *)
Module Canned.

Definition hidden (vs ev : string) : list (string * pystr) :=
  [ ("__EVENTTARGET", Some "");
    ("__EVENTARGUMENT", Some "");
    ("__VIEWSTATE", Some vs);
    ("__VIEWSTATEGENERATOR", Some "5E1F1B9A");
    ("__EVENTVALIDATION", Some ev) ].

Definition choose : OptionElt :=
  {| opt_selected := true; opt_text := Some "--Select--"; opt_value := Some "-1" |}.

Definition item (text value : string) : OptionElt :=
  {| opt_selected := false; opt_text := Some text; opt_value := Some value |}.

Definition form (vs ev : string) (ds : list FormDiv) (ts : list Table) : Html :=
  {| inputs := hidden vs ev; divs := ds; tables := ts; spans := [] |}.

Definition page_start : Html := form "vs0" "ev0" [] [].

Definition page_districts : Html :=
  form "vs1" "ev1"
    [ {| div_label := Some "Select District";
         div_options := [choose; item "DistrictA" "01"; item "DistrictB" "02"] |} ] [].

Definition page_sub_districts : Html :=
  form "vs2" "ev2"
    [ {| div_label := Some "Select Tehsil/ Sub-Tehsil";
         div_options := [choose; item "TehsilA" "001"; item "TehsilB" "002"] |} ] [].

Definition page_villages : Html :=
  form "vs3" "ev3"
    [ {| div_label := Some "Select Village";
         div_options := [choose; item "VillageA" "0284"; item "VillageB" "0285"] |} ] [].

Definition page_years : Html :=
  form "vs4" "ev4"
    [ {| div_label := Some "Jamabandi Year";
         div_options := [choose; item "2022-2023" "2022-2023"] |} ] [].

Definition page_khasras : Html :=
  form "vs5" "ev5"
    [ {| div_label := Some "Khasra";
         div_options := [choose; item "5" "5"; item "6" "6"] |} ] [].

Definition grid (rows : list GridRow) : list Table :=
  [ {| table_id := Some "ctl00_ContentPlaceHolder1_GridView1"; table_rows := rows |} ].

Definition link (n : string) : pystr :=
  Some ("javascript:__doPostBack('ctl00$ContentPlaceHolder1$GridView1','Select$"
        +++ n +++ "')").

Definition page_nakals : Html :=
  form "vs6" "ev6" []
    (grid [ {| row_href := link "0"; row_td2 := Some "3"; row_td3 := Some "9" |} ]).

Definition page_selected : Html := form "vs7" "ev7" [] [].

Definition page_document : Html :=
  {| inputs := []; divs := []; tables := [];
     spans := [ ("lblvill", Some "VillageA"); ("lblhad", Some "50");
                ("lblteh", Some "TehsilA"); ("lbldis", Some "DistrictA");
                ("lblyer", Some "2022-2023") ] |}.

Definition replies : list Reply :=
  map (Response 200)
    [ page_start; page_districts; page_sub_districts; page_villages; page_years;
      page_khasras; page_nakals; page_selected; page_document ].

Definition start (rs : list Reply) (rows : list LandRecord) : State :=
  {| obj := new_extractor; net := rs; log := []; db := rows |}.

(** The same run when the table of candidates comes back without rows,
    three times in a row. *)
Definition page_no_nakals : Html := form "vs6" "ev6" [] (grid []).

Definition replies_no_nakals : list Reply :=
  map (Response 200)
    [ page_start; page_districts; page_sub_districts; page_villages; page_years;
      page_khasras; page_no_nakals; page_no_nakals; page_no_nakals ].

(** A first page whose [__EVENTVALIDATION] field is missing. *)
Definition page_start_broken : Html :=
  {| inputs := [ ("__VIEWSTATE", Some "vs0"); ("__VIEWSTATEGENERATOR", Some "5E1F1B9A") ];
     divs := []; tables := []; spans := [] |}.

(** A first page without the [__EVENTARGUMENT] field. *)
Definition page_start_no_argument : Html :=
  {| inputs := [ ("__VIEWSTATE", Some "vs0"); ("__VIEWSTATEGENERATOR", Some "5E1F1B9A");
                 ("__EVENTVALIDATION", Some "ev0") ];
     divs := []; tables := []; spans := [] |}.

(** A row cached by an earlier run for the same four names. *)
Definition cached : LandRecord :=
  {| id := 1;
     fields :=
       {| district_name := Some "DistrictA"; district_code := Some "01";
          tehsil_name := Some "TehsilA"; tehsil_code := Some "001";
          villege_name := Some "VillageA"; villege_code := Some "0284";
          jamabandi_year := Some "2021-2022";
          khewat_no := Some "2"; khatoni_no := Some "8";
          khasra_code := Some "6"; khasra_no := Some "6";
          nakal_villege := Some "VillageA"; nakal_hadbast := Some "50";
          nakal_tehsil := Some "TehsilA"; nakal_district := Some "DistrictA";
          nakal_year := Some "2021-2022" |} |}.

Definition args (force_refresh : bool) : Args :=
  {| arg_district_name := "DistrictA"; arg_sub_district_name := "TehsilA";
     arg_village_name := "VillageA"; arg_khasra_no := "6";
     arg_force_refresh := force_refresh |}.

(** The states and Option Sets a run goes through up to the list of
    khasras, over [replies] and over [replies_no_nakals]. *)
Definition run_to (step : M unit) (text : string) (s : State) : State :=
  snd (step (add_log [EvPrint text] s)).

Definition districts : dict pystr :=
  Eval vm_compute in options_dict (xpath_options "Select District" page_districts).

Definition sub_districts : dict pystr :=
  Eval vm_compute in
    options_dict (xpath_options "Select Tehsil/ Sub-Tehsil" page_sub_districts).

Definition villeges : dict pystr :=
  Eval vm_compute in options_dict (xpath_options "Select Village" page_villages).

Definition khasras : dict pystr :=
  Eval vm_compute in options_dict (xpath_options "Khasra" page_khasras).

Definition to_page (rs : list Reply) : State :=
  run_to get_jamabandi_page "Fetching jamabandi page."
         (with_obj new_extractor (start rs [])).

Definition to_districts (s : State) : State :=
  run_to (get_districts ;; ret tt) "Getting districts." s.

Definition to_sub_districts (s : State) : State :=
  run_to (get_sub_districts (Some "01") ;; ret tt) "Getting sub-districts." s.

Definition to_villeges (s : State) : State :=
  run_to (get_villeges (Some "01") (Some "001") ;; ret tt) "Getting villeges." s.

Definition to_years (s : State) : State :=
  run_to (get_years (Some "01") (Some "001") (Some "0284") ;; ret tt)
         "Getting years." s.

Definition to_khasras (s : State) : State :=
  run_to (get_khasras (Some "01") (Some "001") (Some "0284") (Some "2022-2023")
          ;; ret tt)
         "Getting khasras." s.

Definition at_page : State := Eval vm_compute in to_page replies.
Definition at_districts : State := Eval vm_compute in to_districts at_page.
Definition at_sub_districts : State := Eval vm_compute in to_sub_districts at_districts.
Definition at_villeges : State := Eval vm_compute in to_villeges at_sub_districts.
Definition at_years : State := Eval vm_compute in to_years at_villeges.
Definition at_khasras : State := Eval vm_compute in to_khasras at_years.

Definition at_page_no_nakals : State := Eval vm_compute in to_page replies_no_nakals.
Definition at_districts_no_nakals : State :=
  Eval vm_compute in to_districts at_page_no_nakals.
Definition at_sub_districts_no_nakals : State :=
  Eval vm_compute in to_sub_districts at_districts_no_nakals.
Definition at_villeges_no_nakals : State :=
  Eval vm_compute in to_villeges at_sub_districts_no_nakals.
Definition at_years_no_nakals : State :=
  Eval vm_compute in to_years at_villeges_no_nakals.
Definition at_khasras_no_nakals : State :=
  Eval vm_compute in to_khasras at_years_no_nakals.

(** What the run over [replies] reports. *)
Definition output : Output :=
  {| out_district_name := "DistrictA"; out_district_code := Some "01";
     out_tehsil_name := "TehsilA"; out_tehsil_code := Some "001";
     out_villege_name := "VillageA"; out_villege_code := Some "0284";
     out_jamabandi_year := "2022-2023";
     out_khewat_no := Some "3"; out_khatoni_no := Some "9";
     out_khasra_code := Some "6"; out_khasra_no := "6";
     out_inner_details :=
       {| in_villege := Some "VillageA"; in_hadbast_no := Some "50";
          in_tehsil := Some "TehsilA"; in_district := Some "DistrictA";
          in_year := Some "2022-2023" |} |}.

(** The state in which the extraction started by a forced refresh over
    the cached row ends. *)
Definition at_end_of_refresh : State :=
  Eval vm_compute in
    snd (extract_data "DistrictA" "TehsilA" "VillageA" "6"
           (Some (html_path_of "DistrictA" "TehsilA" "VillageA" "6"))
           (add_log (announced (args true)) (start replies [cached]))).

(** A second run for the same request: two years are on offer, the
    first request for the nakals is answered 503, and the table that
    comes next has three candidates. *)
Definition page_years_two : Html :=
  form "vs4" "ev4"
    [ {| div_label := Some "Jamabandi Year";
         div_options := [choose; item "2023-2024" "2023-2024";
                         item "2022-2023" "2022-2023"] |} ] [].

Definition candidate (n khewat khatoni : string) : GridRow :=
  {| row_href := link n; row_td2 := Some khewat; row_td3 := Some khatoni |}.

Definition page_nakals_three : Html :=
  form "vs6" "ev6" []
    (grid [candidate "0" "3" "9"; candidate "1" "4" "10"; candidate "2" "5" "11"]).

Definition page_unavailable : Html :=
  {| inputs := []; divs := []; tables := []; spans := [] |}.

Definition replies_retried : list Reply :=
  [ Response 200 page_start; Response 200 page_districts;
    Response 200 page_sub_districts; Response 200 page_villages;
    Response 200 page_years_two; Response 200 page_khasras;
    Response 503 page_unavailable; Response 200 page_nakals_three;
    Response 200 page_selected; Response 200 page_document ].

Definition output_retried : Output :=
  {| out_district_name := "DistrictA"; out_district_code := Some "01";
     out_tehsil_name := "TehsilA"; out_tehsil_code := Some "001";
     out_villege_name := "VillageA"; out_villege_code := Some "0284";
     out_jamabandi_year := "2023-2024";
     out_khewat_no := Some "5"; out_khatoni_no := Some "11";
     out_khasra_code := Some "6"; out_khasra_no := "6";
     out_inner_details :=
       {| in_villege := Some "VillageA"; in_hadbast_no := Some "50";
          in_tehsil := Some "TehsilA"; in_district := Some "DistrictA";
          in_year := Some "2022-2023" |} |}.

Definition at_end_retried : State :=
  Eval vm_compute in
    snd (extract_data "DistrictA" "TehsilA" "VillageA" "6" None
           (start replies_retried [])).

(** The states that run goes through up to the list of candidates. *)
Definition at_page_retried : State := Eval vm_compute in to_page replies_retried.
Definition at_districts_retried : State :=
  Eval vm_compute in to_districts at_page_retried.
Definition at_sub_districts_retried : State :=
  Eval vm_compute in to_sub_districts at_districts_retried.
Definition at_villeges_retried : State :=
  Eval vm_compute in to_villeges at_sub_districts_retried.
Definition at_years_retried : State :=
  Eval vm_compute in to_years at_villeges_retried.
Definition at_khasras_retried : State :=
  Eval vm_compute in
    run_to (get_khasras (Some "01") (Some "001") (Some "0284") (Some "2023-2024")
            ;; ret tt)
           "Getting khasras." at_years_retried.
Definition at_nakals_retried : State :=
  Eval vm_compute in
    run_to (get_nakals (Some "01") (Some "001") (Some "0284") (Some "2023-2024")
                       (Some "6") ;; ret tt)
           "Getting nakals." at_khasras_retried.

(** A third one: the second cell of the last candidate is empty, so the
    output has no [khewat_no]. *)
Definition page_nakals_blank : Html :=
  form "vs6" "ev6" []
    (grid [ candidate "0" "3" "9";
            {| row_href := link "1"; row_td2 := None; row_td3 := Some "10" |} ]).

Definition replies_blank : list Reply :=
  map (Response 200)
    [ page_start; page_districts; page_sub_districts; page_villages; page_years;
      page_khasras; page_nakals_blank; page_selected; page_document ].

(** A row stored for another khasra of the same village. *)
Definition other : LandRecord :=
  {| id := 4;
     fields :=
       {| district_name := Some "DistrictA"; district_code := Some "01";
          tehsil_name := Some "TehsilA"; tehsil_code := Some "001";
          villege_name := Some "VillageA"; villege_code := Some "0284";
          jamabandi_year := Some "2022-2023";
          khewat_no := Some "1"; khatoni_no := Some "7";
          khasra_code := Some "5"; khasra_no := Some "5";
          nakal_villege := Some "VillageA"; nakal_hadbast := Some "50";
          nakal_tehsil := Some "TehsilA"; nakal_district := Some "DistrictA";
          nakal_year := Some "2022-2023" |} |}.

End Canned.

(** ** Where a run of [extract_data] stands

    [extract_data d t v k path] started in [s0] has just obtained the
    Option Set of a level, in state [s], every earlier name having been
    found.  The decorated steps are taken as they are, so a step that
    needed several attempts is covered. *)

Definition districts_listed (s0 : State) (districts : dict pystr) (s : State) : Prop :=
  exists s1,
    get_jamabandi_page
      (add_log [EvPrint "Fetching jamabandi page."] (with_obj new_extractor s0))
    = (Ret tt, s1) /\
    get_districts (add_log [EvPrint "Getting districts."] s1) = (Ret districts, s).

Definition sub_districts_listed (d : string) (s0 : State)
           (district_id : pystr) (sub_districts : dict pystr) (s : State) : Prop :=
  exists districts s2,
    districts_listed s0 districts s2 /\
    dict_get (Some d) districts = Some district_id /\
    get_sub_districts district_id (add_log [EvPrint "Getting sub-districts."] s2)
    = (Ret sub_districts, s).

Definition villeges_listed (d t : string) (s0 : State)
           (district_id sub_district_id : pystr) (villeges : dict pystr) (s : State)
  : Prop :=
  exists sub_districts s3,
    sub_districts_listed d s0 district_id sub_districts s3 /\
    dict_get (Some t) sub_districts = Some sub_district_id /\
    get_villeges district_id sub_district_id (add_log [EvPrint "Getting villeges."] s3)
    = (Ret villeges, s).

Definition years_listed (d t v : string) (s0 : State)
           (district_id sub_district_id villege_id : pystr) (years : list string)
           (s : State) : Prop :=
  exists villeges s4,
    villeges_listed d t s0 district_id sub_district_id villeges s4 /\
    dict_get (Some v) villeges = Some villege_id /\
    get_years district_id sub_district_id villege_id
      (add_log [EvPrint "Getting years."] s4)
    = (Ret years, s).

Definition khasras_listed (d t v : string) (s0 : State)
           (district_id sub_district_id villege_id : pystr) (year : string)
           (khasras : dict pystr) (s : State) : Prop :=
  exists later_years s5,
    years_listed d t v s0 district_id sub_district_id villege_id
                 (year :: later_years) s5 /\
    get_khasras district_id sub_district_id villege_id (Some year)
      (add_log [EvPrint "Getting khasras."] s5)
    = (Ret khasras, s).

(** The Option Set in which the name of a level is looked up. *)
Definition option_set_listed (d t v : string) (s0 : State)
           (level : Level) (options : dict pystr) (s : State) : Prop :=
  match level with
  | District => districts_listed s0 options s
  | SubDistrict => exists district_id, sub_districts_listed d s0 district_id options s
  | Village =>
      exists district_id sub_district_id,
        villeges_listed d t s0 district_id sub_district_id options s
  | Khasra =>
      exists district_id sub_district_id villege_id year,
        khasras_listed d t v s0 district_id sub_district_id villege_id year options s
  end.

(** The caller's name for a level. *)
Definition name_at (level : Level) (d t v k : string) : string :=
  match level with
  | District => d
  | SubDistrict => t
  | Village => v
  | Khasra => k
  end.

(** ** Replies that let a step succeed at once *)

(** A first page the page step accepts. *)
Definition seeds (status_code : Z) (page : Html) : bool :=
  status_ok status_code
  && truthy (xpath_input_value "__VIEWSTATE" (inputs page))
  && truthy (xpath_input_value "__VIEWSTATEGENERATOR" (inputs page))
  && truthy (xpath_input_value "__EVENTVALIDATION" (inputs page)).

(** A reply a POST step accepts as far as status and hidden fields go. *)
Definition answers (status_code : Z) (page : Html) : bool :=
  status_ok status_code && tokens_ok page.

(** The state a POST step leaves when its reply is accepted. *)
Definition posted (data : dict pystr) (page : Html) (rest : list Reply) (s : State)
  : State :=
  {| obj := refreshed page (obj s); net := rest;
     log := log s ++ [EvPost jamabandi_uri data]; db := db s |}.

Definition has_link (row : GridRow) : bool := is_some (row_href row).

(** The id made from the link of a row. *)
Definition nakal_id_of_row (row : GridRow) : string :=
  match row_href row with
  | Some href => nakal_id_of_href href
  | None => ""
  end.

Definition detail_of_row (row : GridRow) : NakalDetail :=
  {| nd_khewat_no := row_td2 row; nd_khatoni_no := row_td3 row |}.

(** ** The other operations of [LandRecordCRUD]

    [create_record] builds the row from the keyword arguments it is
    given, which are taken among the sixteen data columns, a column left
    out being [None]; [read_record] answers [{}] for an unknown id,
    represented by [None].  The ids handed to [read_record],
    [update_record] and [delete_record] are rowids ([is_rowid]): the
    database driver raises [OverflowError] for any other integer. *)

Definition create_record (kwargs : RecordData) : M NakalData :=
  add_and_commit kwargs.

Definition read_record (record_id : Z) : M (option LandRecord) :=
  fun s => (Ret (find (fun r => (id r =? record_id)%Z) (db s)), s).

(** [session.delete(record)] for the first row with the given id. *)
Fixpoint delete_row (record_id : Z) (rows : list LandRecord) : list LandRecord :=
  match rows with
  | [] => []
  | r :: rest =>
      if (id r =? record_id)%Z then rest else r :: delete_row record_id rest
  end.

Definition delete_record (record_id : Z) : M bool :=
  fun s =>
    match find (fun r => (id r =? record_id)%Z) (db s) with
    | Some _ => (Ret true, with_db (delete_row record_id (db s)) s)
    | None => (Ret false, s)
    end.

(** [if name: query = query.filter_by(column=name)]: a criterion that is
    [None] or [''] is skipped.  The rows are listed in table order;
    SQLite returns them in the order of the index when the district is
    one of the criteria, so for a search that leaves a name out only
    the set of rows found is meaningful. *)
Definition filter_if (name : pystr) (column : RecordData -> pystr)
           (rows : list LandRecord) : list LandRecord :=
  if truthy name
  then filter (fun r => pystr_eqb (column (fields r)) name) rows
  else rows.

Definition search_records (district_name' tehsil_name' villege_name' : pystr)
  : M (list LandRecord) :=
  fun s =>
    (Ret (filter_if villege_name' villege_name
            (filter_if tehsil_name' tehsil_name
               (filter_if district_name' district_name (db s)))), s).

(** ** More vocabulary *)

(** Every character of a string satisfies [p]. *)
Fixpoint all_chars (p : ascii -> bool) (s : string) : bool :=
  match s with
  | EmptyString => true
  | String c rest => p c && all_chars p rest
  end.

Definition is_not (c : ascii) (x : ascii) : bool := negb (Ascii.eqb x c).

(** Seconds slept and requests sent, per event. *)
Definition sleep_seconds (ev : Event) : nat :=
  match ev with
  | EvSleep seconds => seconds
  | _ => 0
  end.

Definition request_count (ev : Event) : nat :=
  if is_request ev then 1 else 0.

(** Whatever the state, [m] only appends to the trace, and what it
    appends weighs at most [n]. *)
Definition costs_at_most {A} (w : Event -> nat) (n : nat) (m : M A) : Prop :=
  forall s, exists evs,
      log (snd (m s)) = log s ++ evs /\ list_sum (map w evs) <= n.

(** A weight that ignores what is printed. *)
Definition silent_prints (w : Event -> nat) : Prop :=
  (forall text, w (EvPrint text) = 0) /\
  (forall err, w (EvPrintTraceback err) = 0) /\
  (forall data, w (EvPrintData data) = 0) /\
  (forall path content, w (EvWriteText path content) = 0) /\
  (forall path, w (EvMkdir path) = 0).

(** What a listing step reads from the page, as emptiness. *)
Definition extraction_empty (st : CascadeStep) (page : Html) : bool :=
  match st with
  | ListDistricts =>
      match options_dict (xpath_options "Select District" page) with
      | [] => true | _ => false end
  | ListSubDistricts _ =>
      match options_dict (xpath_options "Select Tehsil/ Sub-Tehsil" page) with
      | [] => true | _ => false end
  | ListVillages _ _ =>
      match options_dict (xpath_options "Select Village" page) with
      | [] => true | _ => false end
  | ListYears _ _ _ =>
      match option_values (xpath_options "Jamabandi Year" page) with
      | [] => true | _ => false end
  | ListKhasras _ _ _ _ =>
      match options_dict (xpath_options "Khasra" page) with
      | [] => true | _ => false end
  | ListNakals _ _ _ _ _ =>
      match xpath_grid_rows page with
      | [] => true | _ => false end
  | SelectNakal _ _ _ _ _ _ => false
  end.

(** The fields named by the exception a listing step raises on an empty
    extraction. *)
Definition missing_fields_of (st : CascadeStep) : list string :=
  match st with
  | ListDistricts => ["districts"]
  | ListSubDistricts _ => ["sub-districts"]
  | ListVillages _ _ => ["villeges"]
  | ListYears _ _ _ => ["years"]
  | ListKhasras _ _ _ _ => ["khasras"]
  | ListNakals _ _ _ _ _ => ["nakals"; "nakal_detail"]
  | SelectNakal _ _ _ _ _ _ => []
  end.

(** A computation from which no exception escapes. *)
Definition never_raises {A} (m : M A) : Prop :=
  forall s e, fst (m s) <> Raise e.

(** The next request gets no usable answer: nothing comes back, or what
    comes back has a 4xx or 5xx status. *)
Definition transport_fails (replies : list Reply) : bool :=
  match replies with
  | [] => true
  | ConnectionError _ :: _ => true
  | Response status_code _ :: _ => negb (status_ok status_code)
  end.


(** ** Requests on the trace *)

Definition is_post (ev : Event) : bool :=
  match ev with
  | EvPost _ _ => true
  | _ => false
  end.

(** The weight that counts the events that do not satisfy [P]. *)
Definition fails (P : Event -> bool) (ev : Event) : nat :=
  if P ev then 0 else 1.

(** A GET of [url]. *)
Definition gets (url : string) (ev : Event) : bool :=
  match ev with
  | EvGet url' => String.eqb url' url
  | _ => false
  end.

(** A POST of the form whose [data] hold every pair of [l]. *)
Definition posts_with (l : list (pystr * pystr)) (ev : Event) : bool :=
  match ev with
  | EvPost url data =>
      String.eqb url jamabandi_uri
      && forallb (fun kv => match dict_get (fst kv) data with
                            | Some value => pystr_eqb value (snd kv)
                            | None => false
                            end) l
  | _ => false
  end.

(** [evs] holds at least one request, and every request it holds
    satisfies [Q]. *)
Definition requests_all (Q : Event -> bool) (evs : list Event) : bool :=
  existsb is_request evs
  && forallb (fun ev => implb (is_request ev) (Q ev)) evs.

(** [evs] falls into consecutive parts, one for each entry of [steps]
    and in that order; the part of an entry holds at least one request
    and no request but those the entry describes. *)
Fixpoint steps_requested (steps : list (Event -> bool)) (evs : list Event) : Prop :=
  match steps with
  | [] => evs = []
  | Q :: later =>
      exists part rest,
        evs = part ++ rest /\ requests_all Q part = true /\
        steps_requested later rest
  end.

Definition event_target (name : string) : pystr * pystr :=
  (Some "__EVENTTARGET", Some name).

(** The nine steps of [extract_data], each by the request it sends. *)
Definition full_step_sequence : list (Event -> bool) :=
  [ gets jamabandi_uri;
    posts_with [event_target "ctl00$ContentPlaceHolder1$RdobtnKhasra"];
    posts_with [event_target "ctl00$ContentPlaceHolder1$ddldname"];
    posts_with [event_target "ctl00$ContentPlaceHolder1$ddltname"];
    posts_with [event_target "ctl00$ContentPlaceHolder1$ddlvname"];
    posts_with [event_target "ctl00$ContentPlaceHolder1$ddlPeriod"];
    posts_with [event_target "ctl00$ContentPlaceHolder1$ddlkhasra"];
    posts_with [event_target "ctl00$ContentPlaceHolder1$GridView1"];
    gets nakal_khewat_uri ].
(** * Properties *)

Lemma pystr_eqb_refl (a : pystr) : pystr_eqb a a = true.
Proof. destruct a; simpl; auto using String.eqb_refl. Qed.

Lemma pystr_eqb_eq (a b : pystr) : pystr_eqb a b = true <-> a = b.
Proof.
  destruct a, b; simpl; split; intro H; try discriminate; auto.
  - apply String.eqb_eq in H. now subst.
  - inversion H. apply String.eqb_refl.
Qed.


(** *** Strings and dictionaries behave as in Python *)

Example contains_str_caption :
  contains_str "Khasra" "Select Khasra No." = true /\
  contains_str "Select Village" "Select District" = false.
Proof. split; reflexivity. Qed.

Example nakal_id_of_href_postback :
  nakal_id_of_href
    "javascript:__doPostBack('ctl00$ContentPlaceHolder1$GridView1','Select$12')"
  = "Select$12".
Proof. reflexivity. Qed.

Example replace_slashes : replace "/" "-" "1//17" = "1--17".
Proof. reflexivity. Qed.

Example split_last_without_separator : split_last "$" "abc" = "abc".
Proof. reflexivity. Qed.

Lemma dict_get_set {V} (k k' : pystr) (v : V) (d : dict V) :
  dict_get k (dict_set k' v d)
  = if pystr_eqb k k' then Some v else dict_get k d.
Proof.
  induction d as [| [k0 v0] d IH]; simpl.
  - reflexivity.
  - destruct (pystr_eqb k' k0) eqn:E0; simpl.
    + apply pystr_eqb_eq in E0; subst k0.
      destruct (pystr_eqb k k'); reflexivity.
    + destruct (pystr_eqb k k0) eqn:E1.
      * destruct (pystr_eqb k k') eqn:E2; [| reflexivity].
        apply pystr_eqb_eq in E1, E2. subst.
        rewrite pystr_eqb_refl in E0. discriminate.
      * exact IH.
Qed.

(** In a comprehension a repeated key keeps its first position and takes
    the last value. *)
Example dict_of_pairs_repeated_key :
  dict_of_pairs [(Some "a", 1); (Some "b", 2); (Some "a", 3)]
  = [(Some "a", 3); (Some "b", 2)].
Proof. reflexivity. Qed.

(** *** The trace only grows *)

Lemma add_log_add_log (a b : list Event) (s : State) :
  add_log b (add_log a s) = add_log (a ++ b) s.
Proof. unfold add_log, with_log; simpl. now rewrite app_assoc. Qed.

(** *** Sequencing *)

Lemma bind_Ret {A B} (m : M A) (k : A -> M B) s a s' :
  m s = (Ret a, s') -> bind m k s = k a s'.
Proof. unfold bind; intros ->; reflexivity. Qed.

Lemma bind_Raise {A B} (m : M A) (k : A -> M B) s e s' :
  m s = (Raise e, s') -> bind m k s = (Raise e, s').
Proof. unfold bind; intros ->; reflexivity. Qed.

Lemma bind_Exit {A B} (m : M A) (k : A -> M B) s msg s' :
  m s = (Exit msg, s') -> bind m k s = (Exit msg, s').
Proof. unfold bind; intros ->; reflexivity. Qed.

(** *** The decorator, one iteration at a time *)

Section Wrapper.
Context {A : Type} (retries delay : nat) (func : M A).

Lemma wrapper_Ret remaining attempt err s a s' :
  func s = (Ret a, s') ->
  wrapper retries delay func (S remaining) attempt err s = (Ret a, s').
Proof. simpl; intros ->; reflexivity. Qed.

Lemma wrapper_Exit remaining attempt err s msg s' :
  func s = (Exit msg, s') ->
  wrapper retries delay func (S remaining) attempt err s = (Exit msg, s').
Proof. simpl; intros ->; reflexivity. Qed.

Lemma wrapper_Raise remaining attempt err s e s' :
  func s = (Raise e, s') ->
  wrapper retries delay func (S remaining) attempt err s =
  wrapper retries delay func remaining (S attempt) (Some e)
    (add_log [EvPrint (retrying_text e (S attempt) retries); EvSleep delay] s').
Proof.
  simpl; intros ->. unfold bind, print, sleep, emit.
  now rewrite add_log_add_log.
Qed.

Lemma wrapper_O attempt err s :
  wrapper retries delay func 0 attempt err s =
  (Exit exit_text,
   add_log [EvPrintTraceback err;
            EvPrint "All retries failed. Here's the traceback:"] s).
Proof.
  simpl. unfold bind, print, emit, sys_exit.
  now rewrite add_log_add_log.
Qed.
End Wrapper.

(** *** Exhaustion of the retries *)

Section Exhaustion.
Context {A : Type} (func : M A).
(** [Inv] describes the states in which the step is attempted; the
    lines the decorator adds to the trace do not leave it. *)
Variable Inv : State -> Prop.
Hypothesis Inv_add_log : forall s evs, Inv s -> Inv (add_log evs s).
Hypothesis func_fails :
  forall s, Inv s -> exists e s', func s = (Raise e, s') /\ Inv s'.

(** C3. With [retries=3] and [delay=5], a step that fails whenever it
    is attempted is called exactly three times; each failure is
    followed by the "Retrying k/3" line and a sleep of 5; after the
    third one the traceback of that last failure is printed and the
    run ends with [SystemExit]. *)
Theorem retry_exhausted_after_three_attempts (s : State) :
  Inv s ->
  exists e1 s1 e2 s2 e3 s3,
    func s = (Raise e1, s1) /\
    func (add_log [EvPrint (retrying_text e1 1 3); EvSleep 5] s1) = (Raise e2, s2) /\
    func (add_log [EvPrint (retrying_text e2 2 3); EvSleep 5] s2) = (Raise e3, s3) /\
    retry_on_exception 3 5 func s =
    (Exit exit_text,
     add_log [EvPrint (retrying_text e3 3 3); EvSleep 5;
              EvPrintTraceback (Some e3);
              EvPrint "All retries failed. Here's the traceback:"] s3).
Proof.
  intros H0.
  destruct (func_fails s H0) as (e1 & s1 & F1 & H1).
  pose proof (Inv_add_log s1 [EvPrint (retrying_text e1 1 3); EvSleep 5] H1) as H1'.
  destruct (func_fails _ H1') as (e2 & s2 & F2 & H2).
  pose proof (Inv_add_log s2 [EvPrint (retrying_text e2 2 3); EvSleep 5] H2) as H2'.
  destruct (func_fails _ H2') as (e3 & s3 & F3 & H3).
  exists e1, s1, e2, s2, e3, s3.
  repeat split; try assumption.
  unfold retry_on_exception.
  rewrite (wrapper_Raise 3 5 func _ _ _ _ _ _ F1).
  rewrite (wrapper_Raise 3 5 func _ _ _ _ _ _ F2).
  rewrite (wrapper_Raise 3 5 func _ _ _ _ _ _ F3).
  rewrite wrapper_O, add_log_add_log. reflexivity.
Qed.
End Exhaustion.

(** The districts step against a server that never answers: three
    requests, three sleeps of 5, then the exit. *)
Lemma retry_exhausted_witness :
  (exists e1 s1 e2 s2 e3 s3,
      get_districts_func (Canned.start [] []) = (Raise e1, s1) /\
      get_districts_func (add_log [EvPrint (retrying_text e1 1 3); EvSleep 5] s1)
      = (Raise e2, s2) /\
      get_districts_func (add_log [EvPrint (retrying_text e2 2 3); EvSleep 5] s2)
      = (Raise e3, s3) /\
      get_districts (Canned.start [] []) =
      (Exit exit_text,
       add_log [EvPrint (retrying_text e3 3 3); EvSleep 5;
                EvPrintTraceback (Some e3);
                EvPrint "All retries failed. Here's the traceback:"] s3)) /\
  filter is_sleep (log (snd (get_districts (Canned.start [] []))))
  = [EvSleep 5; EvSleep 5; EvSleep 5] /\
  List.length (filter is_request (log (snd (get_districts (Canned.start [] []))))) = 3.
Proof.
  split; [| split; reflexivity].
  apply (retry_exhausted_after_three_attempts get_districts_func
           (fun s => net s = [])).
  - intros s evs H; exact H.
  - intros s H.
    unfold get_districts_func, postback, session_post, take_reply, bind, get_self.
    rewrite H. eexists; eexists; split; [reflexivity | exact H].
  - reflexivity.
Defined.

(** *** One POST step *)

Lemma status_ok_check (c : Z) (page : Html) :
  status_ok c = true -> raise_for_status (c, page) = ret tt.
Proof.
  unfold status_ok, raise_for_status; simpl.
  intro H. apply negb_true_iff in H. now rewrite H.
Qed.

(** A reply with both hidden fields: the page is returned and the two
    fields are stored. *)
Lemma postback_ok (data : dict pystr) s c page rest :
  net s = Response c page :: rest ->
  status_ok c = true ->
  tokens_ok page = true ->
  postback data s =
  (Ret page,
   {| obj := refreshed page (obj s); net := rest;
      log := log s ++ [EvPost jamabandi_uri data]; db := db s |}).
Proof.
  intros Hnet Hc Htok.
  unfold postback, session_post, take_reply, bind.
  rewrite Hnet. cbn [fst snd].
  rewrite (status_ok_check _ _ Hc). unfold ret at 1.
  unfold tokens_ok in Htok. apply andb_true_iff in Htok as [H1 H2].
  rewrite H1, H2. reflexivity.
Qed.

(** A reply lacking one of them: the step raises and [self] is left as
    it was. *)
Lemma postback_token_missing (data : dict pystr) s c page rest :
  net s = Response c page :: rest ->
  status_ok c = true ->
  tokens_ok page = false ->
  postback data s =
  (Raise (FormFieldNotFoundException ["viewstate"; "event_validation"]),
   {| obj := obj s; net := rest;
      log := log s ++ [EvPost jamabandi_uri data; EvPrint failed_fields_text];
      db := db s |}).
Proof.
  intros Hnet Hc Htok.
  unfold postback, session_post, take_reply, bind.
  rewrite Hnet. cbn [fst snd].
  rewrite (status_ok_check _ _ Hc). unfold ret at 1.
  unfold tokens_ok in Htok.
  rewrite <- negb_andb, Htok. cbn.
  unfold add_log, with_log, with_net; cbn. now rewrite <- app_assoc.
Qed.

(** Every POST step, given a reply without [__VIEWSTATE] or without
    [__EVENTVALIDATION], raises [FormFieldNotFoundException] and keeps
    the four held values. *)
Lemma cascade_step_token_missing (st : CascadeStep) s c page rest :
  net s = Response c page :: rest ->
  status_ok c = true ->
  tokens_ok page = false ->
  exists s',
    step_func st s
    = (Raise (FormFieldNotFoundException ["viewstate"; "event_validation"]), s')
    /\ obj s' = obj s.
Proof.
  intros Hnet Hc Htok.
  destruct st; cbn [step_func];
    unfold get_districts_func, get_sub_districts_func, get_villeges_func,
      get_years_func, get_khasras_func, get_nakals_func, select_nakals_func,
      bind, get_self;
    cbv beta iota;
    rewrite (postback_token_missing _ _ _ _ _ Hnet Hc Htok);
    (eexists; split; [reflexivity | reflexivity]).
Qed.

(** C1. The first step stores what it reads before validating it: on a
    fresh extractor, a first page carrying [__VIEWSTATE] and
    [__VIEWSTATEGENERATOR] but no [__EVENTVALIDATION] makes the step
    raise [FormFieldNotFoundException], and the held values are no
    longer the ones held before the attempt. *)
Theorem get_jamabandi_page_failure_overwrites_tokens :
  let s := Canned.start [Response 200 Canned.page_start_broken] [] in
  let r := get_jamabandi_page_func s in
  tokens_ok Canned.page_start_broken = false /\
  fst r = Raise (FormFieldNotFoundException
                   ["viewstate"; "event_validation"; "viewstate_generator"]) /\
  obj s = new_extractor /\
  obj (snd r) = {| viewstate := Some "vs0"; event_arg := None;
                   event_validation := None;
                   viewstate_generator := Some "5E1F1B9A" |} /\
  obj (snd r) <> obj s.
Proof.
  cbv zeta. repeat split; try reflexivity.
  vm_compute. discriminate.
Qed.

(** *** What a POST step sends and what it touches *)

Lemma bind_snd_pure {A B} (m : M A) (k : A -> M B) s :
  (forall a s', snd (k a s') = s') -> snd (bind m k s) = snd (m s).
Proof.
  intro Hk. unfold bind. destruct (m s) as [[a | e | msg] s']; simpl; auto.
Qed.

Lemma nakal_rows_loop_pure rows nakals nakal_detail s :
  snd (nakal_rows_loop rows nakals nakal_detail s) = s.
Proof.
  revert nakals nakal_detail.
  induction rows as [| row rest IH]; intros nakals nakal_detail; simpl.
  - reflexivity.
  - destruct (row_href row); [apply IH | reflexivity].
Qed.

(** After the request, a POST step only reads the page. *)
Lemma step_func_state (st : CascadeStep) s :
  snd (step_func st s) = snd (postback (step_data st (obj s)) s).
Proof.
  destruct st; cbn [step_func step_data];
    unfold get_districts_func, get_sub_districts_func, get_villeges_func,
      get_years_func, get_khasras_func, get_nakals_func, select_nakals_func;
    try (rewrite bind_snd_pure; [| intros; reflexivity]);
    unfold bind at 1, get_self; cbv beta iota;
    (rewrite bind_snd_pure; [reflexivity |]);
    intros a s'.
  1-5: match goal with |- context [match ?d with [] => _ | _ => _ end] =>
         destruct d; reflexivity end.
  - rewrite bind_snd_pure.
    + apply nakal_rows_loop_pure.
    + intros r s''. destruct (fst r); reflexivity.
  - reflexivity.
Qed.

(** The request is the first thing added to the trace, and the only
    request. *)
Lemma postback_trace (data : dict pystr) s :
  exists evs,
    log (snd (postback data s)) = log s ++ EvPost jamabandi_uri data :: evs /\
    forallb (fun ev => negb (is_request ev)) evs = true.
Proof.
  unfold postback, session_post, take_reply, bind, raise_for_status.
  destruct (net s) as [| [detail | c page] rest]; cbn [fst snd].
  - exists []. split; reflexivity.
  - exists []. split; reflexivity.
  - destruct ((400 <=? c)%Z && (c <? 600)%Z); cbn.
    + exists []. split; reflexivity.
    + destruct (negb (truthy (xpath_input_value "__VIEWSTATE" (inputs page)))
                || negb (truthy (xpath_input_value "__EVENTVALIDATION" (inputs page))));
        cbn.
      * exists [EvPrint failed_fields_text]. rewrite <- app_assoc. split; reflexivity.
      * exists []. split; reflexivity.
Qed.

(** No POST step assigns [event_arg] or [viewstate_generator]. *)
Lemma postback_keeps (data : dict pystr) s :
  event_arg (obj (snd (postback data s))) = event_arg (obj s) /\
  viewstate_generator (obj (snd (postback data s))) = viewstate_generator (obj s).
Proof.
  unfold postback, session_post, take_reply, bind, raise_for_status.
  destruct (net s) as [| [detail | c page] rest]; cbn [fst snd];
    try (split; reflexivity).
  destruct ((400 <=? c)%Z && (c <? 600)%Z); cbn; try (split; reflexivity).
  destruct (negb (truthy (xpath_input_value "__VIEWSTATE" (inputs page)))
            || negb (truthy (xpath_input_value "__EVENTVALIDATION" (inputs page))));
    cbn; split; reflexivity.
Qed.

(** C6. Whatever the state, the one request a cascading step sends is a
    POST of its [data]; that [data] maps the form key of every level
    resolved so far to its code, holds the four hidden-field keys
    ([__VIEWSTATE], [__VIEWSTATEGENERATOR] and [__EVENTVALIDATION] with
    the values held, [__EVENTARGUMENT] with the value the step gives
    it), the event target and the constant entries. *)
Theorem cascading_request_repeats_resolved_codes (st : CascadeStep) (s : State) :
  let data := step_data st (obj s) in
  (exists evs,
      log (snd (step_func st s)) = log s ++ EvPost jamabandi_uri data :: evs /\
      forallb (fun ev => negb (is_request ev)) evs = true) /\
  holds_all (resolved_codes st) data /\
  holds_all [ (Some "__VIEWSTATE", viewstate (obj s));
              (Some "__VIEWSTATEGENERATOR", viewstate_generator (obj s));
              (Some "__EVENTVALIDATION", event_validation (obj s));
              (Some "__EVENTARGUMENT", event_argument_sent st (obj s)) ] data /\
  dict_mem (Some "__EVENTTARGET") data = true /\
  holds_all protocol_constants data.
Proof.
  cbv zeta. split.
  - rewrite step_func_state. apply postback_trace.
  - destruct st; cbn [step_data resolved_codes event_argument_sent];
      repeat split; repeat constructor.
Qed.

(** C10 fails as stated for the districts step: after a first page
    without [__EVENTARGUMENT] the held value is [None], yet the request
    for the districts carries the empty string. *)
Lemma districts_request_sends_empty_argument :
  let s0 := Canned.start [Response 200 Canned.page_start_no_argument;
                          Response 200 Canned.page_districts] [] in
  let s1 := snd (get_jamabandi_page_func s0) in
  fst (get_jamabandi_page_func s0) = Ret tt /\
  event_arg (obj s1) = None /\
  log (snd (get_districts_func s1))
  = [EvGet jamabandi_uri; EvPost jamabandi_uri (get_districts_data (obj s1))] /\
  dict_get (Some "__EVENTARGUMENT") (get_districts_data (obj s1)) = Some (Some "") /\
  dict_get (Some "__EVENTARGUMENT") (get_districts_data (obj s1)) <> Some None.
Proof.
  cbv zeta. repeat split; try reflexivity.
  vm_compute. discriminate.
Qed.

(** The page step on an accepted first page. *)
Lemma get_jamabandi_page_func_ok s c page rest :
  net s = Response c page :: rest ->
  seeds c page = true ->
  get_jamabandi_page_func s =
  (Ret tt,
   {| obj := seeded page; net := rest;
      log := log s ++ [EvGet jamabandi_uri]; db := db s |}).
Proof.
  intros Hnet Hs.
  unfold seeds in Hs.
  apply andb_true_iff in Hs as [Hs Hev].
  apply andb_true_iff in Hs as [Hs Hgen].
  apply andb_true_iff in Hs as [Hc Hvs].
  unfold get_jamabandi_page_func, session_get, take_reply, bind.
  rewrite Hnet. cbn [fst snd].
  rewrite (status_ok_check _ _ Hc). unfold ret at 1.
  cbn. rewrite Hvs, Hgen, Hev. reflexivity.
Qed.

(** C10, amended. A first page without [__EVENTARGUMENT] is accepted as
    long as the three validated fields are there, and leaves [event_arg]
    at [None].  From then on every POST step keeps it at [None]; the
    steps from the sub-districts to the nakals send that [None], the
    districts step sends [''] and the selection sends the nakal id. *)
Theorem missing_event_argument_is_accepted s c page rest :
  net s = Response c page :: rest ->
  seeds c page = true ->
  xpath_input_value "__EVENTARGUMENT" (inputs page) = None ->
  get_jamabandi_page_func s =
  (Ret tt,
   {| obj := seeded page; net := rest;
      log := log s ++ [EvGet jamabandi_uri]; db := db s |}) /\
  event_arg (seeded page) = None /\
  forall (st : CascadeStep) (s' : State),
    event_arg (obj s') = None ->
    dict_get (Some "__EVENTARGUMENT") (step_data st (obj s'))
    = Some match st with
           | ListDistricts => Some ""
           | SelectNakal _ _ _ _ _ nakal_id => nakal_id
           | _ => None
           end /\
    event_arg (obj (snd (step_func st s'))) = None.
Proof.
  intros Hnet Hs Harg. split; [| split].
  - now apply (get_jamabandi_page_func_ok s c).
  - exact Harg.
  - intros st s' Hnone. split.
    + destruct st; cbn [step_data]; try rewrite <- Hnone; reflexivity.
    + rewrite step_func_state.
      destruct (postback_keeps (step_data st (obj s')) s') as [-> _].
      exact Hnone.
Qed.

Lemma missing_event_argument_witness :
  get_jamabandi_page_func
    (Canned.start [Response 200 Canned.page_start_no_argument] [])
  = (Ret tt,
     {| obj := seeded Canned.page_start_no_argument; net := [];
        log := [] ++ [EvGet jamabandi_uri]; db := [] |}) /\
  event_arg (seeded Canned.page_start_no_argument) = None /\
  forall (st : CascadeStep) (s' : State),
    event_arg (obj s') = None ->
    dict_get (Some "__EVENTARGUMENT") (step_data st (obj s'))
    = Some match st with
           | ListDistricts => Some ""
           | SelectNakal _ _ _ _ _ nakal_id => nakal_id
           | _ => None
           end /\
    event_arg (obj (snd (step_func st s'))) = None.
Proof.
  apply (missing_event_argument_is_accepted
           (Canned.start [Response 200 Canned.page_start_no_argument] [])
           200%Z Canned.page_start_no_argument []);
    reflexivity.
Defined.

(** *** Steps that succeed at the first attempt *)

Lemma posted_ok (data : dict pystr) s c page rest :
  net s = Response c page :: rest ->
  answers c page = true ->
  postback data s = (Ret page, posted data page rest s).
Proof.
  intros Hnet Ha. apply andb_true_iff in Ha as [Hc Htok].
  now apply postback_ok with (c := c).
Qed.

Ltac post_step Hnet Ha :=
  unfold retry_on_exception; apply wrapper_Ret;
  unfold get_districts_func, get_sub_districts_func, get_villeges_func,
    get_years_func, get_khasras_func, get_nakals_func, select_nakals_func;
  unfold bind at 1, get_self; cbv beta iota;
  rewrite (bind_Ret _ _ _ _ _ (posted_ok _ _ _ _ _ Hnet Ha)).

Ltac nonempty H :=
  match goal with
  | |- context [match ?d with [] => _ | _ => _ end] =>
      destruct d; [exfalso; apply H; reflexivity | reflexivity]
  end.

Lemma dict_get_nonempty {V} (k : pystr) (d : dict V) (v : V) :
  dict_get k d = Some v -> d <> [].
Proof. intros H ->. discriminate. Qed.

Lemma get_districts_ok s c page rest :
  net s = Response c page :: rest ->
  answers c page = true ->
  options_dict (xpath_options "Select District" page) <> [] ->
  get_districts s =
  (Ret (options_dict (xpath_options "Select District" page)),
   posted (get_districts_data (obj s)) page rest s).
Proof. intros Hnet Ha Hne. post_step Hnet Ha. nonempty Hne. Qed.

Lemma get_sub_districts_ok d s c page rest :
  net s = Response c page :: rest ->
  answers c page = true ->
  options_dict (xpath_options "Select Tehsil/ Sub-Tehsil" page) <> [] ->
  get_sub_districts d s =
  (Ret (options_dict (xpath_options "Select Tehsil/ Sub-Tehsil" page)),
   posted (get_sub_districts_data (obj s) d) page rest s).
Proof. intros Hnet Ha Hne. post_step Hnet Ha. nonempty Hne. Qed.

Lemma get_villeges_ok d t s c page rest :
  net s = Response c page :: rest ->
  answers c page = true ->
  options_dict (xpath_options "Select Village" page) <> [] ->
  get_villeges d t s =
  (Ret (options_dict (xpath_options "Select Village" page)),
   posted (get_villeges_data (obj s) d t) page rest s).
Proof. intros Hnet Ha Hne. post_step Hnet Ha. nonempty Hne. Qed.

Lemma get_years_ok d t v s c page rest :
  net s = Response c page :: rest ->
  answers c page = true ->
  option_values (xpath_options "Jamabandi Year" page) <> [] ->
  get_years d t v s =
  (Ret (option_values (xpath_options "Jamabandi Year" page)),
   posted (get_years_data (obj s) d t v) page rest s).
Proof. intros Hnet Ha Hne. post_step Hnet Ha. nonempty Hne. Qed.

Lemma get_khasras_ok d t v y s c page rest :
  net s = Response c page :: rest ->
  answers c page = true ->
  options_dict (xpath_options "Khasra" page) <> [] ->
  get_khasras d t v y s =
  (Ret (options_dict (xpath_options "Khasra" page)),
   posted (get_khasras_data (obj s) d t v y) page rest s).
Proof. intros Hnet Ha Hne. post_step Hnet Ha. nonempty Hne. Qed.

(** The loop over rows that all have a link: the ids come out in row
    order, and the detail is overwritten by each row in turn. *)
Lemma nakal_rows_loop_ok rows nakals nakal_detail s :
  forallb has_link rows = true ->
  nakal_rows_loop rows nakals nakal_detail s =
  (Ret (nakals ++ map nakal_id_of_row rows,
        fold_left (fun _ row => detail_of_row row) rows nakal_detail), s).
Proof.
  revert nakals nakal_detail.
  induction rows as [| row rest IH]; intros nakals nakal_detail Hl.
  - simpl. now rewrite app_nil_r.
  - simpl in Hl. apply andb_true_iff in Hl as [Hrow Hrest].
    unfold has_link in Hrow. cbn [nakal_rows_loop map fold_left].
    unfold nakal_id_of_row at 1.
    destruct (row_href row) as [href |]; [| discriminate].
    rewrite (IH _ _ Hrest). now rewrite <- app_assoc.
Qed.

Lemma last_cons_any {A} (l : list A) (a d d' : A) :
  last (a :: l) d = last (a :: l) d'.
Proof.
  revert a. induction l as [| b l IH]; intro a; [reflexivity |].
  change (last (b :: l) d = last (b :: l) d'). apply IH.
Qed.

(** Last row wins. *)
Lemma fold_detail_last rows first nakal_detail :
  fold_left (fun _ row => detail_of_row row) (first :: rows) nakal_detail
  = detail_of_row (last (first :: rows) first).
Proof.
  revert first nakal_detail.
  induction rows as [| row rest IH]; intros first nakal_detail.
  - reflexivity.
  - change (fold_left (fun _ r => detail_of_row r) (row :: rest) (detail_of_row first)
            = detail_of_row (last (row :: rest) first)).
    rewrite (IH row (detail_of_row first)).
    f_equal. apply last_cons_any.
Qed.

Lemma get_nakals_ok d t v y k s c page rest first rows :
  net s = Response c page :: rest ->
  answers c page = true ->
  xpath_grid_rows page = first :: rows ->
  forallb has_link (first :: rows) = true ->
  get_nakals d t v y k s =
  (Ret (map nakal_id_of_row (first :: rows),
        detail_of_row (last (first :: rows) first)),
   posted (get_nakals_data (obj s) d t v y k) page rest s).
Proof.
  intros Hnet Ha Hrows Hl. post_step Hnet Ha.
  rewrite Hrows.
  rewrite (bind_Ret _ _ _ _ _ (nakal_rows_loop_ok _ _ _ _ Hl)).
  rewrite fold_detail_last. reflexivity.
Qed.

(** A table without rows makes the nakals step raise; the refreshed
    hidden fields have been stored by then. *)
Lemma get_nakals_func_no_rows d t v y k s c page rest :
  net s = Response c page :: rest ->
  answers c page = true ->
  xpath_grid_rows page = [] ->
  get_nakals_func d t v y k s =
  (Raise (FormFieldNotFoundException ["nakals"; "nakal_detail"]),
   posted (get_nakals_data (obj s) d t v y k) page rest s).
Proof.
  intros Hnet Ha Hrows.
  unfold get_nakals_func.
  unfold bind at 1, get_self; cbv beta iota.
  rewrite (bind_Ret _ _ _ _ _ (posted_ok _ _ _ _ _ Hnet Ha)).
  rewrite Hrows. reflexivity.
Qed.

Lemma select_nakals_ok d t v y k n s c page rest :
  net s = Response c page :: rest ->
  answers c page = true ->
  select_nakals d t v y k n s =
  (Ret tt, posted (select_nakals_data (obj s) d t v y k n) page rest s).
Proof. intros Hnet Ha. post_step Hnet Ha. reflexivity. Qed.

Lemma get_nakal_html_ok destination_path s c page rest :
  net s = Response c page :: rest ->
  status_ok c = true ->
  get_nakal_html destination_path s =
  (Ret page,
   {| obj := obj s; net := rest;
      log := log s ++ EvGet nakal_khewat_uri ::
               match destination_path with
               | Some path => [EvWriteText path page]
               | None => []
               end;
      db := db s |}).
Proof.
  intros Hnet Hc.
  unfold get_nakal_html, retry_on_exception. apply wrapper_Ret.
  unfold get_nakal_html_func, session_get, take_reply, bind.
  rewrite Hnet. cbn [fst snd].
  rewrite (status_ok_check _ _ Hc). unfold ret at 1.
  destruct destination_path; cbn.
  - unfold add_log, with_log, with_net; cbn. now rewrite <- app_assoc.
  - reflexivity.
Qed.

Lemma get_jamabandi_page_ok s c page rest :
  net s = Response c page :: rest ->
  seeds c page = true ->
  get_jamabandi_page s =
  (Ret tt,
   {| obj := seeded page; net := rest;
      log := log s ++ [EvGet jamabandi_uri]; db := db s |}).
Proof.
  intros Hnet Hs. unfold get_jamabandi_page, retry_on_exception.
  apply wrapper_Ret. now apply (get_jamabandi_page_func_ok s c).
Qed.

(** *** A run in which every step succeeds at once *)

(** The same facts with the state spelled out, as used when a run is
    followed step by step. *)
Section Spelled.
Variables (o : Extractor) (c : Z) (page : Html) (rest n : list Reply)
          (l : list Event) (rows : list LandRecord).

Let before : State :=
  {| obj := o; net := Response c page :: rest; log := l; db := rows |}.
Let after (evs : list Event) (o' : Extractor) : State :=
  {| obj := o'; net := rest; log := l ++ evs; db := rows |}.

Lemma print_at text :
  print text {| obj := o; net := n; log := l; db := rows |}
  = (Ret tt, {| obj := o; net := n; log := l ++ [EvPrint text]; db := rows |}).
Proof. reflexivity. Qed.

Lemma set_self_at o' :
  set_self o' {| obj := o; net := n; log := l; db := rows |}
  = (Ret tt, {| obj := o'; net := n; log := l; db := rows |}).
Proof. reflexivity. Qed.

Lemma get_jamabandi_page_at :
  seeds c page = true ->
  get_jamabandi_page before = (Ret tt, after [EvGet jamabandi_uri] (seeded page)).
Proof. intro H. now apply (get_jamabandi_page_ok before c page rest). Qed.

Lemma get_districts_at districts :
  answers c page = true ->
  options_dict (xpath_options "Select District" page) = districts ->
  districts <> [] ->
  get_districts before
  = (Ret districts,
     after [EvPost jamabandi_uri (get_districts_data o)] (refreshed page o)).
Proof.
  intros H <- Hne. now apply (get_districts_ok before c page rest).
Qed.

Lemma get_sub_districts_at d sub_districts :
  answers c page = true ->
  options_dict (xpath_options "Select Tehsil/ Sub-Tehsil" page) = sub_districts ->
  sub_districts <> [] ->
  get_sub_districts d before
  = (Ret sub_districts,
     after [EvPost jamabandi_uri (get_sub_districts_data o d)] (refreshed page o)).
Proof.
  intros H <- Hne. now apply (get_sub_districts_ok d before c page rest).
Qed.

Lemma get_villeges_at d t villeges :
  answers c page = true ->
  options_dict (xpath_options "Select Village" page) = villeges ->
  villeges <> [] ->
  get_villeges d t before
  = (Ret villeges,
     after [EvPost jamabandi_uri (get_villeges_data o d t)] (refreshed page o)).
Proof.
  intros H <- Hne. now apply (get_villeges_ok d t before c page rest).
Qed.

Lemma get_years_at d t v years :
  answers c page = true ->
  option_values (xpath_options "Jamabandi Year" page) = years ->
  years <> [] ->
  get_years d t v before
  = (Ret years,
     after [EvPost jamabandi_uri (get_years_data o d t v)] (refreshed page o)).
Proof.
  intros H <- Hne. now apply (get_years_ok d t v before c page rest).
Qed.

Lemma get_khasras_at d t v y khasras :
  answers c page = true ->
  options_dict (xpath_options "Khasra" page) = khasras ->
  khasras <> [] ->
  get_khasras d t v y before
  = (Ret khasras,
     after [EvPost jamabandi_uri (get_khasras_data o d t v y)] (refreshed page o)).
Proof.
  intros H <- Hne. now apply (get_khasras_ok d t v y before c page rest).
Qed.

Lemma get_nakals_at d t v y k first more :
  answers c page = true ->
  xpath_grid_rows page = first :: more ->
  forallb has_link (first :: more) = true ->
  get_nakals d t v y k before
  = (Ret (nakal_id_of_row first :: map nakal_id_of_row more,
          detail_of_row (last (first :: more) first)),
     after [EvPost jamabandi_uri (get_nakals_data o d t v y k)] (refreshed page o)).
Proof.
  intros H Hrows Hl.
  now apply (get_nakals_ok d t v y k before c page rest first more).
Qed.

Lemma select_nakals_at d t v y k nakal_id :
  answers c page = true ->
  select_nakals d t v y k nakal_id before
  = (Ret tt,
     after [EvPost jamabandi_uri (select_nakals_data o d t v y k nakal_id)]
           (refreshed page o)).
Proof. intro H. now apply (select_nakals_ok d t v y k nakal_id before c page rest). Qed.

Lemma get_nakal_html_at destination_path :
  status_ok c = true ->
  get_nakal_html destination_path before
  = (Ret page,
     after (EvGet nakal_khewat_uri ::
              match destination_path with
              | Some path => [EvWriteText path page]
              | None => []
              end) o).
Proof. intro H. now apply (get_nakal_html_ok destination_path before c page rest). Qed.
End Spelled.

Ltac step_with L := erewrite bind_Ret by (apply L; eassumption).
Ltac step_print := erewrite bind_Ret by apply print_at.

(** The whole run when each of the nine steps is answered at its first
    attempt and the four names are found: what is returned, what is
    requested and what is left. *)
Lemma run_answered_at_once
        (d t v k : string) (destination_path : option (list string)) (s0 : State)
        (c0 c1 c2 c3 c4 c5 c6 c7 c8 : Z) (p0 p1 p2 p3 p4 p5 p6 p7 p8 : Html)
        (rest : list Reply)
        (district_id sub_district_id villege_id khasra_id : pystr)
        (year : string) (later_years : list string)
        (first : GridRow) (rows : list GridRow) :
  net s0 = Response c0 p0 :: Response c1 p1 :: Response c2 p2 :: Response c3 p3
           :: Response c4 p4 :: Response c5 p5 :: Response c6 p6 :: Response c7 p7
           :: Response c8 p8 :: rest ->
  seeds c0 p0 = true ->
  answers c1 p1 = true -> answers c2 p2 = true -> answers c3 p3 = true ->
  answers c4 p4 = true -> answers c5 p5 = true -> answers c6 p6 = true ->
  answers c7 p7 = true -> status_ok c8 = true ->
  dict_get (Some d) (options_dict (xpath_options "Select District" p1))
  = Some district_id ->
  dict_get (Some t) (options_dict (xpath_options "Select Tehsil/ Sub-Tehsil" p2))
  = Some sub_district_id ->
  dict_get (Some v) (options_dict (xpath_options "Select Village" p3))
  = Some villege_id ->
  option_values (xpath_options "Jamabandi Year" p4) = year :: later_years ->
  dict_get (Some k) (options_dict (xpath_options "Khasra" p5)) = Some khasra_id ->
  xpath_grid_rows p6 = first :: rows ->
  forallb has_link (first :: rows) = true ->
  let t0 := seeded p0 in
  let t1 := refreshed p1 t0 in
  let t2 := refreshed p2 t1 in
  let t3 := refreshed p3 t2 in
  let t4 := refreshed p4 t3 in
  let t5 := refreshed p5 t4 in
  let t6 := refreshed p6 t5 in
  let t7 := refreshed p7 t6 in
  extract_data d t v k destination_path s0 =
  (Ret (Resolved
          {| out_district_name := d;
             out_district_code := district_id;
             out_tehsil_name := t;
             out_tehsil_code := sub_district_id;
             out_villege_name := v;
             out_villege_code := villege_id;
             out_jamabandi_year := year;
             out_khewat_no := row_td2 (last (first :: rows) first);
             out_khatoni_no := row_td3 (last (first :: rows) first);
             out_khasra_code := khasra_id;
             out_khasra_no := k;
             out_inner_details :=
               {| in_villege := xpath_span_text "lblvill" (spans p8);
                  in_hadbast_no := xpath_span_text "lblhad" (spans p8);
                  in_tehsil := xpath_span_text "lblteh" (spans p8);
                  in_district := xpath_span_text "lbldis" (spans p8);
                  in_year := xpath_span_text "lblyer" (spans p8) |} |}),
   {| obj := t7;
      net := rest;
      log :=
        log s0 ++
        [ EvPrint "Fetching jamabandi page.";
          EvGet jamabandi_uri;
          EvPrint "Getting districts.";
          EvPost jamabandi_uri (get_districts_data t0);
          EvPrint "Getting sub-districts.";
          EvPost jamabandi_uri (get_sub_districts_data t1 district_id);
          EvPrint "Getting villeges.";
          EvPost jamabandi_uri (get_villeges_data t2 district_id sub_district_id);
          EvPrint "Getting years.";
          EvPost jamabandi_uri
            (get_years_data t3 district_id sub_district_id villege_id);
          EvPrint "Getting khasras.";
          EvPost jamabandi_uri
            (get_khasras_data t4 district_id sub_district_id villege_id (Some year));
          EvPrint "Getting nakals.";
          EvPost jamabandi_uri
            (get_nakals_data t5 district_id sub_district_id villege_id (Some year)
               khasra_id);
          EvPrint "Selecing nakal.";
          EvPost jamabandi_uri
            (select_nakals_data t6 district_id sub_district_id villege_id (Some year)
               khasra_id (Some (nakal_id_of_row first)));
          EvPrint "Getting nakal html.";
          EvGet nakal_khewat_uri ]
        ++ match destination_path with
           | Some path => [EvWriteText path p8]
           | None => []
           end;
      db := db s0 |}).
Proof.
  intros Hnet H0 H1 H2 H3 H4 H5 H6 H7 H8 Hd Ht Hv Hy Hk Hrows Hlinks.
  pose proof (dict_get_nonempty _ _ _ Hd) as Nd.
  pose proof (dict_get_nonempty _ _ _ Ht) as Nt.
  pose proof (dict_get_nonempty _ _ _ Hv) as Nv.
  pose proof (dict_get_nonempty _ _ _ Hk) as Nk.
  destruct s0 as [o0 n0 l0 db0]. cbn [net log db] in *. subst n0.
  cbv zeta. unfold extract_data.
  erewrite bind_Ret by apply set_self_at.
  step_print. step_with get_jamabandi_page_at.
  step_print. erewrite bind_Ret by (apply get_districts_at; [eassumption | reflexivity | assumption]).
  rewrite Hd.
  step_print. erewrite bind_Ret by (apply get_sub_districts_at; [eassumption | reflexivity | assumption]).
  rewrite Ht.
  step_print. erewrite bind_Ret by (apply get_villeges_at; [eassumption | reflexivity | assumption]).
  rewrite Hv.
  step_print. erewrite bind_Ret by (apply get_years_at; [eassumption | exact Hy | discriminate]).
  cbv beta iota.
  step_print. erewrite bind_Ret by (apply get_khasras_at; [eassumption | reflexivity | assumption]).
  rewrite Hk.
  step_print. step_with get_nakals_at.
  cbn [fst snd].
  step_print. step_with select_nakals_at.
  step_print. step_with get_nakal_html_at.
  unfold ret. f_equal. f_equal.
  rewrite <- !app_assoc. reflexivity.
Qed.


(** C4. On the canned replies, the run for
    ("DistrictA", "TehsilA", "VillageA", "6") returns the output
    dictionary whose four codes are "01", "001", "0284" and "6" and
    whose [khewat_no] and [khatoni_no] are "3" and "9". *)
Theorem canned_run_resolves_chain (destination_path : option (list string)) :
  exists output,
    fst (extract_data "DistrictA" "TehsilA" "VillageA" "6" destination_path
           (Canned.start Canned.replies []))
    = Ret (Resolved output) /\
    (out_district_code output, out_tehsil_code output,
     out_villege_code output, out_khasra_code output)
    = (Some "01", Some "001", Some "0284", Some "6") /\
    (out_khewat_no output, out_khatoni_no output) = (Some "3", Some "9").
Proof.
  destruct destination_path;
    (eexists; split; [vm_compute; reflexivity | split; reflexivity]).
Qed.

(** *** Names that are not in the Option Set *)

Ltac pure_step := erewrite bind_Ret by reflexivity.
Ltac known_step H := erewrite bind_Ret by exact H.

(** C7. Whenever a run has obtained the Option Set of a level and the
    caller's name for that level is not one of its keys, [extract_data]
    returns the "not found" message of that level, and it returns in the
    very state in which the listing step returned: nothing is requested,
    retried or slept on afterwards, and nothing is raised. *)
Theorem absent_name_returns_not_found
        (d t v k : string) (destination_path : option (list string))
        (s0 : State) (level : Level) (options : dict pystr) (s : State) :
  option_set_listed d t v s0 level options s ->
  dict_get (Some (name_at level d t v k)) options = None ->
  extract_data d t v k destination_path s0
  = (Ret (Message (not_found_text level (name_at level d t v k))), s).
Proof.
  intros Hlisted Habsent.
  destruct level; cbn [option_set_listed name_at not_found_text] in *.
  - destruct Hlisted as (s1 & Hpage & Hdis).
    unfold extract_data.
    pure_step. pure_step. known_step Hpage. pure_step. known_step Hdis.
    rewrite Habsent. reflexivity.
  - destruct Hlisted as (district_id & districts & s2 & (s1 & Hpage & Hdis) & Hd & Hsub).
    unfold extract_data.
    pure_step. pure_step. known_step Hpage. pure_step. known_step Hdis.
    rewrite Hd. pure_step. known_step Hsub.
    rewrite Habsent. reflexivity.
  - destruct Hlisted as (district_id & sub_district_id & sub_districts & s3
                         & (districts & s2 & (s1 & Hpage & Hdis) & Hd & Hsub)
                         & Ht & Hvil).
    unfold extract_data.
    pure_step. pure_step. known_step Hpage. pure_step. known_step Hdis.
    rewrite Hd. pure_step. known_step Hsub.
    rewrite Ht. pure_step. known_step Hvil.
    rewrite Habsent. reflexivity.
  - destruct Hlisted as (district_id & sub_district_id & villege_id & year
                         & later_years & s5
                         & (villeges & s4
                            & (sub_districts & s3
                               & (districts & s2 & (s1 & Hpage & Hdis) & Hd & Hsub)
                               & Ht & Hvil)
                            & Hv & Hyears)
                         & Hkh).
    unfold extract_data.
    pure_step. pure_step. known_step Hpage. pure_step. known_step Hdis.
    rewrite Hd. pure_step. known_step Hsub.
    rewrite Ht. pure_step. known_step Hvil.
    rewrite Hv. pure_step. known_step Hyears.
    cbv beta iota. pure_step. known_step Hkh.
    rewrite Habsent. reflexivity.
Qed.

Lemma absent_name_witness :
  exists s,
    extract_data "DistrictA" "TehsilA" "VillageA" "7" None
      (Canned.start Canned.replies [])
    = (Ret (Message "Khasra number:7 not found!"), s).
Proof.
  eexists.
  eapply (absent_name_returns_not_found
            "DistrictA" "TehsilA" "VillageA" "7" None
            (Canned.start Canned.replies []) Khasra).
  - exists (Some "01"), (Some "001"), (Some "0284"), "2022-2023".
    exists [], Canned.at_years. split; [| vm_compute; reflexivity].
    exists Canned.villeges, Canned.at_villeges.
    split; [| split; vm_compute; reflexivity].
    exists Canned.sub_districts, Canned.at_sub_districts.
    split; [| split; vm_compute; reflexivity].
    exists Canned.districts, Canned.at_districts.
    split; [| split; vm_compute; reflexivity].
    exists Canned.at_page. split; vm_compute; reflexivity.
  - reflexivity.
Defined.

(** *** A table of candidates without rows *)

(** C2 on a concrete run.  On the canned run whose table of candidates
    has no row, the nakals step is attempted three times, each failure
    followed by a sleep, and the run ends with [SystemExit] instead of
    returning ['Nakal is empty!'], the answer [extract_data] has a
    branch for. *)
Lemma zero_candidates_abort_the_run :
  let r := extract_data "DistrictA" "TehsilA" "VillageA" "6" None
             (Canned.start Canned.replies_no_nakals []) in
  xpath_grid_rows Canned.page_no_nakals = [] /\
  fst r = Exit exit_text /\
  fst r <> Ret (Message "Nakal is empty!") /\
  filter is_sleep (log (snd r)) = [EvSleep 5; EvSleep 5; EvSleep 5] /\
  List.length (filter is_request (log (snd r))) = 9.
Proof.
  cbv zeta. split; [reflexivity |].
  split; [vm_compute; reflexivity |].
  split; [vm_compute; discriminate |].
  split; vm_compute; reflexivity.
Qed.

Lemma get_nakals_three_empty d t v y k o c1 p1 c2 p2 c3 p3 rest l rows :
  answers c1 p1 = true -> answers c2 p2 = true -> answers c3 p3 = true ->
  xpath_grid_rows p1 = [] -> xpath_grid_rows p2 = [] -> xpath_grid_rows p3 = [] ->
  let e := FormFieldNotFoundException ["nakals"; "nakal_detail"] in
  let o1 := refreshed p1 o in
  let o2 := refreshed p2 o1 in
  let o3 := refreshed p3 o2 in
  get_nakals d t v y k
    {| obj := o;
       net := Response c1 p1 :: Response c2 p2 :: Response c3 p3 :: rest;
       log := l; db := rows |}
  = (Exit exit_text,
     {| obj := o3; net := rest;
        log := l ++
          [ EvPost jamabandi_uri (get_nakals_data o d t v y k);
            EvPrint (retrying_text e 1 3); EvSleep 5;
            EvPost jamabandi_uri (get_nakals_data o1 d t v y k);
            EvPrint (retrying_text e 2 3); EvSleep 5;
            EvPost jamabandi_uri (get_nakals_data o2 d t v y k);
            EvPrint (retrying_text e 3 3); EvSleep 5;
            EvPrintTraceback (Some e);
            EvPrint "All retries failed. Here's the traceback:" ];
        db := rows |}).
Proof.
  intros A1 A2 A3 R1 R2 R3. cbv zeta.
  unfold get_nakals, retry_on_exception.
  erewrite wrapper_Raise
    by (apply get_nakals_func_no_rows with (c := c1); [reflexivity | assumption ..]).
  erewrite wrapper_Raise
    by (apply get_nakals_func_no_rows with (c := c2); [reflexivity | assumption ..]).
  erewrite wrapper_Raise
    by (apply get_nakals_func_no_rows with (c := c3); [reflexivity | assumption ..]).
  rewrite wrapper_O.
  unfold posted, add_log, with_log; cbn [obj net log db].
  f_equal. f_equal. rewrite <- !app_assoc. reflexivity.
Qed.

Lemma bind_Ret_inv {A B} (m : M A) (k : A -> M B) s b s' :
  bind m k s = (Ret b, s') ->
  exists a s1, m s = (Ret a, s1) /\ k a s1 = (Ret b, s').
Proof.
  unfold bind. destruct (m s) as [[a | e | msg] s1]; try discriminate.
  intro H. now exists a, s1.
Qed.

Lemma wrapper_Ret_inv {A} retries delay (func : M A) remaining attempt err s a s' :
  wrapper retries delay func remaining attempt err s = (Ret a, s') ->
  exists s1, func s1 = (Ret a, s').
Proof.
  revert attempt err s.
  induction remaining as [| remaining IH]; intros attempt err s.
  - rewrite wrapper_O. discriminate.
  - destruct (func s) as [[a0 | e | msg] s1] eqn:Hf.
    + rewrite (wrapper_Ret _ _ _ _ _ _ _ _ _ Hf). intros [= -> ->]. now exists s.
    + rewrite (wrapper_Raise _ _ _ _ _ _ _ _ _ Hf). apply IH.
    + rewrite (wrapper_Exit _ _ _ _ _ _ _ _ _ Hf). discriminate.
Qed.

(** The nakals step never returns an empty list, whatever the replies:
    the ['Nakal is empty!'] branch of [extract_data] is never taken. *)
Lemma get_nakals_returns_candidates d t v y k s r s' :
  get_nakals d t v y k s = (Ret r, s') -> fst r <> [].
Proof.
  unfold get_nakals, retry_on_exception. intro H.
  apply wrapper_Ret_inv in H as (s1 & H).
  unfold get_nakals_func in H.
  apply bind_Ret_inv in H as (self & s2 & _ & H).
  apply bind_Ret_inv in H as (page & s3 & _ & H).
  apply bind_Ret_inv in H as (r' & s4 & _ & H).
  destruct (fst r') eqn:Hr; [discriminate |].
  injection H as <- _. rewrite Hr. discriminate.
Qed.

(** C2. [extract_data] tests [if not nakals] and would return
    ['Nakal is empty!'], but the nakals step never hands it an empty
    list: once the khasra is resolved, three replies in a row whose
    table of candidates has no row make the step raise
    [FormFieldNotFoundException(['nakals', 'nakal_detail'])] three
    times; the decorator sleeps after each and then ends the run with
    [SystemExit].  The refreshed hidden fields of each reply have been
    stored. *)
Theorem zero_candidates_are_retried_then_fatal
        (d t v k : string) (destination_path : option (list string))
        (s0 s : State) (district_id sub_district_id villege_id khasra_id : pystr)
        (year : string) (khasras : dict pystr)
        (c1 c2 c3 : Z) (p1 p2 p3 : Html) (rest : list Reply) :
  khasras_listed d t v s0 district_id sub_district_id villege_id year khasras s ->
  dict_get (Some k) khasras = Some khasra_id ->
  net s = Response c1 p1 :: Response c2 p2 :: Response c3 p3 :: rest ->
  answers c1 p1 = true -> answers c2 p2 = true -> answers c3 p3 = true ->
  xpath_grid_rows p1 = [] -> xpath_grid_rows p2 = [] -> xpath_grid_rows p3 = [] ->
  let e := FormFieldNotFoundException ["nakals"; "nakal_detail"] in
  let o1 := refreshed p1 (obj s) in
  let o2 := refreshed p2 o1 in
  let o3 := refreshed p3 o2 in
  let data o :=
    get_nakals_data o district_id sub_district_id villege_id (Some year) khasra_id in
  extract_data d t v k destination_path s0
  = (Exit exit_text,
     {| obj := o3; net := rest;
        log := log s ++
          [ EvPrint "Getting nakals.";
            EvPost jamabandi_uri (data (obj s));
            EvPrint (retrying_text e 1 3); EvSleep 5;
            EvPost jamabandi_uri (data o1);
            EvPrint (retrying_text e 2 3); EvSleep 5;
            EvPost jamabandi_uri (data o2);
            EvPrint (retrying_text e 3 3); EvSleep 5;
            EvPrintTraceback (Some e);
            EvPrint "All retries failed. Here's the traceback:" ];
        db := db s |}).
Proof.
  intros Hlisted Hk Hnet A1 A2 A3 R1 R2 R3. cbv zeta.
  destruct Hlisted as (later_years & s5
                       & (villeges & s4
                          & (sub_districts & s3
                             & (districts & s2 & (s1 & Hpage & Hdis) & Hd & Hsub)
                             & Ht & Hvil)
                          & Hv & Hyears)
                       & Hkh).
  destruct s as [o n l rows]. cbn [obj net log db] in *. subst n.
  unfold extract_data.
  pure_step. pure_step. known_step Hpage. pure_step. known_step Hdis.
  rewrite Hd. pure_step. known_step Hsub.
  rewrite Ht. pure_step. known_step Hvil.
  rewrite Hv. pure_step. known_step Hyears.
  cbv beta iota. pure_step. known_step Hkh.
  rewrite Hk.
  erewrite bind_Ret by apply print_at.
  erewrite bind_Exit by (apply get_nakals_three_empty; eassumption).
  f_equal. f_equal. rewrite <- app_assoc. reflexivity.
Qed.

Lemma zero_candidates_witness :
  exists s',
    extract_data "DistrictA" "TehsilA" "VillageA" "6" None
      (Canned.start Canned.replies_no_nakals [])
    = (Exit exit_text, s').
Proof.
  eexists.
  apply (zero_candidates_are_retried_then_fatal
           "DistrictA" "TehsilA" "VillageA" "6" None
           (Canned.start Canned.replies_no_nakals [])
           Canned.at_khasras_no_nakals
           (Some "01") (Some "001") (Some "0284") (Some "6") "2022-2023"
           Canned.khasras
           200 200 200 Canned.page_no_nakals Canned.page_no_nakals
           Canned.page_no_nakals []).
  - exists [], Canned.at_years_no_nakals. split; [| vm_compute; reflexivity].
    exists Canned.villeges, Canned.at_villeges_no_nakals.
    split; [| split; vm_compute; reflexivity].
    exists Canned.sub_districts, Canned.at_sub_districts_no_nakals.
    split; [| split; vm_compute; reflexivity].
    exists Canned.districts, Canned.at_districts_no_nakals.
    split; [| split; vm_compute; reflexivity].
    exists Canned.at_page_no_nakals. split; vm_compute; reflexivity.
  - reflexivity.
  - reflexivity.
  - reflexivity.
  - reflexivity.
  - reflexivity.
  - reflexivity.
  - reflexivity.
  - reflexivity.
Defined.

(** *** The extractor never touches the table *)

Lemma keeps_ret {A} (a : A) : keeps_db (ret a).
Proof. intro s; reflexivity. Qed.

Lemma keeps_raise {A} (e : exn) : keeps_db (@raise A e).
Proof. intro s; reflexivity. Qed.

Lemma keeps_sys_exit {A} (msg : string) : keeps_db (@sys_exit A msg).
Proof. intro s; reflexivity. Qed.

Lemma keeps_emit (ev : Event) : keeps_db (emit ev).
Proof. intro s; reflexivity. Qed.

Lemma keeps_get_self : keeps_db get_self.
Proof. intro s; reflexivity. Qed.

Lemma keeps_set_self o : keeps_db (set_self o).
Proof. intro s; reflexivity. Qed.

Lemma keeps_take_reply ev : keeps_db (take_reply ev).
Proof.
  intro s. unfold take_reply.
  destruct (net s) as [| [detail | c page] rest]; reflexivity.
Qed.

Lemma keeps_bind {A B} (m : M A) (k : A -> M B) :
  keeps_db m -> (forall a, keeps_db (k a)) -> keeps_db (bind m k).
Proof.
  intros Hm Hk s. unfold bind.
  specialize (Hm s). destruct (m s) as [[a | e | msg] s']; simpl in *; auto.
  rewrite <- Hm. apply Hk.
Qed.

Lemma keeps_wrapper {A} retries delay (func : M A) remaining attempt err :
  keeps_db func -> keeps_db (wrapper retries delay func remaining attempt err).
Proof.
  intro Hf. revert attempt err.
  induction remaining as [| remaining IH]; intros attempt err.
  - repeat (apply keeps_bind; [| intro]);
      first [apply keeps_emit | apply keeps_sys_exit].
  - intro s. simpl. specialize (Hf s).
    destruct (func s) as [[a | e | msg] s']; simpl in *; auto.
    rewrite <- Hf.
    apply (keeps_bind (print _) (fun _ => bind (sleep delay) (fun _ => _))).
    + apply keeps_emit.
    + intros _. apply keeps_bind; [apply keeps_emit | intros _; apply IH].
Qed.

Lemma keeps_nakal_rows_loop rows nakals nakal_detail :
  keeps_db (nakal_rows_loop rows nakals nakal_detail).
Proof. intro s. now rewrite nakal_rows_loop_pure. Qed.

Lemma keeps_raise_for_status response : keeps_db (raise_for_status response).
Proof.
  unfold raise_for_status.
  destruct ((400 <=? fst response)%Z && (fst response <? 600)%Z);
    [apply keeps_raise | apply keeps_ret].
Qed.

Lemma keeps_postback data : keeps_db (postback data).
Proof.
  unfold postback, session_post.
  apply keeps_bind; [apply keeps_take_reply | intro response].
  apply keeps_bind; [apply keeps_raise_for_status | intros _].
  cbv zeta.
  destruct (negb (truthy (xpath_input_value "__VIEWSTATE" (inputs (snd response))))
            || negb (truthy (xpath_input_value "__EVENTVALIDATION"
                               (inputs (snd response))))).
  - apply keeps_bind; [apply keeps_emit | intros _; apply keeps_raise].
  - apply keeps_bind; [intro s; reflexivity | intros _].
    apply keeps_bind; [intro s; reflexivity | intros _; apply keeps_ret].
Qed.

Ltac keeps :=
  repeat first
    [ apply keeps_wrapper
    | apply keeps_postback
    | apply keeps_raise_for_status
    | apply keeps_take_reply
    | apply keeps_nakal_rows_loop
    | apply keeps_ret | apply keeps_raise | apply keeps_sys_exit
    | apply keeps_emit | apply keeps_get_self | apply keeps_set_self
    | apply keeps_bind; [| intro]
    | (intro s; reflexivity)
    | progress cbv zeta
    | match goal with
      | |- keeps_db (if ?b then _ else _) => destruct b
      | |- keeps_db (match ?x with _ => _ end) => destruct x
      end ].

Lemma keeps_extract_data d t v k destination_path :
  keeps_db (extract_data d t v k destination_path).
Proof.
  unfold extract_data, get_jamabandi_page, get_districts, get_sub_districts,
    get_villeges, get_years, get_khasras, get_nakals, select_nakals, get_nakal_html,
    retry_on_exception, get_jamabandi_page_func, get_districts_func,
    get_sub_districts_func, get_villeges_func, get_years_func, get_khasras_func,
    get_nakals_func, select_nakals_func, get_nakal_html_func, session_get, print.
  keeps.
Qed.

(** *** The main block and the table *)

(** C8. With a row for the four names in the table and without
    [--force_refresh], the main block prints the arguments and the rows
    found and does nothing else: no request is sent, no reply is
    consumed, the extractor and the table are untouched. *)
Theorem cache_hit_makes_no_request
        (args : Args) (s : State) (row : LandRecord) (more : list LandRecord) :
  arg_force_refresh args = false ->
  filter (matches_input (arg_district_name args) (arg_sub_district_name args)
                        (arg_village_name args) (arg_khasra_no args)) (db s)
  = row :: more ->
  let shown :=
    [ EvMkdir "nakal_html_data";
      EvPrint ">>>>>>>>>>>>>>>>>>>>> Inserted Inputs <<<<<<<<<<<<<<<<<<<<<";
      EvPrint ("District Name: " +++ arg_district_name args);
      EvPrint ("Sub-district Name: " +++ arg_sub_district_name args);
      EvPrint ("Village Name: " +++ arg_village_name args);
      EvPrint ("Khasra Number: " +++ arg_khasra_no args);
      EvPrint "Force Refresh: False";
      EvPrint (str_mul "#" 60);
      EvPrintData (DataRecords (row :: more)) ] in
  main args s = (Ret tt, add_log shown s) /\
  forallb (fun ev => negb (is_request ev)) shown = true /\
  net (add_log shown s) = net s /\
  obj (add_log shown s) = obj s /\
  db (add_log shown s) = db s.
Proof.
  intros Hforce Hfound. cbv zeta.
  split; [| repeat split; reflexivity].
  unfold main, get_command_line_arg.
  do 3 pure_step.
  cbn [db add_log with_log]. rewrite Hfound, Hforce. cbn [orb].
  do 2 pure_step.
  unfold emit. rewrite !add_log_add_log. reflexivity.
Qed.

Lemma cache_hit_witness :
  let shown :=
    [ EvMkdir "nakal_html_data";
      EvPrint ">>>>>>>>>>>>>>>>>>>>> Inserted Inputs <<<<<<<<<<<<<<<<<<<<<";
      EvPrint ("District Name: " +++ "DistrictA");
      EvPrint ("Sub-district Name: " +++ "TehsilA");
      EvPrint ("Village Name: " +++ "VillageA");
      EvPrint ("Khasra Number: " +++ "6");
      EvPrint "Force Refresh: False";
      EvPrint (str_mul "#" 60);
      EvPrintData (DataRecords [Canned.cached]) ] in
  let s := Canned.start Canned.replies [Canned.cached] in
  main (Canned.args false) s = (Ret tt, add_log shown s) /\
  forallb (fun ev => negb (is_request ev)) shown = true /\
  net (add_log shown s) = net s /\
  obj (add_log shown s) = obj s /\
  db (add_log shown s) = db s.
Proof.
  apply (cache_hit_makes_no_request
           (Canned.args false) (Canned.start Canned.replies [Canned.cached])
           Canned.cached []);
    reflexivity.
Defined.

Lemma filter_first_split {A} (f : A -> bool) (l : list A) (x : A) (more : list A) :
  filter f l = x :: more ->
  exists before after,
    l = before ++ x :: after /\
    forallb (fun y => negb (f y)) before = true /\
    f x = true.
Proof.
  induction l as [| y l IH]; simpl; [discriminate |].
  destruct (f y) eqn:Hy.
  - intros [= -> _]. exists [], l. auto.
  - intro H. destruct (IH H) as (before & after & -> & Hb & Hx).
    exists (y :: before), after. simpl. rewrite Hy. auto.
Qed.

Section PrimaryKey.
Variables (before after : list LandRecord) (row : LandRecord) (data : RecordData).
Hypothesis unique : NoDup (map id (before ++ row :: after)).

Lemma id_not_before : forallb (fun r => negb (id r =? id row)%Z) before = true.
Proof.
  clear data. induction before as [| r rest IH]; [reflexivity |].
  simpl in *. inversion unique as [| ? ? Hnotin Hrest]; subst.
  rewrite IH by assumption. rewrite andb_true_r.
  apply negb_true_iff, Z.eqb_neq. intros Heq. apply Hnotin.
  rewrite Heq, map_app. apply in_or_app. right. now left.
Qed.

Lemma find_by_id :
  find (fun r => (id r =? id row)%Z) (before ++ row :: after) = Some row.
Proof.
  pose proof id_not_before as Hb. clear unique.
  induction before as [| r rest IH]; simpl in *.
  - now rewrite Z.eqb_refl.
  - apply andb_true_iff in Hb as [Hr Hrest].
    apply negb_true_iff in Hr. rewrite Hr. now apply IH.
Qed.

Lemma set_fields_by_id :
  set_fields (id row) data (before ++ row :: after)
  = before ++ {| id := id row; fields := data |} :: after.
Proof.
  pose proof id_not_before as Hb. clear unique.
  induction before as [| r rest IH]; simpl in *.
  - now rewrite Z.eqb_refl.
  - apply andb_true_iff in Hb as [Hr Hrest].
    apply negb_true_iff in Hr. rewrite Hr. f_equal. now apply IH.
Qed.

Lemma update_record_by_id s :
  db s = before ++ row :: after ->
  not_null data = true ->
  update_record (id row) data s
  = (Ret (DataRecord {| id := id row; fields := data |}),
     with_db (before ++ {| id := id row; fields := data |} :: after) s).
Proof.
  intros Hdb Hnn. unfold update_record.
  rewrite Hdb, find_by_id.
  unfold check_not_null, bind. rewrite Hnn. cbn.
  now rewrite Hdb, set_fields_by_id.
Qed.
End PrimaryKey.

(** * Further properties *)

(** ** The table: create, read, update, delete *)

Lemma le_fold_max (i : Z) (ids : list Z) (x : Z) :
  In x (i :: ids) -> (x <= fold_right Z.max i ids)%Z.
Proof.
  induction ids as [| j ids IH]; simpl.
  - intros [-> | []]. lia.
  - intros [-> | [-> | H]].
    + assert (K : (x <= fold_right Z.max x ids)%Z) by (apply IH; now left). lia.
    + lia.
    + assert (K : (x <= fold_right Z.max i ids)%Z) by (apply IH; now right). lia.
Qed.

Lemma id_lt_next_id (rows : list LandRecord) (r : LandRecord) :
  In r rows -> (id r < next_id rows)%Z.
Proof.
  intro H. apply (in_map id) in H. unfold next_id.
  destruct (map id rows) as [| i ids]; [contradiction |].
  apply le_fold_max in H. lia.
Qed.

Lemma find_id_none (rows : list LandRecord) (i : Z) :
  (forall r, In r rows -> id r <> i) ->
  find (fun r => (id r =? i)%Z) rows = None.
Proof.
  induction rows as [| x rows IH]; simpl; intro H; [reflexivity |].
  destruct (Z.eqb_spec (id x) i) as [E | _].
  - exfalso. apply (H x); auto.
  - apply IH. intros r Hr. apply H. auto.
Qed.

Lemma find_id_none_inv (rows : list LandRecord) (i : Z) (r : LandRecord) :
  find (fun r => (id r =? i)%Z) rows = None -> In r rows -> id r <> i.
Proof.
  intros Hnone Hin E.
  apply (find_none _ _ Hnone) in Hin. cbv beta in Hin.
  rewrite E, Z.eqb_refl in Hin. discriminate.
Qed.

Lemma find_app_none {A} (f : A -> bool) (l l' : list A) :
  find f l = None -> find f (l ++ l') = find f l'.
Proof.
  induction l as [| x l IH]; simpl; [reflexivity |].
  destruct (f x); [discriminate | exact IH].
Qed.

Lemma next_id_is_fresh (rows : list LandRecord) :
  find (fun r => (id r =? next_id rows)%Z) rows = None.
Proof.
  apply find_id_none. intros r Hr. apply id_lt_next_id in Hr. lia.
Qed.

Lemma delete_row_none (rows : list LandRecord) (i : Z) :
  find (fun r => (id r =? i)%Z) rows = None -> delete_row i rows = rows.
Proof.
  induction rows as [| x rows IH]; simpl; [reflexivity |].
  destruct (id x =? i)%Z; [discriminate |].
  intro H. now rewrite IH.
Qed.

Lemma delete_row_app (rows : list LandRecord) (r : LandRecord) :
  find (fun x => (id x =? id r)%Z) rows = None ->
  delete_row (id r) (rows ++ [r]) = rows.
Proof.
  induction rows as [| x rows IH]; simpl.
  - now rewrite Z.eqb_refl.
  - destruct (id x =? id r)%Z; [discriminate |].
    intro H. now rewrite IH.
Qed.

Lemma set_fields_ids (record_id : Z) (data : RecordData) (rows : list LandRecord) :
  map id (set_fields record_id data rows) = map id rows.
Proof.
  induction rows as [| x rows IH]; simpl; [reflexivity |].
  destruct (id x =? record_id)%Z; simpl; [reflexivity | now rewrite IH].
Qed.

Lemma fold_max_in (i : Z) (ids : list Z) : In (fold_right Z.max i ids) (i :: ids).
Proof.
  induction ids as [| j ids IH]; simpl; [now left |].
  destruct (Z.max_spec j (fold_right Z.max i ids)) as [[_ ->] | [_ ->]].
  - destruct IH as [IH | IH]; [now left | now right; right].
  - right. now left.
Qed.

Lemma ascending_snoc (ids : list Z) (x : Z) :
  ascending ids = true -> (forall i, In i ids -> (i < x)%Z) ->
  ascending (ids ++ [x]) = true.
Proof.
  induction ids as [| i ids IH]; intros Ha Hlt; [reflexivity |].
  destruct ids as [| j ids].
  - cbn. rewrite andb_true_r. apply Z.ltb_lt, Hlt. now left.
  - cbn [ascending app] in *. apply andb_true_iff in Ha as [Hij Ha].
    rewrite Hij. cbn [andb]. apply IH; [exact Ha |].
    intros i' Hi'. apply Hlt. now right.
Qed.

Lemma ascending_head (i : Z) (ids : list Z) :
  ascending (i :: ids) = true -> forall j, In j ids -> (i < j)%Z.
Proof.
  revert i. induction ids as [| j ids IH]; intros i Ha j' Hin; [contradiction |].
  cbn [ascending] in Ha. apply andb_true_iff in Ha as [Hij Ha].
  apply Z.ltb_lt in Hij. destruct Hin as [<- | Hin]; [exact Hij |].
  specialize (IH j Ha j' Hin). lia.
Qed.

Lemma ascending_tail (i : Z) (ids : list Z) :
  ascending (i :: ids) = true -> ascending ids = true.
Proof.
  destruct ids as [| j ids]; [reflexivity |].
  cbn [ascending]. intro H. now apply andb_true_iff in H as [_ H].
Qed.

Lemma ascending_NoDup (ids : list Z) : ascending ids = true -> NoDup ids.
Proof.
  induction ids as [| i ids IH]; intro Ha; constructor.
  - intro Hin. apply (ascending_head i ids Ha) in Hin. lia.
  - apply IH. now apply ascending_tail in Ha.
Qed.

Lemma rowid_table_unique (rows : list LandRecord) :
  rowid_table rows = true -> NoDup (map id rows).
Proof.
  unfold rowid_table. intro H. apply andb_true_iff in H as [_ H].
  now apply ascending_NoDup.
Qed.

(** In a table with room, the id SQLite gives next is a rowid again. *)
Lemma next_id_is_rowid (rows : list LandRecord) :
  rowid_table rows = true -> has_room rows = true ->
  is_rowid (next_id rows) = true.
Proof.
  unfold rowid_table, has_room, next_id. intros Ht Hroom.
  apply andb_true_iff in Ht as [Hids _].
  destruct (map id rows) as [| i ids]; [reflexivity |].
  pose proof (fold_max_in i ids) as Hin.
  rewrite forallb_forall in Hids, Hroom.
  specialize (Hids _ Hin). specialize (Hroom _ Hin). cbv beta in Hroom.
  unfold is_rowid in *. apply andb_true_iff in Hids as [Hlow _].
  apply Z.leb_le in Hlow. apply Z.ltb_lt in Hroom.
  apply andb_true_iff. split; [apply Z.leb_le | apply Z.leb_le]; lia.
Qed.

Lemma rowid_ids_next (rows : list LandRecord) :
  rowid_table rows = true -> has_room rows = true ->
  forallb is_rowid (map id rows ++ [next_id rows])
  && ascending (map id rows ++ [next_id rows]) = true.
Proof.
  intros Ht Hroom. pose proof (next_id_is_rowid rows Ht Hroom) as Hnext.
  unfold rowid_table in *. apply andb_true_iff in Ht as [Hids Hasc].
  rewrite forallb_app. cbn [forallb].
  rewrite Hids, Hnext. cbn [andb].
  apply ascending_snoc; [exact Hasc |].
  intros i Hi. apply in_map_iff in Hi as (r & <- & Hr).
  now apply id_lt_next_id.
Qed.

Lemma rowid_table_next (rows : list LandRecord) (data : RecordData) :
  rowid_table rows = true -> has_room rows = true ->
  rowid_table (rows ++ [{| id := next_id rows; fields := data |}]) = true.
Proof.
  intros Ht Hroom. unfold rowid_table. rewrite map_app.
  now apply rowid_ids_next.
Qed.

Lemma next_id_nonempty (rows : list LandRecord) :
  rows <> [] -> exists r, In r rows /\ next_id rows = (id r + 1)%Z.
Proof.
  intro Hne. unfold next_id.
  destruct rows as [| x rows]; [contradiction |].
  cbn [map]. pose proof (fold_max_in (id x) (map id rows)) as Hin.
  change (id x :: map id rows) with (map id (x :: rows)) in Hin.
  apply in_map_iff in Hin as (r & Hr & Hin).
  exists r. split; [exact Hin | now rewrite Hr].
Qed.

(** X1. In a table that has room, a row created from sixteen column
    values none of which is [None] is stored under the rowid SQLite
    gives next: 1 in an empty table, otherwise the largest id in use
    plus one.  The row is therefore the last one in rowid order, and
    [read_record] with that id returns exactly the dictionary
    [create_record] returned. *)
Theorem create_record_then_read_record (data : RecordData) (s : State) :
  rowid_table (db s) = true ->
  has_room (db s) = true ->
  not_null data = true ->
  let row := {| id := next_id (db s); fields := data |} in
  let s' := with_db (db s ++ [row]) s in
  create_record data s = (Ret (DataRecord row), s') /\
  read_record (id row) s' = (Ret (Some row), s') /\
  (db s = [] -> id row = 1%Z) /\
  (db s <> [] -> exists r, In r (db s) /\ id row = (id r + 1)%Z) /\
  (forall r, In r (db s) -> (id r < id row)%Z) /\
  is_rowid (id row) = true.
Proof.
  intros Ht Hroom Hnn. cbv zeta. repeat split.
  - unfold create_record, add_and_commit, check_not_null, bind.
    now rewrite Hnn.
  - unfold read_record. cbn [db with_db id].
    rewrite find_app_none by apply next_id_is_fresh.
    cbn. now rewrite Z.eqb_refl.
  - cbn [id]. now intros ->.
  - cbn [id]. apply next_id_nonempty.
  - intros r Hr. now apply id_lt_next_id.
  - cbn [id]. now apply next_id_is_rowid.
Qed.

Lemma create_record_then_read_record_witness :
  let data := fields Canned.cached in
  let row := {| id := 5; fields := data |} in
  let s := Canned.start [] [Canned.cached; Canned.other] in
  let s' := with_db [Canned.cached; Canned.other; row] s in
  create_record data s = (Ret (DataRecord row), s') /\
  read_record 5 s' = (Ret (Some row), s') /\
  (db s = [] -> id row = 1%Z) /\
  (db s <> [] -> exists r, In r (db s) /\ id row = (id r + 1)%Z) /\
  (forall r, In r (db s) -> (id r < 5)%Z) /\
  is_rowid 5 = true.
Proof.
  apply (create_record_then_read_record
           (fields Canned.cached) (Canned.start [] [Canned.cached; Canned.other]));
    reflexivity.
Defined.

(** X2. In a table that has room, [create_record] keeps the table a
    table in rowid order, whatever values it is given for the sixteen
    data columns: the ids stay rowids, ascending and hence pairwise
    distinct, and no row that was there is touched, the old table being
    a prefix of the new one, which has at most one row more. *)
Theorem create_record_keeps_ids_unique (data : RecordData) (s : State) :
  rowid_table (db s) = true ->
  has_room (db s) = true ->
  let s' := snd (create_record data s) in
  rowid_table (db s') = true /\
  NoDup (map id (db s')) /\
  exists added, db s' = db s ++ added /\ List.length added <= 1.
Proof.
  intros Ht Hroom. cbv zeta.
  assert (H : rowid_table (db (snd (create_record data s))) = true /\
              exists added,
                db (snd (create_record data s)) = db s ++ added /\
                List.length added <= 1).
  { unfold create_record, add_and_commit, check_not_null, bind.
    destruct (not_null data); cbn -[next_id rowid_table].
    - split; [now apply rowid_table_next |].
      eexists. split; [reflexivity | cbn; lia].
    - split; [exact Ht |]. exists []. rewrite app_nil_r. auto. }
  destruct H as [H1 H2]. split; [exact H1 |]. split; [| exact H2].
  now apply rowid_table_unique.
Qed.

Lemma create_record_keeps_ids_unique_witness :
  let s := Canned.start [] [Canned.cached; Canned.other] in
  let s' := snd (create_record (fields Canned.cached) s) in
  rowid_table (db s') = true /\
  NoDup (map id (db s')) /\
  exists added, db s' = db s ++ added /\ List.length added <= 1.
Proof.
  apply (create_record_keeps_ids_unique
           (fields Canned.cached) (Canned.start [] [Canned.cached; Canned.other]));
    reflexivity.
Defined.

(** X3. A write whose columns include a [None] is refused: creating,
    updating an existing row, and creating-or-refreshing through
    [create_record_by_checking_record] all raise an [IntegrityError],
    and the rows of the table are then what they were.  The one exception is
    the call without [force_refresh] on a key that is already stored,
    which returns the stored row without looking at the new columns.
    (What the session answers to later calls is not part of the
    statement.) *)
Theorem write_with_null_column_is_refused (data : RecordData) (s : State) :
  not_null data = false ->
  let refused (r : Outcome NakalData * State) :=
    (exists detail, fst r = Raise (IntegrityError detail)) /\
    db (snd r) = db s in
  refused (create_record data s) /\
  (forall row,
      find (fun r => (id r =? id row)%Z) (db s) = Some row ->
      refused (update_record (id row) data s)) /\
  (forall d t v k row more,
      filter (matches_input d t v k) (db s) = row :: more ->
      refused (create_record_by_checking_record d t v k data true s) /\
      create_record_by_checking_record d t v k data false s
      = (Ret (DataRecord row), s)) /\
  (forall d t v k force_refresh,
      filter (matches_input d t v k) (db s) = [] ->
      refused (create_record_by_checking_record d t v k data force_refresh s)).
Proof.
  intro Hnn. cbv zeta.
  assert (Hc : create_record data s
               = (Raise (IntegrityError "NOT NULL constraint failed"), s)).
  { unfold create_record, add_and_commit, check_not_null, bind. now rewrite Hnn. }
  assert (Hu : forall i row,
             find (fun r => (id r =? i)%Z) (db s) = Some row ->
             update_record i data s
             = (Raise (IntegrityError "NOT NULL constraint failed"), s)).
  { intros i row Hfind. unfold update_record. rewrite Hfind.
    unfold check_not_null, bind. now rewrite Hnn. }
  split; [rewrite Hc; split; [eexists |]; reflexivity |].
  split; [intros row Hfind; rewrite (Hu _ _ Hfind); split; [eexists |]; reflexivity |].
  split.
  - intros d t v k row more Hfound.
    unfold create_record_by_checking_record, search_records_by_input_data, bind.
    rewrite Hfound. cbn [negb]. split; [| reflexivity].
    assert (Hin : In row (db s)).
    { assert (H : In row (filter (matches_input d t v k) (db s)))
        by (rewrite Hfound; now left).
      now apply filter_In in H. }
    destruct (find (fun r => (id r =? id row)%Z) (db s)) as [row' |] eqn:Hfind.
    + rewrite (Hu _ row') by exact Hfind. split; [eexists |]; reflexivity.
    + exfalso. now apply (find_id_none_inv _ _ _ Hfind Hin).
  - intros d t v k force_refresh Hfound.
    unfold create_record_by_checking_record, search_records_by_input_data, bind.
    rewrite Hfound. fold (create_record data). rewrite Hc.
    split; [eexists |]; reflexivity.
Qed.

Lemma write_with_null_column_witness :
  let data := record_data_of
                {| out_district_name := "DistrictA"; out_district_code := None;
                   out_tehsil_name := "TehsilA"; out_tehsil_code := None;
                   out_villege_name := "VillageA"; out_villege_code := None;
                   out_jamabandi_year := "2022-2023";
                   out_khewat_no := None; out_khatoni_no := None;
                   out_khasra_code := None; out_khasra_no := "6";
                   out_inner_details :=
                     {| in_villege := None; in_hadbast_no := None;
                        in_tehsil := None; in_district := None;
                        in_year := None |} |} in
  let s := Canned.start [] [Canned.cached] in
  ((exists detail, fst (create_record data s) = Raise (IntegrityError detail)) /\
   db (snd (create_record data s)) = db s) /\
  ((exists detail, fst (update_record 1 data s) = Raise (IntegrityError detail)) /\
   db (snd (update_record 1 data s)) = db s).
Proof.
  cbv zeta.
  destruct (write_with_null_column_is_refused
              (record_data_of
                 {| out_district_name := "DistrictA"; out_district_code := None;
                    out_tehsil_name := "TehsilA"; out_tehsil_code := None;
                    out_villege_name := "VillageA"; out_villege_code := None;
                    out_jamabandi_year := "2022-2023";
                    out_khewat_no := None; out_khatoni_no := None;
                    out_khasra_code := None; out_khasra_no := "6";
                    out_inner_details :=
                      {| in_villege := None; in_hadbast_no := None;
                         in_tehsil := None; in_district := None;
                         in_year := None |} |})
              (Canned.start [] [Canned.cached]) eq_refl)
    as (Hcreate & Hupdate & _).
  split; [exact Hcreate | exact (Hupdate Canned.cached eq_refl)].
Defined.

Lemma delete_row_unique (rows : list LandRecord) (i : Z) :
  NoDup (map id rows) ->
  delete_row i rows = filter (fun r => negb (id r =? i)%Z) rows.
Proof.
  induction rows as [| x rows IH]; simpl; intro Hu; [reflexivity |].
  inversion Hu as [| ? ? Hnotin Hrest]; subst.
  destruct (Z.eqb_spec (id x) i) as [E | _]; simpl.
  - symmetry. apply forallb_filter_id. apply forallb_forall.
    intros r Hr. apply negb_true_iff, Z.eqb_neq. intro E'.
    apply Hnotin. rewrite E, <- E'. now apply in_map.
  - now rewrite IH.
Qed.

(** X4. With pairwise distinct ids, deleting the id of a stored row
    answers [True] and removes that row and no other: the rows left are
    exactly those with another id, in their old order, and reading the
    id afterwards gives the empty answer. *)
Theorem delete_record_removes_the_row (row : LandRecord) (s : State) :
  NoDup (map id (db s)) ->
  In row (db s) ->
  let s' := with_db (filter (fun r => negb (id r =? id row)%Z) (db s)) s in
  delete_record (id row) s = (Ret true, s') /\
  read_record (id row) s' = (Ret None, s') /\
  S (List.length (db s')) = List.length (db s) /\
  (forall r, In r (db s') <-> In r (db s) /\ r <> row).
Proof.
  intros Hu Hin. cbv zeta.
  assert (Hfind : exists row', find (fun r => (id r =? id row)%Z) (db s) = Some row').
  { destruct (find (fun r => (id r =? id row)%Z) (db s)) eqn:Hf; [eauto |].
    exfalso. now apply (find_id_none_inv _ _ _ Hf Hin). }
  destruct Hfind as (row' & Hfind).
  assert (Hsame : forall r, In r (db s) -> id r = id row -> r = row).
  { clear Hfind row'. revert Hu Hin. generalize (db s) as rows.
    induction rows as [| x rows IH]; simpl; [tauto |].
    intros Hu Hin r Hr E. inversion Hu as [| ? ? Hnotin Hrest]; subst.
    destruct Hin as [-> | Hin], Hr as [-> | Hr]; auto.
    - exfalso. apply Hnotin. rewrite <- E. now apply in_map.
    - exfalso. apply Hnotin. rewrite E. now apply in_map. }
  repeat split.
  - unfold delete_record. rewrite Hfind. now rewrite delete_row_unique.
  - unfold read_record. cbn [db with_db]. f_equal. f_equal.
    apply find_id_none. intros r Hr E.
    apply filter_In in Hr as [_ Hr]. rewrite E, Z.eqb_refl in Hr. discriminate.
  - cbn [db with_db]. clear Hfind row' Hsame. revert Hu Hin.
    generalize (db s) as rows.
    induction rows as [| x rows IH]; simpl; [tauto |].
    intros Hu Hin. inversion Hu as [| ? ? Hnotin Hrest]; subst.
    destruct (Z.eqb_spec (id x) (id row)) as [E | N]; simpl.
    + f_equal. f_equal. apply forallb_filter_id, forallb_forall.
      intros r Hr. apply negb_true_iff, Z.eqb_neq. intro E'.
      apply Hnotin. rewrite E, <- E'. now apply in_map.
    + f_equal. apply IH; [assumption |].
      destruct Hin as [-> | Hin]; [congruence | assumption].
  - cbn [db with_db] in H. now apply filter_In in H.
  - cbn [db with_db] in H. apply filter_In in H as [_ H].
    intros ->. rewrite Z.eqb_refl in H. discriminate.
  - intros [Hr Hne]. cbn [db with_db]. apply filter_In. split; [assumption |].
    apply negb_true_iff, Z.eqb_neq. intro E. apply Hne. now apply Hsame.
Qed.

Lemma delete_record_removes_the_row_witness :
  let s := Canned.start [] [Canned.cached] in
  let s' := with_db (filter (fun r => negb (id r =? 1)%Z) (db s)) s in
  delete_record 1 s = (Ret true, s') /\
  read_record 1 s' = (Ret None, s') /\
  S (List.length (db s')) = List.length (db s) /\
  (forall r, In r (db s') <-> In r (db s) /\ r <> Canned.cached).
Proof.
  apply (delete_record_removes_the_row
           Canned.cached (Canned.start [] [Canned.cached])).
  - repeat constructor. simpl. tauto.
  - now left.
Defined.

(** X5. A rowid that no row has changes nothing: [read_record] gives the
    empty answer, [update_record] gives [None], [delete_record] gives
    [False], and each leaves the table, the extractor and the trace as
    they were. *)
Theorem unknown_id_changes_nothing (record_id : Z) (data : RecordData) (s : State) :
  is_rowid record_id = true ->
  (forall r, In r (db s) -> id r <> record_id) ->
  read_record record_id s = (Ret None, s) /\
  update_record record_id data s = (Ret DataNone, s) /\
  delete_record record_id s = (Ret false, s).
Proof.
  intros _ H. apply find_id_none in H.
  unfold read_record, update_record, delete_record.
  rewrite H. repeat split.
Qed.

Lemma unknown_id_witness :
  let s := Canned.start [] [Canned.cached] in
  read_record 7 s = (Ret None, s) /\
  update_record 7 (fields Canned.cached) s = (Ret DataNone, s) /\
  delete_record 7 s = (Ret false, s).
Proof.
  apply (unknown_id_changes_nothing 7 (fields Canned.cached)
           (Canned.start [] [Canned.cached])).
  - reflexivity.
  - intros r [<- | []]. discriminate.
Defined.

(** X6. Deleting the id that [create_record] has just returned brings the
    table back to what it was before the creation. *)
Theorem delete_record_undoes_create_record (data : RecordData) (s : State) :
  not_null data = true ->
  exists row s1,
    create_record data s = (Ret (DataRecord row), s1) /\
    fst (delete_record (id row) s1) = Ret true /\
    db (snd (delete_record (id row) s1)) = db s.
Proof.
  intro Hnn.
  exists {| id := next_id (db s); fields := data |}.
  eexists. split.
  - unfold create_record, add_and_commit, check_not_null, bind.
    rewrite Hnn. reflexivity.
  - unfold delete_record. cbn [db with_db id].
    rewrite find_app_none by apply next_id_is_fresh.
    cbn [find id]. rewrite Z.eqb_refl. cbn [fst snd db with_db].
    split; [reflexivity |].
    apply (delete_row_app (db s) {| id := next_id (db s); fields := data |}).
    apply next_id_is_fresh.
Qed.

Lemma delete_record_undoes_create_record_witness :
  exists row s1,
    create_record (fields Canned.cached) (Canned.start [] [Canned.cached])
    = (Ret (DataRecord row), s1) /\
    fst (delete_record (id row) s1) = Ret true /\
    db (snd (delete_record (id row) s1)) = db (Canned.start [] [Canned.cached]).
Proof.
  apply (delete_record_undoes_create_record
           (fields Canned.cached) (Canned.start [] [Canned.cached])).
  reflexivity.
Defined.

Lemma filter_filter {A} (f g : A -> bool) (l : list A) :
  filter f (filter g l) = filter (fun x => g x && f x) l.
Proof.
  induction l as [| x l IH]; simpl; [reflexivity |].
  destruct (g x); simpl; [destruct (f x) |]; now rewrite IH.
Qed.

Lemma truthy_nonempty (name : string) : name <> "" -> truthy (Some name) = true.
Proof.
  intro H. simpl. apply negb_true_iff. now apply String.eqb_neq.
Qed.

Lemma filter_if_In (name : pystr) (column : RecordData -> pystr)
      (rows : list LandRecord) (r : LandRecord) :
  In r (filter_if name column rows) <->
  In r rows /\ (truthy name = true -> column (fields r) = name).
Proof.
  unfold filter_if. destruct (truthy name).
  - rewrite filter_In, pystr_eqb_eq. tauto.
  - split; [intro H; split; [exact H | discriminate] | tauto].
Qed.

(** X7. Whatever the three criteria, the rows [search_records] returns
    are the stored rows that agree with every criterion that is neither
    [None] nor the empty string, and the state is left as it was; so
    without criteria the whole table is returned.  For three non-empty
    names, the rows [search_records_by_input_data] returns are those of
    [search_records] whose khasra number is the fourth name, in the
    same order. *)
Theorem search_records_criteria
        (district tehsil villege : pystr) (d t v k : string) (s : State) :
  d <> "" -> t <> "" -> v <> "" ->
  (exists found,
      search_records district tehsil villege s = (Ret found, s) /\
      forall r,
        In r found <->
        In r (db s) /\
        (truthy district = true -> district_name (fields r) = district) /\
        (truthy tehsil = true -> tehsil_name (fields r) = tehsil) /\
        (truthy villege = true -> villege_name (fields r) = villege)) /\
  fst (search_records None None None s) = Ret (db s) /\
  fst (search_records (Some "") (Some "") (Some "") s) = Ret (db s) /\
  (exists found,
      fst (search_records (Some d) (Some t) (Some v) s) = Ret found /\
      fst (search_records_by_input_data d t v k s)
      = Ret (filter (fun r => pystr_eqb (khasra_no (fields r)) (Some k)) found)).
Proof.
  intros Hd Ht Hv.
  split; [| split; [reflexivity |]; split; [reflexivity |]].
  - eexists. split; [reflexivity |].
    intro r. rewrite !filter_if_In. tauto.
  - eexists. split; [reflexivity |].
    unfold search_records_by_input_data, filter_if. cbn [fst].
    rewrite (truthy_nonempty _ Hd), (truthy_nonempty _ Ht), (truthy_nonempty _ Hv).
    rewrite !filter_filter. f_equal. symmetry. apply filter_ext.
    intro r. unfold matches_input. now rewrite !andb_assoc.
Qed.

(** A search by district alone, the other two criteria being [None] and
    the empty string, over a table of two rows of that district. *)
Lemma search_records_criteria_witness :
  let s := Canned.start [] [Canned.cached; Canned.other] in
  (exists found,
      search_records (Some "DistrictA") None (Some "") s = (Ret found, s) /\
      forall r,
        In r found <->
        In r (db s) /\
        (truthy (Some "DistrictA") = true ->
         district_name (fields r) = Some "DistrictA") /\
        (truthy None = true -> tehsil_name (fields r) = None) /\
        (truthy (Some "") = true -> villege_name (fields r) = Some "")) /\
  fst (search_records None None None s) = Ret (db s) /\
  fst (search_records (Some "") (Some "") (Some "") s) = Ret (db s) /\
  (exists found,
      fst (search_records (Some "DistrictA") (Some "TehsilA") (Some "VillageA") s)
      = Ret found /\
      fst (search_records_by_input_data "DistrictA" "TehsilA" "VillageA" "6" s)
      = Ret (filter (fun r => pystr_eqb (khasra_no (fields r)) (Some "6")) found)).
Proof.
  apply (search_records_criteria (Some "DistrictA") None (Some "")
           "DistrictA" "TehsilA" "VillageA" "6"
           (Canned.start [] [Canned.cached; Canned.other]));
    discriminate.
Defined.

(** X8. Without [force_refresh], storing under the four names the data
    carries is idempotent: whenever the call returns, a second call
    with the same arguments returns the same row and leaves the state
    the first call left.  (The first call returns unless nothing is
    stored under the names and a column is [None].) *)
Theorem create_record_by_checking_record_twice
        (d t v k : string) (data : RecordData) (s s1 : State) (x : NakalData) :
  district_name data = Some d -> tehsil_name data = Some t ->
  villege_name data = Some v -> khasra_no data = Some k ->
  create_record_by_checking_record d t v k data false s = (Ret x, s1) ->
  create_record_by_checking_record d t v k data false s1 = (Ret x, s1) /\
  exists row, x = DataRecord row /\ In row (db s1).
Proof.
  intros Hd Ht Hv Hk.
  unfold create_record_by_checking_record, search_records_by_input_data, bind.
  destruct (filter (matches_input d t v k) (db s)) as [| row more] eqn:Hfound.
  - unfold add_and_commit, check_not_null, bind.
    destruct (not_null data); [| discriminate].
    cbv [ret]. intros [= <- <-]. cbn [db with_db].
    rewrite filter_app, Hfound. cbn [filter app].
    unfold matches_input at 1. cbn [fields].
    rewrite Hd, Ht, Hv, Hk, !pystr_eqb_refl. cbn [andb negb].
    split; [reflexivity |].
    eexists. split; [reflexivity |]. apply in_or_app. right. now left.
  - cbn [negb]. cbv [ret]. intros [= <- <-]. rewrite Hfound. cbn [negb].
    split; [reflexivity |].
    exists row. split; [reflexivity |].
    assert (H : In row (filter (matches_input d t v k) (db s)))
      by (rewrite Hfound; now left).
    now apply filter_In in H.
Qed.

Lemma create_record_by_checking_record_twice_witness :
  let s := Canned.start [] [Canned.other] in
  let row := {| id := 5; fields := fields Canned.cached |} in
  let s1 := with_db [Canned.other; row] s in
  create_record_by_checking_record "DistrictA" "TehsilA" "VillageA" "6"
    (fields Canned.cached) false s
  = (Ret (DataRecord row), s1) /\
  create_record_by_checking_record "DistrictA" "TehsilA" "VillageA" "6"
    (fields Canned.cached) false s1
  = (Ret (DataRecord row), s1) /\
  exists row', DataRecord row = DataRecord row' /\ In row' (db s1).
Proof.
  cbv zeta. split; [reflexivity |].
  apply (create_record_by_checking_record_twice
           "DistrictA" "TehsilA" "VillageA" "6"
           (fields Canned.cached) (Canned.start [] [Canned.other]));
    reflexivity.
Defined.

Lemma set_fields_other (record_id : Z) (data : RecordData)
      (rows : list LandRecord) (r : LandRecord) :
  In r rows -> id r <> record_id -> In r (set_fields record_id data rows).
Proof.
  induction rows as [| x rows IH]; simpl; [tauto |].
  intros [-> | Hin] Hne.
  - destruct (Z.eqb_spec (id r) record_id); [contradiction | now left].
  - destruct (id x =? record_id)%Z; right; auto.
Qed.

Lemma update_record_keeps_ids_lemma (record_id : Z) (data : RecordData) (s : State) :
  map id (db (snd (update_record record_id data s))) = map id (db s).
Proof.
  unfold update_record.
  destruct (find (fun r => (id r =? record_id)%Z) (db s)) as [record |];
    [| reflexivity].
  unfold check_not_null, bind.
  destruct (not_null data); cbn; [apply set_fields_ids | reflexivity].
Qed.

(** X9. Given a dictionary whose keys are the sixteen data columns, as
    the one the main block builds, [update_record] never adds, removes
    or renumbers a row: the list of ids is the same afterwards, every
    row with another id is still there, and neither the extractor nor
    the trace is touched. *)
Theorem update_record_keeps_ids (record_id : Z) (data : RecordData) (s : State) :
  let s' := snd (update_record record_id data s) in
  map id (db s') = map id (db s) /\
  (forall r, In r (db s) -> id r <> record_id -> In r (db s')) /\
  obj s' = obj s /\ net s' = net s /\ log s' = log s.
Proof.
  cbv zeta. unfold update_record.
  destruct (find (fun r => (id r =? record_id)%Z) (db s)) as [record |];
    [| cbn; auto].
  unfold check_not_null, bind.
  destruct (not_null data); cbn; [| auto].
  split; [apply set_fields_ids |].
  split; [intros r Hin Hne; now apply set_fields_other | auto].
Qed.

(** ** What [extract_data] can return *)

Lemma get_years_returns_years d t v s years s' :
  get_years d t v s = (Ret years, s') -> years <> [].
Proof.
  unfold get_years, retry_on_exception. intro H.
  apply wrapper_Ret_inv in H as (s1 & H).
  unfold get_years_func in H.
  apply bind_Ret_inv in H as (self & s2 & _ & H).
  apply bind_Ret_inv in H as (page & s3 & _ & H).
  destruct (option_values (xpath_options "Jamabandi Year" page)) eqn:Hy;
    [discriminate |].
  injection H as <- _. discriminate.
Qed.

Ltac inv_bind H := apply bind_Ret_inv in H as (? & ? & _ & H).

Lemma extract_data_Ret_inv d t v k destination_path s x s' :
  extract_data d t v k destination_path s = (Ret x, s') ->
  (exists level, x = Message (not_found_text level (name_at level d t v k))) \/
  (exists output,
      x = Resolved output /\
      out_district_name output = d /\ out_tehsil_name output = t /\
      out_villege_name output = v /\ out_khasra_no output = k).
Proof.
  unfold extract_data. intro H.
  do 4 inv_bind H.
  apply bind_Ret_inv in H as (districts & ? & _ & H).
  destruct (dict_get (Some d) districts) as [district_id |];
    [| injection H as <- _; left; now exists District].
  inv_bind H.
  apply bind_Ret_inv in H as (sub_districts & ? & _ & H).
  destruct (dict_get (Some t) sub_districts) as [sub_district_id |];
    [| injection H as <- _; left; now exists SubDistrict].
  inv_bind H.
  apply bind_Ret_inv in H as (villeges & ? & _ & H).
  destruct (dict_get (Some v) villeges) as [villege_id |];
    [| injection H as <- _; left; now exists Village].
  inv_bind H.
  apply bind_Ret_inv in H as (years & ? & Hyears & H).
  apply get_years_returns_years in Hyears.
  destruct years as [| years_0 later]; [contradiction |].
  inv_bind H.
  apply bind_Ret_inv in H as (khasras & ? & _ & H).
  destruct (dict_get (Some k) khasras) as [khasra_id |];
    [| injection H as <- _; left; now exists Khasra].
  inv_bind H.
  apply bind_Ret_inv in H as (r & ? & Hnakals & H).
  apply get_nakals_returns_candidates in Hnakals.
  cbv zeta in H.
  destruct (fst r) as [| nakals_0 more]; [contradiction |].
  do 4 inv_bind H.
  injection H as <- _. right. eexists. split; [reflexivity |]. cbn. auto.
Qed.

(** X10. The only strings [extract_data] ever returns are the four
    "not found" messages, each for the caller's own name at that level:
    ['Year is empty!'] and ['Nakal is empty!'] are never returned,
    because the steps raise on an empty list before the caller can test
    it. *)
Theorem extract_data_returns_only_not_found_messages
        (d t v k : string) (destination_path : option (list string))
        (s : State) (text : string) :
  fst (extract_data d t v k destination_path s) = Ret (Message text) ->
  (exists level, text = not_found_text level (name_at level d t v k)) /\
  text <> "Year is empty!" /\ text <> "Nakal is empty!".
Proof.
  destruct (extract_data d t v k destination_path s) as [o s'] eqn:E.
  cbn [fst]. intros ->.
  apply extract_data_Ret_inv in E as [(level & E) | (output & E & _)];
    [| discriminate].
  injection E as ->.
  split; [now exists level |].
  destruct level; cbn; split; discriminate.
Qed.

Lemma extract_data_returns_only_not_found_messages_witness :
  (exists level,
      "Khasra number:7 not found!"
      = not_found_text level (name_at level "DistrictA" "TehsilA" "VillageA" "7")) /\
  "Khasra number:7 not found!" <> "Year is empty!" /\
  "Khasra number:7 not found!" <> "Nakal is empty!".
Proof.
  apply (extract_data_returns_only_not_found_messages
           "DistrictA" "TehsilA" "VillageA" "7" None
           (Canned.start Canned.replies [])).
  vm_compute. reflexivity.
Defined.

(** X11. An output dictionary returned by [extract_data] carries the
    caller's four names unchanged, so the row built from it is found by
    a search for those names, whatever id it is stored under. *)
Theorem resolved_output_carries_the_names
        (d t v k : string) (destination_path : option (list string))
        (s : State) (output : Output) :
  fst (extract_data d t v k destination_path s) = Ret (Resolved output) ->
  out_district_name output = d /\ out_tehsil_name output = t /\
  out_villege_name output = v /\ out_khasra_no output = k /\
  forall i,
    matches_input d t v k {| id := i; fields := record_data_of output |} = true.
Proof.
  destruct (extract_data d t v k destination_path s) as [o s'] eqn:E.
  cbn [fst]. intros ->.
  apply extract_data_Ret_inv in E as [(level & E) | (o & E & Hd & Ht & Hv & Hk)];
    [discriminate |].
  injection E as <-.
  repeat (split; [assumption |]).
  intro i. unfold matches_input. cbn.
  rewrite Hd, Ht, Hv, Hk, !String.eqb_refl. reflexivity.
Qed.

Lemma resolved_output_carries_the_names_witness :
  out_district_name Canned.output = "DistrictA" /\
  out_tehsil_name Canned.output = "TehsilA" /\
  out_villege_name Canned.output = "VillageA" /\
  out_khasra_no Canned.output = "6" /\
  forall i,
    matches_input "DistrictA" "TehsilA" "VillageA" "6"
      {| id := i; fields := record_data_of Canned.output |} = true.
Proof.
  apply (resolved_output_carries_the_names
           "DistrictA" "TehsilA" "VillageA" "6" None
           (Canned.start Canned.replies [])).
  vm_compute. reflexivity.
Defined.

(** ** The main block as a whole *)

Lemma bind_print_inside {A B} (text : string) (m : M A) (k : A -> M B) s :
  bind (bind (print text) (fun _ => m)) k s = bind m k (add_log [EvPrint text] s).
Proof. reflexivity. Qed.

Lemma main_unfolded (args : Args) (s : State) :
  let d := arg_district_name args in
  let t := arg_sub_district_name args in
  let v := arg_village_name args in
  let k := arg_khasra_no args in
  let found := filter (matches_input d t v k) (db s) in
  main args s =
  (if match found with [] => true | _ => false end || arg_force_refresh args
   then
     (nakal_data <-
        (extracted <- extract_data d t v k (Some (html_path_of d t v k)) ;;
         match extracted with
         | Resolved output =>
             create_record_by_checking_record d t v k (record_data_of output)
               (arg_force_refresh args)
         | Message text => ret (DataMessage text)
         end) ;;
      print (str_mul "#" 60) ;;
      emit (EvPrintData nakal_data))
       (add_log (announced args) s)
   else
     (Ret tt,
      add_log [EvMkdir "nakal_html_data";
               EvPrint ">>>>>>>>>>>>>>>>>>>>> Inserted Inputs <<<<<<<<<<<<<<<<<<<<<";
               EvPrint ("District Name: " +++ arg_district_name args);
               EvPrint ("Sub-district Name: " +++ arg_sub_district_name args);
               EvPrint ("Village Name: " +++ arg_village_name args);
               EvPrint ("Khasra Number: " +++ arg_khasra_no args);
               EvPrint ("Force Refresh: "
                        +++ (if arg_force_refresh args then "True" else "False"));
               EvPrint (str_mul "#" 60);
               EvPrintData (DataRecords found)] s)).
Proof.
  cbv zeta. unfold main, get_command_line_arg.
  do 3 pure_step.
  cbn [db add_log with_log].
  destruct (match filter _ (db s) with [] => true | _ => false end
            || arg_force_refresh args).
  - rewrite bind_print_inside. rewrite !add_log_add_log. reflexivity.
  - do 2 pure_step. unfold emit. rewrite !add_log_add_log. reflexivity.
Qed.

(** X12. In a table that has room, a run that finds no row for the four
    names and whose extraction returns an output dictionary without
    [None] stores it as a new row under the rowid SQLite gives next, so
    last in rowid order; a search for the same four names in the state
    the run leaves returns exactly that row. *)
Theorem stored_result_is_found_again
        (args : Args) (s s1 : State) (output : Output) :
  let d := arg_district_name args in
  let t := arg_sub_district_name args in
  let v := arg_village_name args in
  let k := arg_khasra_no args in
  rowid_table (db s) = true ->
  has_room (db s) = true ->
  filter (matches_input d t v k) (db s) = [] ->
  extract_data d t v k (Some (html_path_of d t v k)) (add_log (announced args) s)
  = (Ret (Resolved output), s1) ->
  not_null (record_data_of output) = true ->
  let row := {| id := next_id (db s); fields := record_data_of output |} in
  let s' := add_log [EvPrint (str_mul "#" 60); EvPrintData (DataRecord row)]
                    (with_db (db s ++ [row]) s1) in
  main args s = (Ret tt, s') /\
  search_records_by_input_data d t v k s' = (Ret [row], s') /\
  rowid_table (db s') = true.
Proof.
  cbv zeta. intros Htable Hroom Hfound Hext Hnn.
  assert (Hdb1 : db s1 = db s).
  { pose proof (f_equal (fun r => db (snd r)) Hext) as K. cbv beta in K.
    rewrite keeps_extract_data in K. cbn in K. now rewrite <- K. }
  split; [| split].
  - rewrite main_unfolded. cbv zeta. rewrite Hfound. cbn [orb].
    erewrite bind_Ret.
    2: { erewrite bind_Ret by exact Hext.
         unfold create_record_by_checking_record, search_records_by_input_data.
         erewrite bind_Ret by reflexivity.
         rewrite Hdb1, Hfound.
         unfold add_and_commit, check_not_null, bind. rewrite Hnn.
         reflexivity. }
    pure_step. unfold emit. cbn [db]. now rewrite add_log_add_log, Hdb1.
  - unfold search_records_by_input_data. cbn [db add_log with_log with_db].
    rewrite filter_app, Hfound. cbn [filter app].
    apply extract_data_Ret_inv in Hext as [(level & E) | (o & E & Hd & Ht & Hv & Hk)];
      [discriminate |].
    injection E as <-.
    unfold matches_input at 1. cbn.
    rewrite Hd, Ht, Hv, Hk, !String.eqb_refl. reflexivity.
  - cbn [db add_log with_log with_db]. now apply rowid_table_next.
Qed.

Lemma stored_result_is_found_again_witness :
  exists row s',
    main (Canned.args false) (Canned.start Canned.replies [Canned.other])
    = (Ret tt, s') /\
    search_records_by_input_data "DistrictA" "TehsilA" "VillageA" "6" s'
    = (Ret [row], s') /\
    rowid_table (db s') = true /\
    row = {| id := 5; fields := record_data_of Canned.output |} /\
    db s' = [Canned.other; row].
Proof.
  destruct (stored_result_is_found_again
              (Canned.args false) (Canned.start Canned.replies [Canned.other])
              (snd (extract_data "DistrictA" "TehsilA" "VillageA" "6"
                      (Some (html_path_of "DistrictA" "TehsilA" "VillageA" "6"))
                      (add_log (announced (Canned.args false))
                               (Canned.start Canned.replies [Canned.other]))))
              Canned.output)
    as (Hmain & Hsearch & Htable).
  - reflexivity.
  - reflexivity.
  - reflexivity.
  - vm_compute. reflexivity.
  - reflexivity.
  - eexists; eexists. split; [exact Hmain |]. split; [exact Hsearch |].
    split; [exact Htable |]. split; reflexivity.
Defined.

(** *** Rows are only ever added one at a time *)

Lemma rowid_table_ids (rows rows' : list LandRecord) :
  map id rows' = map id rows -> rowid_table rows' = rowid_table rows.
Proof. unfold rowid_table. now intros ->. Qed.

(** The ids a call leaves: those it found, or those and the next one. *)
Lemma create_record_by_checking_record_ids d t v k data force_refresh s :
  let s' := snd (create_record_by_checking_record d t v k data force_refresh s) in
  map id (db s') = map id (db s) \/
  map id (db s') = map id (db s) ++ [next_id (db s)].
Proof.
  cbv zeta.
  unfold create_record_by_checking_record, search_records_by_input_data, bind.
  destruct (filter (matches_input d t v k) (db s)) as [| row more].
  - unfold add_and_commit, check_not_null, bind.
    destruct (not_null data); cbn -[next_id]; [right | left; reflexivity].
    now rewrite map_app.
  - destruct force_refresh; cbn [negb]; left; [| reflexivity].
    apply (update_record_keeps_ids_lemma (id row) data s).
Qed.

Lemma main_ids (args : Args) (s : State) :
  map id (db (snd (main args s))) = map id (db s) \/
  map id (db (snd (main args s))) = map id (db s) ++ [next_id (db s)].
Proof.
  pose proof (keeps_extract_data (arg_district_name args) (arg_sub_district_name args)
                (arg_village_name args) (arg_khasra_no args)
                (Some (html_path_of (arg_district_name args)
                         (arg_sub_district_name args) (arg_village_name args)
                         (arg_khasra_no args)))
                (add_log (announced args) s)) as Hkeep.
  destruct (main args s) as [o s'] eqn:Hmain. cbn [snd].
  rewrite main_unfolded in Hmain. cbv zeta in Hmain.
  destruct (match filter _ (db s) with [] => true | _ => false end
            || arg_force_refresh args);
    [| injection Hmain as _ <-; left; reflexivity].
  unfold bind at 1 in Hmain. unfold bind at 1 in Hmain.
  destruct (extract_data _ _ _ _ _ (add_log (announced args) s))
    as [[[text | output] | e | msg] s1]; cbn [snd db add_log with_log] in Hkeep.
  - injection Hmain as _ <-. left. cbn [db add_log with_log]. now rewrite Hkeep.
  - pose proof (create_record_by_checking_record_ids
                  (arg_district_name args) (arg_sub_district_name args)
                  (arg_village_name args) (arg_khasra_no args)
                  (record_data_of output) (arg_force_refresh args) s1) as H.
    cbv zeta in H. rewrite Hkeep in H.
    destruct (create_record_by_checking_record _ _ _ _ _ _ s1)
      as [[nakal_data | e | msg] s2]; cbn [snd] in H;
      injection Hmain as _ <-; exact H.
  - injection Hmain as _ <-. left. now rewrite Hkeep.
  - injection Hmain as _ <-. left. now rewrite Hkeep.
Qed.

(** X13. In a table that has room, one run of the main block, whatever
    the arguments and the replies, never removes or renumbers a row and
    adds at most one: the ids it leaves are the ids it found, followed
    by at most one new id, and the table is still a table in rowid
    order. *)
Theorem main_adds_at_most_one_row (args : Args) (s : State) :
  rowid_table (db s) = true ->
  has_room (db s) = true ->
  let s' := snd (main args s) in
  (exists added,
      map id (db s') = map id (db s) ++ added /\ List.length added <= 1) /\
  rowid_table (db s') = true.
Proof.
  intros Htable Hroom. cbv zeta.
  destruct (main_ids args s) as [H | H].
  - split; [exists []; rewrite app_nil_r; auto |].
    now rewrite (rowid_table_ids _ _ H).
  - split; [exists [next_id (db s)]; auto |].
    unfold rowid_table. rewrite H. now apply rowid_ids_next.
Qed.

Lemma main_adds_at_most_one_row_witness :
  let s := Canned.start Canned.replies [Canned.other] in
  let s' := snd (main (Canned.args false) s) in
  ((exists added,
       map id (db s') = map id (db s) ++ added /\ List.length added <= 1) /\
   rowid_table (db s') = true) /\
  map id (db s') = [4%Z; 5%Z].
Proof.
  split; [| reflexivity].
  apply (main_adds_at_most_one_row
           (Canned.args false) (Canned.start Canned.replies [Canned.other]));
    reflexivity.
Defined.

(** X14. The table changes only when the extraction returns an output
    dictionary: if it returns a message, or ends the run, the table the
    main block leaves is the table it found; and a [SystemExit] of the
    extraction ends the main block with the same message. *)
Theorem main_persists_nothing_unless_resolved (args : Args) (s : State) :
  let d := arg_district_name args in
  let t := arg_sub_district_name args in
  let v := arg_village_name args in
  let k := arg_khasra_no args in
  let extraction :=
    extract_data d t v k (Some (html_path_of d t v k)) (add_log (announced args) s) in
  (forall output, fst extraction <> Ret (Resolved output)) ->
  db (snd (main args s)) = db s /\
  (forall msg,
      fst extraction = Exit msg ->
      filter (matches_input d t v k) (db s) = [] \/ arg_force_refresh args = true ->
      main args s = (Exit msg, snd extraction)).
Proof.
  cbv zeta. intro Hnot.
  pose proof (keeps_extract_data (arg_district_name args) (arg_sub_district_name args)
                (arg_village_name args) (arg_khasra_no args)
                (Some (html_path_of (arg_district_name args)
                         (arg_sub_district_name args) (arg_village_name args)
                         (arg_khasra_no args)))
                (add_log (announced args) s)) as Hkeep.
  rewrite main_unfolded. cbv zeta.
  destruct (extract_data _ _ _ _ _ (add_log (announced args) s))
    as [[[text | output] | e | msg] s1] eqn:Hext; cbn [fst snd] in *.
  - split.
    + destruct (_ || _); [| reflexivity].
      unfold bind at 1. unfold bind at 1. rewrite Hext. cbn. exact Hkeep.
    + discriminate.
  - exfalso. now apply (Hnot output).
  - split.
    + destruct (_ || _); [| reflexivity].
      unfold bind at 1. unfold bind at 1. rewrite Hext. cbn. exact Hkeep.
    + discriminate.
  - split.
    + destruct (_ || _); [| reflexivity].
      unfold bind at 1. unfold bind at 1. rewrite Hext. cbn. exact Hkeep.
    + intros msg' [= <-] Hmiss.
      assert (Hcond : match filter (matches_input (arg_district_name args)
                                      (arg_sub_district_name args)
                                      (arg_village_name args) (arg_khasra_no args))
                              (db s) with [] => true | _ => false end
                      || arg_force_refresh args = true).
      { destruct Hmiss as [-> | ->]; [reflexivity | apply orb_true_r]. }
      rewrite Hcond. unfold bind at 1. unfold bind at 1. now rewrite Hext.
Qed.

Lemma main_persists_nothing_unless_resolved_witness :
  let args := {| arg_district_name := "DistrictA"; arg_sub_district_name := "TehsilA";
                 arg_village_name := "VillageA"; arg_khasra_no := "6";
                 arg_force_refresh := true |} in
  let s := Canned.start Canned.replies_no_nakals [Canned.cached] in
  db (snd (main args s)) = db s /\
  (forall msg,
      fst (extract_data "DistrictA" "TehsilA" "VillageA" "6"
             (Some (html_path_of "DistrictA" "TehsilA" "VillageA" "6"))
             (add_log (announced args) s)) = Exit msg ->
      filter (matches_input "DistrictA" "TehsilA" "VillageA" "6") (db s) = []
      \/ arg_force_refresh args = true ->
      main args s
      = (Exit msg,
         snd (extract_data "DistrictA" "TehsilA" "VillageA" "6"
                (Some (html_path_of "DistrictA" "TehsilA" "VillageA" "6"))
                (add_log (announced args) s)))).
Proof.
  apply (main_persists_nothing_unless_resolved
           {| arg_district_name := "DistrictA"; arg_sub_district_name := "TehsilA";
              arg_village_name := "VillageA"; arg_khasra_no := "6";
              arg_force_refresh := true |}
           (Canned.start Canned.replies_no_nakals [Canned.cached])).
  intro output. vm_compute. discriminate.
Defined.

(** ** The decorator in general *)

Lemma wrapper_never_raises {A} retries delay (func : M A) remaining attempt err :
  never_raises (wrapper retries delay func remaining attempt err).
Proof.
  revert attempt err.
  induction remaining as [| remaining IH]; intros attempt err s e.
  - rewrite wrapper_O. discriminate.
  - destruct (func s) as [[a | e0 | msg] s1] eqn:Hf.
    + rewrite (wrapper_Ret _ _ _ _ _ _ _ _ _ Hf). discriminate.
    + rewrite (wrapper_Raise _ _ _ _ _ _ _ _ _ Hf). apply IH.
    + rewrite (wrapper_Exit _ _ _ _ _ _ _ _ _ Hf). discriminate.
Qed.

Lemma never_raises_bind {A B} (m : M A) (k : A -> M B) :
  never_raises m -> (forall a, never_raises (k a)) -> never_raises (bind m k).
Proof.
  intros Hm Hk s e. unfold bind. specialize (Hm s).
  destruct (m s) as [[a | e0 | msg] s1]; cbn [fst] in *.
  - apply Hk.
  - exfalso. now apply (Hm e0).
  - discriminate.
Qed.

Lemma never_raises_ret {A} (a : A) : never_raises (ret a).
Proof. intros s e. discriminate. Qed.

Lemma never_raises_emit ev : never_raises (emit ev).
Proof. intros s e. discriminate. Qed.

Ltac quiet :=
  repeat first
    [ apply wrapper_never_raises
    | apply never_raises_ret
    | apply never_raises_emit
    | apply never_raises_bind; [| intro]
    | (intros ? ?; discriminate)
    | progress cbv zeta
    | match goal with
      | |- never_raises (match ?x with _ => _ end) => destruct x
      end ].

(** X15. No exception escapes a decorated function, whatever the
    function does and however many retries it is given: the call either
    returns or ends the run with [SystemExit].  As every step of
    [extract_data] is decorated, [extract_data] never raises either. *)
Theorem decorated_steps_never_raise :
  (forall (A : Type) (retries delay : nat) (func : M A) (s : State) (e : exn),
      fst (retry_on_exception retries delay func s) <> Raise e) /\
  (forall (d t v k : string) (destination_path : option (list string))
          (s : State) (e : exn),
      fst (extract_data d t v k destination_path s) <> Raise e).
Proof.
  split.
  - intros A retries delay func. apply wrapper_never_raises.
  - intros d t v k destination_path.
    change (never_raises (extract_data d t v k destination_path)).
    unfold extract_data, get_jamabandi_page, get_districts, get_sub_districts,
      get_villeges, get_years, get_khasras, get_nakals, select_nakals,
      get_nakal_html, retry_on_exception, print, set_self.
    quiet.
Qed.

(** X16. A failure followed by a success is absorbed: when the first
    attempt raises and the attempt made after the "Retrying 1/n" line
    and the sleep returns, the decorated function returns that result in
    the state that attempt left, provided at least two attempts are
    allowed. *)
Theorem one_failure_is_absorbed
        {A} (retries delay : nat) (func : M A) (s s1 s2 : State) (e : exn) (a : A) :
  2 <= retries ->
  func s = (Raise e, s1) ->
  func (add_log [EvPrint (retrying_text e 1 retries); EvSleep delay] s1)
  = (Ret a, s2) ->
  retry_on_exception retries delay func s = (Ret a, s2).
Proof.
  intros Hn H1 H2. unfold retry_on_exception.
  destruct retries as [| [| n]]; try lia.
  rewrite (wrapper_Raise _ _ _ _ _ _ _ _ _ H1).
  now rewrite (wrapper_Ret _ _ _ _ _ _ _ _ _ H2).
Qed.

Lemma one_failure_is_absorbed_witness :
  let s := Canned.start [ConnectionError "timed out"; Response 200 Canned.page_districts]
                        [] in
  fst (get_districts s) = Ret Canned.districts /\
  filter is_sleep (log (snd (get_districts s))) = [EvSleep 5] /\
  List.length (filter is_request (log (snd (get_districts s)))) = 2.
Proof.
  cbv zeta. unfold get_districts.
  rewrite (one_failure_is_absorbed 3 5 get_districts_func
             (Canned.start [ConnectionError "timed out";
                            Response 200 Canned.page_districts] [])
             (snd (get_districts_func
                     (Canned.start [ConnectionError "timed out";
                                    Response 200 Canned.page_districts] [])))
             (snd (get_districts_func
                     (add_log [EvPrint (retrying_text (RequestException "timed out") 1 3);
                               EvSleep 5]
                        (snd (get_districts_func
                                (Canned.start [ConnectionError "timed out";
                                               Response 200 Canned.page_districts]
                                              []))))))
             (RequestException "timed out") Canned.districts).
  - repeat split; reflexivity.
  - lia.
  - reflexivity.
  - reflexivity.
Defined.

(** ** How much a run can request and sleep *)

Section Budget.
Variable w : Event -> nat.

Lemma costs_ret {A} (a : A) : costs_at_most w 0 (ret a).
Proof. intro s. exists []. now rewrite app_nil_r. Qed.

Lemma costs_raise {A} (e : exn) : costs_at_most w 0 (@raise A e).
Proof. intro s. exists []. now rewrite app_nil_r. Qed.

Lemma costs_sys_exit {A} (msg : string) : costs_at_most w 0 (@sys_exit A msg).
Proof. intro s. exists []. now rewrite app_nil_r. Qed.

Lemma costs_emit (ev : Event) : costs_at_most w (w ev) (emit ev).
Proof. intro s. exists [ev]. cbn. split; [reflexivity | lia]. Qed.

Lemma costs_silent {A} (m : M A) :
  (forall s, log (snd (m s)) = log s) -> costs_at_most w 0 m.
Proof. intros H s. exists []. now rewrite H, app_nil_r. Qed.

Lemma costs_take_reply (ev : Event) : costs_at_most w (w ev) (take_reply ev).
Proof.
  intro s. exists [ev]. unfold take_reply.
  destruct (net s) as [| [detail | c page] rest]; cbn; split;
    try reflexivity; lia.
Qed.

Lemma costs_weaken {A} (n n' : nat) (m : M A) :
  n <= n' -> costs_at_most w n m -> costs_at_most w n' m.
Proof.
  intros Hle H s. destruct (H s) as (evs & E & Hn).
  exists evs. split; [exact E | lia].
Qed.

Lemma costs_bind {A B} (n n' : nat) (m : M A) (k : A -> M B) :
  costs_at_most w n m -> (forall a, costs_at_most w n' (k a)) ->
  costs_at_most w (n + n') (bind m k).
Proof.
  intros Hm Hk s. unfold bind.
  destruct (Hm s) as (evs & E & Hn).
  destruct (m s) as [[a | e | msg] s1]; cbn [snd] in *.
  - destruct (Hk a s1) as (evs' & E' & Hn').
    exists (evs ++ evs'). rewrite E', E, <- app_assoc, map_app, list_sum_app.
    split; [reflexivity | lia].
  - exists evs. split; [exact E | lia].
  - exists evs. split; [exact E | lia].
Qed.

Lemma costs_bind_free {A B} (n : nat) (m : M A) (k : A -> M B) :
  costs_at_most w 0 m -> (forall a, costs_at_most w n (k a)) ->
  costs_at_most w n (bind m k).
Proof. intros Hm Hk. exact (costs_bind 0 n m k Hm Hk). Qed.

Hypothesis silent : silent_prints w.

Lemma costs_print (text : string) : costs_at_most w 0 (print text).
Proof.
  destruct silent as (Hp & _).
  unfold print. rewrite <- (Hp text). apply costs_emit.
Qed.

Lemma costs_wrapper {A} (c retries delay : nat) (func : M A) remaining attempt err :
  costs_at_most w c func ->
  costs_at_most w (remaining * (c + w (EvSleep delay)))
                (wrapper retries delay func remaining attempt err).
Proof.
  intro Hf. revert attempt err.
  induction remaining as [| remaining IH]; intros attempt err.
  - cbn [wrapper Nat.mul].
    apply costs_bind_free.
    + destruct silent as (_ & Ht & _). rewrite <- (Ht err). apply costs_emit.
    + intros _. apply costs_bind_free; [apply costs_print | intros _].
      apply costs_sys_exit.
  - intro s. cbn [wrapper].
    destruct (Hf s) as (evs & E & Hn).
    destruct (func s) as [[a | e | msg] s1]; cbn [snd] in *.
    + exists evs. split; [exact E | lia].
    + assert (Hrest : costs_at_most w (0 + (w (EvSleep delay)
                                          + remaining * (c + w (EvSleep delay))))
                        (print (retrying_text e (S attempt) retries) ;;
                         sleep delay ;;
                         wrapper retries delay func remaining (S attempt) (Some e))).
      { apply costs_bind; [apply costs_print | intros _].
        apply costs_bind; [apply costs_emit | intros _; apply IH]. }
      destruct (Hrest s1) as (evs' & E' & Hn').
      exists (evs ++ evs').
      split.
      * change (log (snd ((print (retrying_text e (S attempt) retries) ;;
                           sleep delay ;;
                           wrapper retries delay func remaining (S attempt) (Some e))
                            s1))
                = log s ++ evs ++ evs').
        now rewrite E', E, <- app_assoc.
      * rewrite map_app, list_sum_app. lia.
    + exists evs. split; [exact E | lia].
Qed.

Variable g : nat.
Hypothesis get_costs : forall url, w (EvGet url) <= g.
Hypothesis post_costs : forall url data, w (EvPost url data) <= g.

Lemma costs_raise_for_status response : costs_at_most w 0 (raise_for_status response).
Proof.
  unfold raise_for_status.
  destruct ((400 <=? fst response)%Z && (fst response <? 600)%Z);
    [apply costs_raise | apply costs_ret].
Qed.

Lemma costs_postback data : costs_at_most w g (postback data).
Proof.
  unfold postback, session_post.
  apply (costs_weaken (w (EvPost jamabandi_uri data) + 0)); [pose proof (post_costs jamabandi_uri data); lia |].
  apply costs_bind; [apply costs_take_reply | intro response].
  apply costs_bind_free; [apply costs_raise_for_status | intros _].
  cbv zeta.
  destruct (negb (truthy (xpath_input_value "__VIEWSTATE" (inputs (snd response))))
            || negb (truthy (xpath_input_value "__EVENTVALIDATION"
                               (inputs (snd response))))).
  - apply costs_bind_free; [apply costs_print | intros _; apply costs_raise].
  - apply costs_bind_free; [apply costs_silent; reflexivity | intros _].
    apply costs_bind_free; [apply costs_silent; reflexivity | intros _].
    apply costs_ret.
Qed.

Lemma costs_nakal_rows_loop rows nakals nakal_detail :
  costs_at_most w 0 (nakal_rows_loop rows nakals nakal_detail).
Proof. apply costs_silent. intro s. now rewrite nakal_rows_loop_pure. Qed.

Ltac post_cost :=
  apply costs_bind_free; [apply costs_silent; reflexivity | intro];
  apply (costs_weaken (g + 0)); [lia |];
  apply costs_bind; [apply costs_postback | intro];
  repeat first
    [ apply costs_ret | apply costs_raise
    | apply costs_nakal_rows_loop
    | apply costs_bind_free; [| intro]
    | match goal with
      | |- costs_at_most _ _ (match ?x with _ => _ end) => destruct x
      end ].

Lemma costs_step_funcs :
  costs_at_most w g get_districts_func /\
  (forall d, costs_at_most w g (get_sub_districts_func d)) /\
  (forall d t, costs_at_most w g (get_villeges_func d t)) /\
  (forall d t v, costs_at_most w g (get_years_func d t v)) /\
  (forall d t v y, costs_at_most w g (get_khasras_func d t v y)) /\
  (forall d t v y k, costs_at_most w g (get_nakals_func d t v y k)) /\
  (forall d t v y k n, costs_at_most w g (select_nakals_func d t v y k n)).
Proof.
  repeat split; intros;
    unfold get_districts_func, get_sub_districts_func, get_villeges_func,
      get_years_func, get_khasras_func, get_nakals_func, select_nakals_func;
    post_cost.
Qed.

Lemma costs_get_jamabandi_page_func : costs_at_most w g get_jamabandi_page_func.
Proof.
  unfold get_jamabandi_page_func, session_get.
  apply (costs_weaken (w (EvGet jamabandi_uri) + 0));
    [pose proof (get_costs jamabandi_uri); lia |].
  apply costs_bind; [apply costs_take_reply | intro response].
  apply costs_bind_free; [apply costs_raise_for_status | intros _].
  cbv zeta.
  do 5 (apply costs_bind_free; [apply costs_silent; reflexivity | intro]).
  destruct (_ || _).
  - apply costs_bind_free; [apply costs_print | intros _; apply costs_raise].
  - apply costs_ret.
Qed.

Lemma costs_get_nakal_html_func destination_path :
  costs_at_most w g (get_nakal_html_func destination_path).
Proof.
  unfold get_nakal_html_func, session_get.
  apply (costs_weaken (w (EvGet nakal_khewat_uri) + 0));
    [pose proof (get_costs nakal_khewat_uri); lia |].
  apply costs_bind; [apply costs_take_reply | intro response].
  apply costs_bind_free; [apply costs_raise_for_status | intros _].
  apply costs_bind_free; [| intros _; apply costs_ret].
  destruct destination_path as [path |]; [| apply costs_ret].
  destruct silent as (_ & _ & _ & Hw & _).
  rewrite <- (Hw path (snd response)). apply costs_emit.
Qed.

(** Nine decorated steps, three attempts each. *)
Lemma costs_extract_data d t v k destination_path :
  costs_at_most w (27 * (g + w (EvSleep 5)))
                (extract_data d t v k destination_path).
Proof.
  pose proof costs_step_funcs as (Hd & Hs & Hv & Hy & Hk & Hn & Hsel).
  set (B := 3 * (g + w (EvSleep 5))).
  apply (costs_weaken (B + (B + (B + (B + (B + (B + (B + (B + (B + 0))))))))));
    [unfold B; lia |].
  assert (early : forall text rest, costs_at_most w rest (ret (Message text))).
  { intros text rest. apply (costs_weaken 0); [lia | apply costs_ret]. }
  unfold extract_data.
  apply costs_bind_free; [apply costs_silent; reflexivity | intros _].
  apply costs_bind_free; [apply costs_print | intros _].
  apply costs_bind; [apply costs_wrapper, costs_get_jamabandi_page_func | intros _].
  apply costs_bind_free; [apply costs_print | intros _].
  apply costs_bind; [apply costs_wrapper, Hd | intro districts].
  destruct (dict_get (Some d) districts) as [district_id |]; [| apply early].
  apply costs_bind_free; [apply costs_print | intros _].
  apply costs_bind; [apply costs_wrapper, Hs | intro sub_districts].
  destruct (dict_get (Some t) sub_districts) as [sub_district_id |]; [| apply early].
  apply costs_bind_free; [apply costs_print | intros _].
  apply costs_bind; [apply costs_wrapper, Hv | intro villeges].
  destruct (dict_get (Some v) villeges) as [villege_id |]; [| apply early].
  apply costs_bind_free; [apply costs_print | intros _].
  apply costs_bind; [apply costs_wrapper, Hy | intro years].
  destruct years as [| years_0 later]; [apply early |].
  apply costs_bind_free; [apply costs_print | intros _].
  apply costs_bind; [apply costs_wrapper, Hk | intro khasras].
  destruct (dict_get (Some k) khasras) as [khasra_id |]; [| apply early].
  apply costs_bind_free; [apply costs_print | intros _].
  apply costs_bind; [apply costs_wrapper, Hn | intro r].
  cbv zeta. destruct (fst r) as [| nakals_0 more]; [apply early |].
  apply costs_bind_free; [apply costs_print | intros _].
  apply costs_bind; [apply costs_wrapper, Hsel | intros _].
  apply costs_bind_free; [apply costs_print | intros _].
  apply costs_bind; [apply costs_wrapper, costs_get_nakal_html_func | intro page].
  apply costs_ret.
Qed.
End Budget.

Lemma request_count_sum (evs : list Event) :
  list_sum (map request_count evs) = List.length (filter is_request evs).
Proof.
  induction evs as [| ev evs IH]; [reflexivity |].
  change (list_sum (map request_count (ev :: evs)))
    with (request_count ev + list_sum (map request_count evs)).
  rewrite IH. unfold request_count. simpl filter.
  destruct (is_request ev); simpl; lia.
Qed.

Lemma silent_request_count : silent_prints request_count.
Proof. repeat split. Qed.

Lemma silent_sleep_seconds : silent_prints sleep_seconds.
Proof. repeat split. Qed.

(** X17. However the server answers, one call of [extract_data] sends at
    most 27 requests (nine steps, three attempts each) and sleeps at
    most 135 seconds in all; it only ever appends to the trace. *)
Theorem extract_data_stays_within_budget
        (d t v k : string) (destination_path : option (list string)) (s : State) :
  exists evs,
    log (snd (extract_data d t v k destination_path s)) = log s ++ evs /\
    List.length (filter is_request evs) <= 27 /\
    list_sum (map sleep_seconds evs) <= 135.
Proof.
  destruct (costs_extract_data request_count silent_request_count 1
              (fun _ => le_n 1) (fun _ _ => le_n 1) d t v k destination_path s)
    as (evs & E & Hrequests).
  assert (Hzero : forall url : string, sleep_seconds (EvGet url) <= 0) by (intro; cbn; lia).
  assert (Hzero' : forall (url : string) (data : dict pystr),
             sleep_seconds (EvPost url data) <= 0) by (intros; cbn; lia).
  destruct (costs_extract_data sleep_seconds silent_sleep_seconds 0
              Hzero Hzero' d t v k destination_path s)
    as (evs' & E' & Hsleeps).
  rewrite E in E'. apply app_inv_head in E'. subst evs'.
  exists evs. rewrite request_count_sum in Hrequests. cbn in *.
  repeat split; [exact E | lia | lia].
Qed.

Section ExhaustionInGeneral.
Context {A : Type} (func : M A).
Variable Inv : State -> Prop.
Hypothesis Inv_add_log : forall s evs, Inv s -> Inv (add_log evs s).
Hypothesis func_fails :
  forall s, Inv s -> exists e s', func s = (Raise e, s') /\ Inv s'.
Hypothesis func_never_sleeps : costs_at_most sleep_seconds 0 func.

Lemma wrapper_exhausted retries delay remaining attempt err s :
  Inv s ->
  fst (wrapper retries delay func remaining attempt err s) = Exit exit_text /\
  exists evs,
    log (snd (wrapper retries delay func remaining attempt err s)) = log s ++ evs /\
    list_sum (map sleep_seconds evs) = remaining * delay.
Proof.
  revert attempt err s.
  induction remaining as [| remaining IH]; intros attempt err s Hs.
  - rewrite wrapper_O. split; [reflexivity |].
    eexists. split; [reflexivity | reflexivity].
  - destruct (func_fails s Hs) as (e & s1 & Hf & Hs1).
    rewrite (wrapper_Raise _ _ _ _ _ _ _ _ _ Hf).
    destruct (func_never_sleeps s) as (evs & E & Hn).
    rewrite Hf in E. cbn [snd] in E.
    destruct (IH (S attempt) (Some e) _
                 (Inv_add_log s1 [EvPrint (retrying_text e (S attempt) retries);
                                  EvSleep delay] Hs1))
      as (Hexit & evs' & E' & Hsum).
    split; [exact Hexit |].
    exists (evs ++ [EvPrint (retrying_text e (S attempt) retries); EvSleep delay]
                ++ evs').
    split.
    + rewrite E'. cbn [log add_log with_log]. rewrite E.
      now rewrite <- !app_assoc.
    + rewrite !map_app, !list_sum_app, Hsum. cbn. lia.
Qed.

(** X18. For any number of retries and any delay, a step that fails
    whenever it is attempted and does not sleep itself ends the run with
    [SystemExit] after having slept exactly [delay] seconds per retry;
    with [retries = 0] the run ends at once. *)
Theorem retries_exhausted_in_general (retries delay : nat) (s : State) :
  Inv s ->
  fst (retry_on_exception retries delay func s) = Exit exit_text /\
  exists evs,
    log (snd (retry_on_exception retries delay func s)) = log s ++ evs /\
    list_sum (map sleep_seconds evs) = retries * delay.
Proof. apply wrapper_exhausted. Qed.
End ExhaustionInGeneral.

Lemma retries_exhausted_in_general_witness :
  fst (retry_on_exception 4 7 get_districts_func (Canned.start [] []))
  = Exit exit_text /\
  exists evs,
    log (snd (retry_on_exception 4 7 get_districts_func (Canned.start [] [])))
    = log (Canned.start [] []) ++ evs /\
    list_sum (map sleep_seconds evs) = 4 * 7.
Proof.
  apply (retries_exhausted_in_general get_districts_func (fun s => net s = [])).
  - intros s evs H; exact H.
  - intros s H.
    unfold get_districts_func, postback, session_post, take_reply, bind, get_self.
    rewrite H. eexists; eexists; split; [reflexivity | exact H].
  - destruct (costs_step_funcs sleep_seconds silent_sleep_seconds 0) as (H & _).
    + intros url data. cbn. lia.
    + exact H.
  - reflexivity.
Defined.

(** ** Single steps: what they keep and how they fail *)

Lemma postback_Ret_inv (data : dict pystr) s page s' :
  postback data s = (Ret page, s') ->
  exists c rest,
    net s = Response c page :: rest /\ answers c page = true /\
    s' = posted data page rest s.
Proof.
  unfold postback, session_post, take_reply, bind, raise_for_status.
  destruct (net s) as [| [detail | c p] rest] eqn:Hnet; cbn [fst snd];
    try discriminate.
  destruct ((400 <=? c)%Z && (c <? 600)%Z) eqn:Hc; cbn; [discriminate |].
  destruct (truthy (xpath_input_value "__VIEWSTATE" (inputs p))) eqn:H1;
    cbn; [| discriminate].
  destruct (truthy (xpath_input_value "__EVENTVALIDATION" (inputs p))) eqn:H2;
    cbn; [| discriminate].
  intros [= <- <-]. exists c, rest. split; [reflexivity |]. split.
  - unfold answers, status_ok, tokens_ok. now rewrite Hc, H1, H2.
  - reflexivity.
Qed.

Lemma step_func_Ret_inv (st : CascadeStep) s s' :
  step_func st s = (Ret tt, s') ->
  exists page, postback (step_data st (obj s)) s = (Ret page, s').
Proof.
  intro H.
  assert (Hs : snd (postback (step_data st (obj s)) s) = s')
    by (rewrite <- step_func_state, H; reflexivity).
  destruct (postback (step_data st (obj s)) s) as [[page | e | msg] s1] eqn:Hp;
    cbn [snd] in Hs; subst s1.
  - now exists page.
  - exfalso.
    destruct st; cbn [step_func step_data] in *;
      unfold get_districts_func, get_sub_districts_func, get_villeges_func,
        get_years_func, get_khasras_func, get_nakals_func, select_nakals_func,
        bind, get_self in H;
      cbv beta iota in H; rewrite Hp in H; discriminate.
  - exfalso.
    destruct st; cbn [step_func step_data] in *;
      unfold get_districts_func, get_sub_districts_func, get_villeges_func,
        get_years_func, get_khasras_func, get_nakals_func, select_nakals_func,
        bind, get_self in H;
      cbv beta iota in H; rewrite Hp in H; discriminate.
Qed.

(** X19. After any step that returns, the held [viewstate] and
    [event_validation] are non-empty strings: the page step also leaves
    a non-empty [viewstate_generator], and a POST step stores the two
    fields of the reply it consumed and leaves [event_arg] and
    [viewstate_generator] as they were. *)
Theorem successful_step_leaves_usable_tokens (s s' : State) :
  (get_jamabandi_page_func s = (Ret tt, s') ->
   truthy (viewstate (obj s')) = true /\
   truthy (event_validation (obj s')) = true /\
   truthy (viewstate_generator (obj s')) = true) /\
  (forall st,
      step_func st s = (Ret tt, s') ->
      truthy (viewstate (obj s')) = true /\
      truthy (event_validation (obj s')) = true /\
      exists c page rest,
        net s = Response c page :: rest /\ net s' = rest /\
        obj s' = refreshed page (obj s)).
Proof.
  split.
  - unfold get_jamabandi_page_func, session_get, take_reply, bind, raise_for_status.
    destruct (net s) as [| [detail | c p] rest]; cbn [fst snd]; try discriminate.
    destruct ((400 <=? c)%Z && (c <? 600)%Z); cbn; [discriminate |].
    destruct (truthy (xpath_input_value "__VIEWSTATE" (inputs p))) eqn:H1;
      cbn; [| discriminate].
    destruct (truthy (xpath_input_value "__VIEWSTATEGENERATOR" (inputs p))) eqn:H2;
      cbn; [| discriminate].
    destruct (truthy (xpath_input_value "__EVENTVALIDATION" (inputs p))) eqn:H3;
      cbn; [| discriminate].
    intros [= <-]. cbn. auto.
  - intros st H.
    apply step_func_Ret_inv in H as (page & H).
    apply postback_Ret_inv in H as (c & rest & Hnet & Ha & ->).
    unfold answers, tokens_ok in Ha.
    apply andb_true_iff in Ha as [_ Ha]. apply andb_true_iff in Ha as [H1 H2].
    cbn. repeat split; try assumption. now exists c, page, rest.
Qed.

Lemma successful_step_witness :
  truthy (viewstate (obj Canned.at_districts)) = true /\
  truthy (event_validation (obj Canned.at_districts)) = true /\
  exists c page rest,
    net (add_log [EvPrint "Getting districts."] Canned.at_page)
    = Response c page :: rest /\
    net Canned.at_districts = rest /\
    obj Canned.at_districts
    = refreshed page (obj (add_log [EvPrint "Getting districts."] Canned.at_page)).
Proof.
  apply (proj2 (successful_step_leaves_usable_tokens
                  (add_log [EvPrint "Getting districts."] Canned.at_page)
                  Canned.at_districts) ListDistricts).
  vm_compute. reflexivity.
Defined.

(** X20. When the request gets no usable answer (no reply, a connection
    error, or a 4xx/5xx status), every POST step raises a
    [RequestException]; the request has been sent and the reply, if any,
    consumed, and the four held values are untouched. *)
Theorem transport_failure_keeps_tokens (st : CascadeStep) (s : State) :
  transport_fails (net s) = true ->
  exists detail,
    step_func st s
    = (Raise (RequestException detail),
       {| obj := obj s; net := tl (net s);
          log := log s ++ [EvPost jamabandi_uri (step_data st (obj s))];
          db := db s |}).
Proof.
  intro Hfail.
  assert (Hp : exists detail,
             postback (step_data st (obj s)) s
             = (Raise (RequestException detail),
                {| obj := obj s; net := tl (net s);
                   log := log s ++ [EvPost jamabandi_uri (step_data st (obj s))];
                   db := db s |})).
  { unfold postback, session_post, take_reply, bind, raise_for_status.
    destruct (net s) as [| [detail | c p] rest] eqn:Hnet; cbn [fst snd tl].
    - eexists. unfold add_log, with_log. now rewrite Hnet.
    - eexists. reflexivity.
    - cbn in Hfail. unfold status_ok in Hfail.
      rewrite negb_involutive in Hfail. rewrite Hfail. cbn.
      eexists. reflexivity. }
  destruct Hp as (detail & Hp). exists detail.
  destruct st; cbn [step_func step_data] in *;
    unfold get_districts_func, get_sub_districts_func, get_villeges_func,
      get_years_func, get_khasras_func, get_nakals_func, select_nakals_func,
      bind, get_self;
    cbv beta iota; rewrite Hp; reflexivity.
Qed.

Lemma transport_failure_witness :
  exists detail,
    step_func (ListSubDistricts (Some "01"))
      (with_net [Response 503 Canned.page_sub_districts] Canned.at_districts)
    = (Raise (RequestException detail),
       {| obj := obj Canned.at_districts; net := [];
          log := log Canned.at_districts
                 ++ [EvPost jamabandi_uri
                       (get_sub_districts_data (obj Canned.at_districts) (Some "01"))];
          db := db Canned.at_districts |}).
Proof.
  apply (transport_failure_keeps_tokens
           (ListSubDistricts (Some "01"))
           (with_net [Response 503 Canned.page_sub_districts] Canned.at_districts)).
  reflexivity.
Defined.

(** X21. A listing step whose reply is accepted but holds nothing to
    list raises [FormFieldNotFoundException] naming what is missing,
    and by then it has stored the refreshed hidden fields: the next
    attempt is made with the new values. *)
Theorem empty_listing_raises_after_refresh
        (st : CascadeStep) (s : State) (c : Z) (page : Html) (rest : list Reply) :
  net s = Response c page :: rest ->
  answers c page = true ->
  extraction_empty st page = true ->
  step_func st s
  = (Raise (FormFieldNotFoundException (missing_fields_of st)),
     posted (step_data st (obj s)) page rest s).
Proof.
  intros Hnet Ha Hempty.
  destruct st; cbn [step_func step_data extraction_empty missing_fields_of] in *;
    try discriminate;
    unfold get_districts_func, get_sub_districts_func, get_villeges_func,
      get_years_func, get_khasras_func, get_nakals_func;
    unfold bind at 1; unfold bind at 1; unfold get_self; cbv beta iota;
    rewrite (bind_Ret _ _ _ _ _ (posted_ok _ _ _ _ _ Hnet Ha)).
  1-5: match goal with
       | |- context [match ?x with [] => _ | _ => _ end] =>
           destruct x; [reflexivity | discriminate]
       end.
  destruct (xpath_grid_rows page); [reflexivity | discriminate].
Qed.

Lemma empty_listing_witness :
  step_func (ListNakals (Some "01") (Some "001") (Some "0284") (Some "2022-2023")
                        (Some "6"))
    (with_net [Response 200 Canned.page_no_nakals] Canned.at_khasras)
  = (Raise (FormFieldNotFoundException ["nakals"; "nakal_detail"]),
     posted (get_nakals_data (obj Canned.at_khasras) (Some "01") (Some "001")
               (Some "0284") (Some "2022-2023") (Some "6"))
            Canned.page_no_nakals []
            (with_net [Response 200 Canned.page_no_nakals] Canned.at_khasras)).
Proof.
  apply (empty_listing_raises_after_refresh
           (ListNakals (Some "01") (Some "001") (Some "0284") (Some "2022-2023")
                       (Some "6"))
           (with_net [Response 200 Canned.page_no_nakals] Canned.at_khasras)
           200 Canned.page_no_nakals []);
    reflexivity.
Defined.

Lemma nakal_rows_loop_without_link rows nakals nakal_detail s :
  forallb has_link rows = false ->
  nakal_rows_loop rows nakals nakal_detail s
  = (Raise (AttributeError "'NoneType' object has no attribute 'split'"), s).
Proof.
  revert nakals nakal_detail.
  induction rows as [| row rest IH]; intros nakals nakal_detail Hl; [discriminate |].
  cbn [forallb] in Hl. cbn [nakal_rows_loop]. unfold has_link in Hl at 1.
  destruct (row_href row) as [href |]; [| reflexivity].
  cbn in Hl. now apply IH.
Qed.

(** X22. One row of the table of candidates without a link is enough to
    make the nakals step fail with [AttributeError], whatever the other
    rows hold and wherever the row stands; as for an empty table, the
    refreshed hidden fields have been stored by then. *)
Theorem row_without_link_breaks_the_listing
        (d t v y k : pystr) (s : State) (c : Z) (page : Html) (rest : list Reply) :
  net s = Response c page :: rest ->
  answers c page = true ->
  forallb has_link (xpath_grid_rows page) = false ->
  get_nakals_func d t v y k s
  = (Raise (AttributeError "'NoneType' object has no attribute 'split'"),
     posted (get_nakals_data (obj s) d t v y k) page rest s).
Proof.
  intros Hnet Ha Hl.
  unfold get_nakals_func.
  unfold bind at 1, get_self; cbv beta iota.
  rewrite (bind_Ret _ _ _ _ _ (posted_ok _ _ _ _ _ Hnet Ha)).
  now rewrite (bind_Raise _ _ _ _ _ (nakal_rows_loop_without_link _ _ _ _ Hl)).
Qed.

Lemma row_without_link_witness :
  let page :=
    Canned.form "vs6" "ev6" []
      (Canned.grid [ {| row_href := Canned.link "0"; row_td2 := Some "3";
                        row_td3 := Some "9" |};
                     {| row_href := None; row_td2 := Some "4";
                        row_td3 := Some "10" |} ]) in
  let s := with_net [Response 200 page] Canned.at_khasras in
  get_nakals_func (Some "01") (Some "001") (Some "0284") (Some "2022-2023")
                  (Some "6") s
  = (Raise (AttributeError "'NoneType' object has no attribute 'split'"),
     posted (get_nakals_data (obj s) (Some "01") (Some "001") (Some "0284")
               (Some "2022-2023") (Some "6")) page [] s).
Proof.
  cbv zeta.
  apply (row_without_link_breaks_the_listing
           (Some "01") (Some "001") (Some "0284") (Some "2022-2023") (Some "6")
           _ 200);
    reflexivity.
Defined.

(** X23. Fetching the document never touches the held hidden fields or
    the table, sends exactly one GET, and writes the file only when the
    document has been fetched and a path was given; what it writes is
    the text it returns. *)
Theorem get_nakal_html_func_effects
        (destination_path : option (list string)) (s : State) :
  let r := get_nakal_html_func destination_path s in
  obj (snd r) = obj s /\ db (snd r) = db s /\ net (snd r) = tl (net s) /\
  exists evs,
    log (snd r) = log s ++ EvGet nakal_khewat_uri :: evs /\
    (evs = [] /\ (destination_path = None \/ forall page, fst r <> Ret page)
     \/ exists path page,
         destination_path = Some path /\ fst r = Ret page /\
         evs = [EvWriteText path page]).
Proof.
  cbv zeta.
  unfold get_nakal_html_func, session_get, take_reply, bind, raise_for_status.
  destruct (net s) as [| [detail | c page] rest] eqn:Hnet; cbn [fst snd tl].
  - cbn. rewrite Hnet. repeat split.
    exists []. split; [reflexivity |]. left. split; [reflexivity |].
    right. discriminate.
  - cbn. repeat split.
    exists []. split; [reflexivity |]. left. split; [reflexivity |].
    right. discriminate.
  - destruct ((400 <=? c)%Z && (c <? 600)%Z); cbn.
    + repeat split.
      exists []. split; [reflexivity |]. left. split; [reflexivity |].
      right. discriminate.
    + destruct destination_path as [path |]; cbn.
      * repeat split.
        exists [EvWriteText path page].
        rewrite <- app_assoc. split; [reflexivity |].
        right. now exists path, page.
      * repeat split.
        exists []. split; [reflexivity |]. left. auto.
Qed.

(** ** Option sets, candidate ids and file names *)

Lemma options_dict_snoc (opts : list OptionElt) (o : OptionElt) :
  options_dict (opts ++ [o])
  = dict_set (opt_text o) (opt_value o) (options_dict opts).
Proof.
  unfold options_dict, dict_of_pairs. now rewrite map_app, fold_left_app.
Qed.

(** X24. In the dictionary built from a list of options, a name maps to
    the code of the last option carrying that text, and a name is
    missing exactly when no option carries it: when the page lists a
    name twice, the later entry is the one used. *)
Theorem later_option_wins (name : pystr) (opts : list OptionElt) :
  dict_get name (options_dict opts)
  = option_map opt_value (find (fun o => pystr_eqb name (opt_text o)) (rev opts)) /\
  (dict_get name (options_dict opts) = None <->
   forall o, In o opts -> opt_text o <> name).
Proof.
  assert (Hget : dict_get name (options_dict opts)
                 = option_map opt_value
                     (find (fun o => pystr_eqb name (opt_text o)) (rev opts))).
  { induction opts as [| o opts IH] using rev_ind; [reflexivity |].
    rewrite options_dict_snoc, dict_get_set, rev_app_distr. cbn [rev app find].
    destruct (pystr_eqb name (opt_text o)); [reflexivity | exact IH]. }
  split; [exact Hget |].
  rewrite Hget. split.
  - intros Hnone o Hin E.
    destruct (find (fun o => pystr_eqb name (opt_text o)) (rev opts)) eqn:Hf;
      [discriminate |].
    apply in_rev in Hin. apply (find_none _ _ Hf o) in Hin.
    cbv beta in Hin. rewrite E, pystr_eqb_refl in Hin. discriminate.
  - intro Hall.
    destruct (find (fun o => pystr_eqb name (opt_text o)) (rev opts)) as [o |] eqn:Hf;
      [| reflexivity].
    exfalso. apply find_some in Hf as [Hin Heq].
    apply pystr_eqb_eq in Heq. apply (Hall o); [now apply in_rev | now symmetry].
Qed.

Lemma all_chars_app (p : ascii -> bool) (a b : string) :
  all_chars p (a +++ b) = all_chars p a && all_chars p b.
Proof.
  induction a as [| c a IH]; cbn; [reflexivity |].
  now rewrite IH, andb_assoc.
Qed.

Lemma split_last_from_none (sep : ascii) (acc tail : string) :
  all_chars (is_not sep) tail = true -> split_last_from sep acc tail = acc.
Proof.
  revert acc. induction tail as [| c tail IH]; intros acc H; [reflexivity |].
  cbn in *. apply andb_true_iff in H as [Hc Ht].
  unfold is_not in Hc. apply negb_true_iff in Hc. rewrite Hc. now apply IH.
Qed.

Lemma split_last_after (sep : ascii) (pre tail : string) :
  all_chars (is_not sep) tail = true ->
  split_last sep (pre +++ String sep tail) = tail.
Proof.
  intro H. unfold split_last.
  generalize (pre +++ String sep tail) at 1 as acc.
  induction pre as [| c pre IH]; intro acc; cbn.
  - rewrite Ascii.eqb_refl. now apply split_last_from_none.
  - destruct (Ascii.eqb c sep); apply IH.
Qed.

Lemma replace_closing (n : string) :
  all_chars (is_not "'") n = true -> replace "')" "" (n +++ "')") = n.
Proof.
  unfold replace. induction n as [| c n IH]; intro H; [reflexivity |].
  cbn in H. apply andb_true_iff in H as [Hc Hn].
  unfold is_not in Hc. apply negb_true_iff, Ascii.eqb_neq in Hc.
  cbn [String.append replace_from String.prefix].
  destruct (ascii_dec "'" c) as [E | _]; [congruence |].
  now rewrite (IH Hn).
Qed.

(** X25. From a link whose text ends in a dollar sign, an argument
    without dollar sign or quote, and the closing ['], the id made for
    the selection is "Select$" followed by that argument, whatever
    precedes. *)
Theorem nakal_id_of_postback_link (before argument : string) :
  all_chars (is_not "$") argument = true ->
  all_chars (is_not "'") argument = true ->
  nakal_id_of_href (before +++ "$" +++ argument +++ "')")
  = "Select$" +++ argument.
Proof.
  intros Hd Hq. unfold nakal_id_of_href.
  change (before +++ "$" +++ argument +++ "')")
    with (before +++ String "$" (argument +++ "')")).
  rewrite split_last_after.
  - now rewrite replace_closing.
  - rewrite all_chars_app, Hd. reflexivity.
Qed.

Lemma nakal_id_of_postback_link_witness :
  nakal_id_of_href
    ("javascript:__doPostBack('ctl00$ContentPlaceHolder1$GridView1','Select"
     +++ "$" +++ "12" +++ "')")
  = "Select$" +++ "12".
Proof.
  apply (nakal_id_of_postback_link
           "javascript:__doPostBack('ctl00$ContentPlaceHolder1$GridView1','Select"
           "12");
    reflexivity.
Defined.

Lemma replace_from_slash_cons (c : ascii) (k : string) :
  replace_from "/" "-" 0 (String c k)
  = String (if Ascii.eqb c "/" then "-"%char else c) (replace_from "/" "-" 0 k).
Proof.
  cbn [replace_from String.prefix].
  destruct (ascii_dec "/" c) as [<- | N].
  - destruct k; reflexivity.
  - assert (E : Ascii.eqb c "/" = false) by (apply Ascii.eqb_neq; congruence).
    now rewrite E.
Qed.

Lemma replace_slash (k : string) :
  all_chars (is_not "/") (replace "/" "-" k) = true /\
  String.length (replace "/" "-" k) = String.length k /\
  (all_chars (is_not "/") k = true -> replace "/" "-" k = k).
Proof.
  unfold replace. induction k as [| c k (IH1 & IH2 & IH3)]; [auto |].
  rewrite replace_from_slash_cons.
  cbn [all_chars String.length]. rewrite IH1, IH2. unfold is_not at 1 3.
  destruct (Ascii.eqb c "/") eqn:E; cbn; repeat split; try discriminate.
  - unfold is_not. rewrite E. discriminate.
  - now rewrite E.
  - intro H. apply andb_true_iff in H as [_ H]. now rewrite IH3.
Qed.

(** X26. In the path of the saved document, the part that comes from
    the khasra number holds no slash and is as long as the khasra
    number; it is the khasra number itself when that holds no slash.
    The three names go into the file name as they are. *)
Theorem html_path_of_khasra_part (d t v k : string) :
  exists khasra_part,
    html_path_of d t v k
    = [ "nakal_html_data";
        d +++ "_" +++ t +++ "_" +++ v +++ "_" +++ khasra_part +++ ".html" ] /\
    all_chars (is_not "/") khasra_part = true /\
    String.length khasra_part = String.length k /\
    (all_chars (is_not "/") k = true -> khasra_part = k).
Proof.
  exists (replace "/" "-" k). split; [reflexivity | apply replace_slash].
Qed.

(** * Runs that return the output dictionary *)

(** ** What a decorated step has put on the trace when it returns *)

Lemma quiet_requests (Q : Event -> bool) (evs : list Event) :
  forallb (fun ev => negb (is_request ev)) evs = true ->
  existsb is_request evs = false /\
  forallb (fun ev => implb (is_request ev) (Q ev)) evs = true.
Proof.
  induction evs as [| ev evs IH]; simpl; [auto |].
  intro H. apply andb_true_iff in H as [Hev Hevs].
  apply negb_true_iff in Hev. rewrite Hev. simpl. now apply IH.
Qed.

Lemma requests_all_first (Q : Event -> bool) (ev : Event) (evs : list Event) :
  is_request ev = true -> Q ev = true ->
  forallb (fun e => implb (is_request e) (Q e)) evs = true ->
  requests_all Q (ev :: evs) = true.
Proof.
  intros Hr HQ Hevs. unfold requests_all. simpl.
  now rewrite Hr, HQ, Hevs.
Qed.

Lemma requests_all_after_quiet (Q : Event -> bool) (pre evs : list Event) :
  forallb (fun ev => negb (is_request ev)) pre = true ->
  requests_all Q evs = true ->
  requests_all Q (pre ++ evs) = true.
Proof.
  intros Hpre H. destruct (quiet_requests Q pre Hpre) as [_ Hq].
  unfold requests_all in *. apply andb_true_iff in H as [He Hf].
  rewrite existsb_app, forallb_app, He, Hf, Hq. now rewrite orb_true_r.
Qed.

(** A function that always sends one request, which satisfies [Q], and
    no other: when the decorated function returns, it has sent at least
    one request and only requests that satisfy [Q]. *)
Lemma wrapper_requests {A} (Q : Event -> bool) retries delay (func : M A) :
  (forall s, exists ev tail,
      log (snd (func s)) = log s ++ ev :: tail /\
      is_request ev = true /\ Q ev = true /\
      forallb (fun e => negb (is_request e)) tail = true) ->
  forall remaining attempt err s a s',
    wrapper retries delay func remaining attempt err s = (Ret a, s') ->
    exists evs, log s' = log s ++ evs /\ requests_all Q evs = true.
Proof.
  intros Hf remaining.
  induction remaining as [| remaining IH]; intros attempt err s a s'.
  - rewrite wrapper_O. discriminate.
  - destruct (Hf s) as (ev & tail & Hlog & Hr & HQ & Htail).
    destruct (quiet_requests Q tail Htail) as [_ Htail'].
    destruct (func s) as [[a0 | e | msg] s1] eqn:Hfs; cbn [snd] in Hlog.
    + rewrite (wrapper_Ret _ _ _ _ _ _ _ _ _ Hfs). intros [= <- <-].
      exists (ev :: tail). split; [exact Hlog |].
      now apply requests_all_first.
    + rewrite (wrapper_Raise _ _ _ _ _ _ _ _ _ Hfs). intro H.
      apply IH in H as (evs & Hlog' & Hall).
      exists (ev :: tail
              ++ [EvPrint (retrying_text e (S attempt) retries); EvSleep delay]
              ++ evs).
      split.
      * rewrite Hlog'. cbn [log add_log with_log]. rewrite Hlog.
        now rewrite <- !app_assoc.
      * apply requests_all_first; [assumption .. |].
        unfold requests_all in Hall. apply andb_true_iff in Hall as [_ Hall].
        rewrite !forallb_app, Htail', Hall. reflexivity.
    + rewrite (wrapper_Exit _ _ _ _ _ _ _ _ _ Hfs). discriminate.
Qed.

Lemma posts_with_holds (l : list (pystr * pystr)) (data : dict pystr) :
  holds_all l data -> posts_with l (EvPost jamabandi_uri data) = true.
Proof.
  intro H. unfold posts_with. rewrite String.eqb_refl. cbn [andb].
  apply forallb_forall. intros kv Hin.
  unfold holds_all in H. rewrite Forall_forall in H.
  rewrite (H kv Hin). apply pystr_eqb_refl.
Qed.

(** The decorated POST steps. *)
Lemma decorated_step_requests {A} (func : M A) (st : CascadeStep)
      (l : list (pystr * pystr)) :
  (forall s, snd (func s) = snd (step_func st s)) ->
  (forall self, holds_all l (step_data st self)) ->
  forall s a s',
    retry_on_exception 3 5 func s = (Ret a, s') ->
    exists evs, log s' = log s ++ evs /\ requests_all (posts_with l) evs = true.
Proof.
  intros Hfunc Hl s a s'. unfold retry_on_exception.
  apply wrapper_requests. clear s a s'. intro s.
  rewrite Hfunc, step_func_state.
  destruct (postback_trace (step_data st (obj s)) s) as (tail & Hlog & Htail).
  exists (EvPost jamabandi_uri (step_data st (obj s))), tail.
  split; [exact Hlog |]. split; [reflexivity |].
  split; [apply posts_with_holds, Hl | exact Htail].
Qed.

Lemma func_of_step {A} (func : M A) s :
  snd (func s) = snd ((func ;; ret tt) s).
Proof. symmetry. apply bind_snd_pure. reflexivity. Qed.

Lemma get_jamabandi_page_requests s s' :
  get_jamabandi_page s = (Ret tt, s') ->
  exists evs, log s' = log s ++ evs /\ requests_all (gets jamabandi_uri) evs = true.
Proof.
  unfold get_jamabandi_page, retry_on_exception.
  apply wrapper_requests. clear s s'. intro s.
  exists (EvGet jamabandi_uri).
  unfold get_jamabandi_page_func, session_get, take_reply, bind, raise_for_status.
  destruct (net s) as [| [detail | c page] rest]; cbn [fst snd].
  - exists []. repeat split.
  - exists []. repeat split.
  - destruct ((400 <=? c)%Z && (c <? 600)%Z); cbn.
    + exists []. repeat split.
    + destruct (negb (truthy (xpath_input_value "__VIEWSTATE" (inputs page)))
                || negb (truthy (xpath_input_value "__VIEWSTATEGENERATOR" (inputs page)))
                || negb (truthy (xpath_input_value "__EVENTVALIDATION" (inputs page))));
        cbn.
      * exists [EvPrint failed_fields_text]. rewrite <- app_assoc. repeat split.
      * exists []. repeat split.
Qed.

Lemma get_nakal_html_requests destination_path s page s' :
  get_nakal_html destination_path s = (Ret page, s') ->
  exists evs, log s' = log s ++ evs /\ requests_all (gets nakal_khewat_uri) evs = true.
Proof.
  unfold get_nakal_html, retry_on_exception.
  apply wrapper_requests. clear s page s'. intro s.
  exists (EvGet nakal_khewat_uri).
  unfold get_nakal_html_func, session_get, take_reply, bind, raise_for_status.
  destruct (net s) as [| [detail | c page] rest]; cbn [fst snd].
  - exists []. repeat split.
  - exists []. repeat split.
  - destruct ((400 <=? c)%Z && (c <? 600)%Z); cbn.
    + exists []. repeat split.
    + destruct destination_path as [path |]; cbn.
      * exists [EvWriteText path page]. rewrite <- app_assoc. repeat split.
      * exists []. repeat split.
Qed.

(** ** The reply behind the candidates *)

Lemma postback_net (data : dict pystr) s :
  exists used, net s = used ++ net (snd (postback data s)).
Proof.
  unfold postback, session_post, take_reply, bind, raise_for_status.
  destruct (net s) as [| [detail | c page] rest] eqn:Hnet; cbn [fst snd].
  - exists []. cbn. now rewrite Hnet.
  - now exists [ConnectionError detail].
  - exists [Response c page].
    destruct ((400 <=? c)%Z && (c <? 600)%Z); cbn; [reflexivity |].
    destruct (negb (truthy (xpath_input_value "__VIEWSTATE" (inputs page)))
              || negb (truthy (xpath_input_value "__EVENTVALIDATION" (inputs page))));
      reflexivity.
Qed.

(** The attempt that returned started after the replies [used] had been
    spent on the attempts that failed. *)
Lemma wrapper_Ret_inv_net {A} retries delay (func : M A) :
  (forall s, exists used, net s = used ++ net (snd (func s))) ->
  forall remaining attempt err s a s',
    wrapper retries delay func remaining attempt err s = (Ret a, s') ->
    exists used s1, net s = used ++ net s1 /\ func s1 = (Ret a, s').
Proof.
  intros Hf remaining.
  induction remaining as [| remaining IH]; intros attempt err s a s'.
  - rewrite wrapper_O. discriminate.
  - destruct (Hf s) as (used & Hnet).
    destruct (func s) as [[a0 | e | msg] s1] eqn:Hfs; cbn [snd] in Hnet.
    + rewrite (wrapper_Ret _ _ _ _ _ _ _ _ _ Hfs). intros [= <- <-].
      exists [], s. split; [reflexivity | exact Hfs].
    + rewrite (wrapper_Raise _ _ _ _ _ _ _ _ _ Hfs). intro H.
      apply IH in H as (used' & s2 & Hnet' & H).
      exists (used ++ used'), s2. split; [| exact H].
      cbn [net add_log with_log] in Hnet'.
      now rewrite Hnet, Hnet', app_assoc.
    + rewrite (wrapper_Exit _ _ _ _ _ _ _ _ _ Hfs). discriminate.
Qed.

(** When the nakals step returns, the attempt that succeeded has read a
    page whose table has at least one row and a link in every row; the
    ids are made from the rows in table order and the detail comes from
    the last row. *)
Lemma get_nakals_Ret_inv d t v y k s r s' :
  get_nakals d t v y k s = (Ret r, s') ->
  exists used c page first rows,
    net s = used ++ Response c page :: net s' /\
    answers c page = true /\
    xpath_grid_rows page = first :: rows /\
    forallb has_link (first :: rows) = true /\
    r = (map nakal_id_of_row (first :: rows),
         detail_of_row (last (first :: rows) first)).
Proof.
  unfold get_nakals, retry_on_exception. intro H.
  apply wrapper_Ret_inv_net in H as (used & s1 & Hnet & H).
  2: { intro s2.
       rewrite (func_of_step (get_nakals_func d t v y k) s2).
       change (get_nakals_func d t v y k ;; ret tt)
         with (step_func (ListNakals d t v y k)).
       rewrite step_func_state. apply postback_net. }
  unfold get_nakals_func in H.
  apply bind_Ret_inv in H as (self & s2 & Hself & H).
  cbv [get_self] in Hself. injection Hself as <- <-.
  apply bind_Ret_inv in H as (page & s3 & Hpost & H).
  apply postback_Ret_inv in Hpost as (c & rest & Hnet1 & Hans & ->).
  apply bind_Ret_inv in H as (r' & s4 & Hloop & H).
  destruct (forallb has_link (xpath_grid_rows page)) eqn:Hlinks.
  - rewrite (nakal_rows_loop_ok _ _ _ _ Hlinks) in Hloop.
    injection Hloop as <- <-. cbn [fst app] in H.
    destruct (xpath_grid_rows page) as [| first rows] eqn:Hrows;
      [discriminate |].
    cbn [map] in H. injection H as <- <-.
    exists used, c, page, first, rows.
    split; [now rewrite Hnet, Hnet1 |].
    split; [exact Hans |]. split; [exact Hrows |]. split; [exact Hlinks |].
    cbn [map]. f_equal.
    exact (fold_detail_last rows first
             {| nd_khewat_no := Some ""; nd_khatoni_no := Some "" |}).
  - rewrite (nakal_rows_loop_without_link _ _ _ _ Hlinks) in Hloop. discriminate.
Qed.

(** ** Every step of a run that returns the output dictionary *)

Lemma extract_data_Resolved_inv d t v k destination_path s0 output s' :
  extract_data d t v k destination_path s0 = (Ret (Resolved output), s') ->
  exists district_id sub_district_id villege_id khasra_id year later_years
         districts sub_districts villeges khasras nakals_0 more nakal_detail page
         s1 s2 s3 s4 s5 s6 s7 s8,
    get_jamabandi_page
      (add_log [EvPrint "Fetching jamabandi page."] (with_obj new_extractor s0))
    = (Ret tt, s1) /\
    get_districts (add_log [EvPrint "Getting districts."] s1) = (Ret districts, s2) /\
    dict_get (Some d) districts = Some district_id /\
    get_sub_districts district_id (add_log [EvPrint "Getting sub-districts."] s2)
    = (Ret sub_districts, s3) /\
    dict_get (Some t) sub_districts = Some sub_district_id /\
    get_villeges district_id sub_district_id (add_log [EvPrint "Getting villeges."] s3)
    = (Ret villeges, s4) /\
    dict_get (Some v) villeges = Some villege_id /\
    get_years district_id sub_district_id villege_id
      (add_log [EvPrint "Getting years."] s4)
    = (Ret (year :: later_years), s5) /\
    get_khasras district_id sub_district_id villege_id (Some year)
      (add_log [EvPrint "Getting khasras."] s5)
    = (Ret khasras, s6) /\
    dict_get (Some k) khasras = Some khasra_id /\
    get_nakals district_id sub_district_id villege_id (Some year) khasra_id
      (add_log [EvPrint "Getting nakals."] s6)
    = (Ret (nakals_0 :: more, nakal_detail), s7) /\
    select_nakals district_id sub_district_id villege_id (Some year) khasra_id
      (Some nakals_0) (add_log [EvPrint "Selecing nakal."] s7)
    = (Ret tt, s8) /\
    get_nakal_html destination_path (add_log [EvPrint "Getting nakal html."] s8)
    = (Ret page, s') /\
    output =
    {| out_district_name := d;
       out_district_code := district_id;
       out_tehsil_name := t;
       out_tehsil_code := sub_district_id;
       out_villege_name := v;
       out_villege_code := villege_id;
       out_jamabandi_year := year;
       out_khewat_no := nd_khewat_no nakal_detail;
       out_khatoni_no := nd_khatoni_no nakal_detail;
       out_khasra_code := khasra_id;
       out_khasra_no := k;
       out_inner_details :=
         {| in_villege := xpath_span_text "lblvill" (spans page);
            in_hadbast_no := xpath_span_text "lblhad" (spans page);
            in_tehsil := xpath_span_text "lblteh" (spans page);
            in_district := xpath_span_text "lbldis" (spans page);
            in_year := xpath_span_text "lblyer" (spans page) |} |}.
Proof.
  unfold extract_data. intro H.
  apply bind_Ret_inv in H as (u & sa & E & H).
  cbv [set_self] in E. injection E as _ <-.
  apply bind_Ret_inv in H as (u' & sb & E & H).
  cbv [print emit] in E. injection E as _ <-.
  apply bind_Ret_inv in H as ([] & s1 & Hpage & H).
  apply bind_Ret_inv in H as (u1 & sc & E & H).
  cbv [print emit] in E. injection E as _ <-.
  apply bind_Ret_inv in H as (districts & s2 & Hdis & H).
  destruct (dict_get (Some d) districts) as [district_id |] eqn:Hd;
    [| discriminate].
  apply bind_Ret_inv in H as (u2 & sd & E & H).
  cbv [print emit] in E. injection E as _ <-.
  apply bind_Ret_inv in H as (sub_districts & s3 & Hsub & H).
  destruct (dict_get (Some t) sub_districts) as [sub_district_id |] eqn:Ht;
    [| discriminate].
  apply bind_Ret_inv in H as (u3 & se & E & H).
  cbv [print emit] in E. injection E as _ <-.
  apply bind_Ret_inv in H as (villeges & s4 & Hvil & H).
  destruct (dict_get (Some v) villeges) as [villege_id |] eqn:Hv;
    [| discriminate].
  apply bind_Ret_inv in H as (u4 & sf & E & H).
  cbv [print emit] in E. injection E as _ <-.
  apply bind_Ret_inv in H as (years & s5 & Hyears & H).
  destruct years as [| year later_years]; [discriminate |].
  apply bind_Ret_inv in H as (u5 & sg & E & H).
  cbv [print emit] in E. injection E as _ <-.
  apply bind_Ret_inv in H as (khasras & s6 & Hkh & H).
  destruct (dict_get (Some k) khasras) as [khasra_id |] eqn:Hk;
    [| discriminate].
  apply bind_Ret_inv in H as (u6 & sh & E & H).
  cbv [print emit] in E. injection E as _ <-.
  apply bind_Ret_inv in H as ([nakals nakal_detail] & s7 & Hnak & H).
  cbn [fst snd] in H.
  destruct nakals as [| nakals_0 more]; [discriminate |].
  apply bind_Ret_inv in H as (u7 & si & E & H).
  cbv [print emit] in E. injection E as _ <-.
  apply bind_Ret_inv in H as ([] & s8 & Hsel & H).
  apply bind_Ret_inv in H as (u8 & sj & E & H).
  cbv [print emit] in E. injection E as _ <-.
  apply bind_Ret_inv in H as (page & s9 & Hhtml & H).
  cbv [ret] in H. injection H as <- <-.
  exists district_id, sub_district_id, villege_id, khasra_id, year, later_years,
    districts, sub_districts, villeges, khasras, nakals_0, more, nakal_detail, page,
    s1, s2, s3, s4, s5, s6, s7, s8.
  repeat (split; [assumption |]). reflexivity.
Qed.

(** ** The requests of such a run, step by step *)

Lemma step_part (Q : Event -> bool) (text : string) (s s1 : State) :
  (exists evs,
      log s1 = log (add_log [EvPrint text] s) ++ evs /\ requests_all Q evs = true) ->
  exists part, log s1 = log s ++ part /\ requests_all Q part = true.
Proof.
  intros (evs & Hlog & Hall). exists ([EvPrint text] ++ evs). split.
  - rewrite Hlog. cbn [log add_log with_log]. now rewrite <- app_assoc.
  - now apply requests_all_after_quiet.
Qed.

Lemma steps_requested_cons (Q : Event -> bool) (later : list (Event -> bool))
      (part rest : list Event) :
  requests_all Q part = true -> steps_requested later rest ->
  steps_requested (Q :: later) (part ++ rest).
Proof. intros HQ Hrest. now exists part, rest. Qed.

Ltac post_part H st l :=
  apply (decorated_step_requests _ st l) in H;
  [ apply step_part in H
  | first [ intro; apply func_of_step | reflexivity ]
  | intro; repeat constructor ].

(** ** What a run requests, however it ends *)

Lemma no_failure (P : Event -> bool) (evs : list Event) :
  list_sum (map (fails P) evs) <= 0 -> forallb P evs = true.
Proof.
  induction evs as [| ev evs IH]; [reflexivity |].
  change (list_sum (map (fails P) (ev :: evs)))
    with (fails P ev + list_sum (map (fails P) evs)).
  cbn [forallb]. unfold fails at 1.
  destruct (P ev); [intro H; now apply IH | intro H; exfalso; lia].
Qed.

Section Exact.
Variable w : Event -> nat.
Hypothesis silent : silent_prints w.

(** What a POST step weighs is what its request weighs. *)
Lemma costs_postback_exact (data : dict pystr) :
  costs_at_most w (w (EvPost jamabandi_uri data)) (postback data).
Proof.
  unfold postback, session_post.
  apply (costs_weaken w (w (EvPost jamabandi_uri data) + 0)); [lia |].
  apply costs_bind; [apply costs_take_reply | intro response].
  apply costs_bind_free; [apply costs_raise_for_status | intros _].
  cbv zeta.
  destruct (negb (truthy (xpath_input_value "__VIEWSTATE" (inputs (snd response))))
            || negb (truthy (xpath_input_value "__EVENTVALIDATION"
                               (inputs (snd response))))).
  - apply costs_bind_free; [now apply costs_print | intros _; apply costs_raise].
  - apply costs_bind_free; [apply costs_silent; reflexivity | intros _].
    apply costs_bind_free; [apply costs_silent; reflexivity | intros _].
    apply costs_ret.
Qed.

Lemma costs_same_state {A B} (m : M A) (m' : M B) (n : nat) :
  (forall s, snd (m s) = snd (m' s)) ->
  costs_at_most w n m' -> costs_at_most w n m.
Proof. intros Hs Hm' s. rewrite Hs. apply Hm'. Qed.

Lemma costs_step_exact {A} (func : M A) (st : CascadeStep) :
  (forall s, snd (func s) = snd (step_func st s)) ->
  (forall self, w (EvPost jamabandi_uri (step_data st self)) = 0) ->
  costs_at_most w 0 func.
Proof.
  intros Hfunc Hdata s. rewrite Hfunc, step_func_state.
  rewrite <- (Hdata (obj s)). apply costs_postback_exact.
Qed.

Lemma costs_retry_free {A} (func : M A) :
  w (EvSleep 5) = 0 ->
  costs_at_most w 0 func ->
  costs_at_most w 0 (retry_on_exception 3 5 func).
Proof.
  intros Hsleep Hfunc. unfold retry_on_exception.
  apply (costs_weaken w (3 * (0 + w (EvSleep 5)))); [rewrite Hsleep; lia |].
  now apply costs_wrapper.
Qed.
End Exact.

(** The same for a decorated function however it ends, as long as one
    attempt at least is allowed. *)
Lemma wrapper_requests_any {A} (Q : Event -> bool) retries delay (func : M A) :
  (forall s, exists ev tail,
      log (snd (func s)) = log s ++ ev :: tail /\
      is_request ev = true /\ Q ev = true /\
      forallb (fun e => negb (is_request e)) tail = true) ->
  forall remaining attempt err s,
  exists evs,
    log (snd (wrapper retries delay func (S remaining) attempt err s)) = log s ++ evs /\
    requests_all Q evs = true.
Proof.
  intros Hf remaining.
  induction remaining as [| remaining IH]; intros attempt err s;
    destruct (Hf s) as (ev & tail & Hlog & Hr & HQ & Htail);
    destruct (quiet_requests Q tail Htail) as [_ Htail'];
    destruct (func s) as [[a0 | e | msg] s1] eqn:Hfs; cbn [snd] in Hlog.
  - rewrite (wrapper_Ret _ _ _ _ _ _ _ _ _ Hfs).
    exists (ev :: tail). split; [exact Hlog | now apply requests_all_first].
  - rewrite (wrapper_Raise _ _ _ _ _ _ _ _ _ Hfs), wrapper_O.
    exists (ev :: tail
            ++ [EvPrint (retrying_text e (S attempt) retries); EvSleep delay]
            ++ [EvPrintTraceback (Some e);
                EvPrint "All retries failed. Here's the traceback:"]).
    split.
    + cbn [snd log add_log with_log]. rewrite Hlog. now rewrite <- !app_assoc.
    + apply requests_all_first; [assumption .. |].
      rewrite !forallb_app, Htail'. reflexivity.
  - rewrite (wrapper_Exit _ _ _ _ _ _ _ _ _ Hfs).
    exists (ev :: tail). split; [exact Hlog | now apply requests_all_first].
  - rewrite (wrapper_Ret _ _ _ _ _ _ _ _ _ Hfs).
    exists (ev :: tail). split; [exact Hlog | now apply requests_all_first].
  - rewrite (wrapper_Raise _ _ _ _ _ _ _ _ _ Hfs).
    destruct (IH (S attempt) (Some e)
                 (add_log [EvPrint (retrying_text e (S attempt) retries);
                           EvSleep delay] s1))
      as (evs & Hlog' & Hall).
    exists (ev :: tail
            ++ [EvPrint (retrying_text e (S attempt) retries); EvSleep delay]
            ++ evs).
    split.
    + rewrite Hlog'. cbn [log add_log with_log]. rewrite Hlog.
      now rewrite <- !app_assoc.
    + apply requests_all_first; [assumption .. |].
      unfold requests_all in Hall. apply andb_true_iff in Hall as [_ Hall].
      rewrite !forallb_app, Htail', Hall. reflexivity.
  - rewrite (wrapper_Exit _ _ _ _ _ _ _ _ _ Hfs).
    exists (ev :: tail). split; [exact Hlog | now apply requests_all_first].
Qed.

Lemma post_func_trace {A} (func : M A) (st : CascadeStep)
      (l : list (pystr * pystr)) :
  (forall s, snd (func s) = snd (step_func st s)) ->
  (forall self, holds_all l (step_data st self)) ->
  forall s, exists ev tail,
      log (snd (func s)) = log s ++ ev :: tail /\
      is_request ev = true /\ posts_with l ev = true /\
      forallb (fun e => negb (is_request e)) tail = true.
Proof.
  intros Hfunc Hl s. rewrite Hfunc, step_func_state.
  destruct (postback_trace (step_data st (obj s)) s) as (tail & Hlog & Htail).
  exists (EvPost jamabandi_uri (step_data st (obj s))), tail.
  split; [exact Hlog |]. split; [reflexivity |].
  split; [apply posts_with_holds, Hl | exact Htail].
Qed.

Lemma get_nakal_html_func_trace destination_path s :
  exists ev tail,
    log (snd (get_nakal_html_func destination_path s)) = log s ++ ev :: tail /\
    is_request ev = true /\ gets nakal_khewat_uri ev = true /\
    forallb (fun e => negb (is_request e)) tail = true.
Proof.
  exists (EvGet nakal_khewat_uri).
  unfold get_nakal_html_func, session_get, take_reply, bind, raise_for_status.
  destruct (net s) as [| [detail | c page] rest]; cbn [fst snd].
  - exists []. repeat split.
  - exists []. repeat split.
  - destruct ((400 <=? c)%Z && (c <? 600)%Z); cbn.
    + exists []. repeat split.
    + destruct destination_path as [path |]; cbn.
      * exists [EvWriteText path page]. rewrite <- app_assoc. repeat split.
      * exists []. repeat split.
Qed.

(** A request that is a GET is no POST, and what is no request is no
    POST either. *)
Lemma gets_no_post (url : string) (evs : list Event) :
  requests_all (gets url) evs = true ->
  forallb (fun ev => negb (is_post ev)) evs = true.
Proof.
  unfold requests_all. intro H. apply andb_true_iff in H as [_ H].
  rewrite forallb_forall in *. intros ev Hin. specialize (H ev Hin).
  destruct ev; try reflexivity. discriminate.
Qed.

(** ** Every run, from the list of years on *)

(** What a run that returns the output dictionary reports and has
    requested, read against the steps it has gone through. *)
Lemma resolved_run_fields d t v k destination_path s0 output sf
      district_id sub_district_id villege_id year later_years s5 :
  extract_data d t v k destination_path s0 = (Ret (Resolved output), sf) ->
  years_listed d t v s0 district_id sub_district_id villege_id
               (year :: later_years) s5 ->
  out_jamabandi_year output = year /\
  forall khasras s6 khasra_id r s7,
    get_khasras district_id sub_district_id villege_id (Some year)
      (add_log [EvPrint "Getting khasras."] s5) = (Ret khasras, s6) ->
    dict_get (Some k) khasras = Some khasra_id ->
    get_nakals district_id sub_district_id villege_id (Some year) khasra_id
      (add_log [EvPrint "Getting nakals."] s6) = (Ret r, s7) ->
    out_khewat_no output = nd_khewat_no (snd r) /\
    out_khatoni_no output = nd_khatoni_no (snd r) /\
    exists nakal_id more evs,
      fst r = nakal_id :: more /\
      log sf = log s5 ++ evs /\
      steps_requested
        [ posts_with [ event_target "ctl00$ContentPlaceHolder1$ddlPeriod";
                       (k_ddlPeriod, Some year) ];
          posts_with [ event_target "ctl00$ContentPlaceHolder1$ddlkhasra";
                       (k_ddlPeriod, Some year) ];
          posts_with [ event_target "ctl00$ContentPlaceHolder1$GridView1";
                       (k_ddlPeriod, Some year);
                       (Some "__EVENTARGUMENT", Some nakal_id) ];
          gets nakal_khewat_uri ]
        evs.
Proof.
  intros H Hlisted.
  destruct Hlisted as (villeges & s4
                       & (sub_districts & s3
                          & (districts & s2 & (s1 & Hpage & Hdis) & Hd & Hsub)
                          & Ht & Hvil)
                       & Hv & Hyears).
  apply extract_data_Resolved_inv in H
    as (district_id' & sub_district_id' & villege_id' & khasra_id' & year'
        & later_years' & districts' & sub_districts' & villeges' & khasras'
        & nakals_0 & more & nakal_detail & document
        & s1' & s2' & s3' & s4' & s5' & s6' & s7' & s8'
        & Hpage' & Hdis' & Hd' & Hsub' & Ht' & Hvil' & Hv' & Hyears' & Hkh' & Hk'
        & Hnak' & Hsel & Hhtml & ->).
  rewrite Hpage in Hpage'. injection Hpage' as <-.
  rewrite Hdis in Hdis'. injection Hdis' as <- <-.
  rewrite Hd in Hd'. injection Hd' as <-.
  rewrite Hsub in Hsub'. injection Hsub' as <- <-.
  rewrite Ht in Ht'. injection Ht' as <-.
  rewrite Hvil in Hvil'. injection Hvil' as <- <-.
  rewrite Hv in Hv'. injection Hv' as <-.
  rewrite Hyears in Hyears'. injection Hyears' as <- <- <-.
  split; [reflexivity |].
  intros khasras s6 khasra_id r s7 Hkh Hk Hnak.
  rewrite Hkh in Hkh'. injection Hkh' as <- <-.
  rewrite Hk in Hk'. injection Hk' as <-.
  rewrite Hnak in Hnak'. injection Hnak' as -> <-.
  split; [reflexivity |]. split; [reflexivity |].
  unfold get_khasras in Hkh. unfold get_nakals in Hnak. unfold select_nakals in Hsel.
  post_part Hkh (ListKhasras district_id sub_district_id villege_id (Some year))
            [ event_target "ctl00$ContentPlaceHolder1$ddlPeriod";
              (k_ddlPeriod, Some year) ].
  post_part Hnak (ListNakals district_id sub_district_id villege_id (Some year)
                             khasra_id)
            [ event_target "ctl00$ContentPlaceHolder1$ddlkhasra";
              (k_ddlPeriod, Some year) ].
  post_part Hsel (SelectNakal district_id sub_district_id villege_id (Some year)
                              khasra_id (Some nakals_0))
            [ event_target "ctl00$ContentPlaceHolder1$GridView1";
              (k_ddlPeriod, Some year);
              (Some "__EVENTARGUMENT", Some nakals_0) ].
  apply get_nakal_html_requests, step_part in Hhtml.
  destruct Hkh as (p5 & L5 & Q5). destruct Hnak as (p6 & L6 & Q6).
  destruct Hsel as (p7 & L7 & Q7). destruct Hhtml as (p8 & L8 & Q8).
  exists nakals_0, more, (p5 ++ p6 ++ p7 ++ p8 ++ []).
  split; [reflexivity |].
  split; [rewrite L8, L7, L6, L5, app_nil_r; now rewrite <- !app_assoc |].
  apply steps_requested_cons; [exact Q5 |].
  apply steps_requested_cons; [exact Q6 |].
  apply steps_requested_cons; [exact Q7 |].
  apply steps_requested_cons; [exact Q8 | reflexivity].
Qed.

(** C5. In every run of [extract_data], however its steps are answered
    and however it ends: once the years step has returned its list, the
    year is the first entry of that list and every POST the run sends
    from then on carries it.  Once the nakals step has returned, what it
    has returned are the ids made from the rows of the page it has read,
    in table order, with the cells of the last row; the run goes on with
    the selection, which sends one request at least, every one of them
    carrying the id made from the first row, and sends no other POST
    afterwards.  When the run returns the output dictionary, its year is
    that year, its [khewat_no] and [khatoni_no] are the second and third
    cell of the last row, and the requests it has sent since the list of
    years are, in this order, those for the khasras, for the nakals, for
    the selection of the first candidate and for the document. *)
Theorem first_year_first_candidate_last_row_detail
        (d t v k : string) (destination_path : option (list string)) (s0 : State)
        (district_id sub_district_id villege_id : pystr)
        (years : list string) (s5 : State) :
  let run := extract_data d t v k destination_path s0 in
  years_listed d t v s0 district_id sub_district_id villege_id years s5 ->
  exists year later_years evs,
    years = year :: later_years /\
    log (snd run) = log s5 ++ evs /\
    forallb (fun ev => implb (is_post ev)
                             (posts_with [(k_ddlPeriod, Some year)] ev)) evs
    = true /\
    (forall output,
        fst run = Ret (Resolved output) -> out_jamabandi_year output = year) /\
    forall khasras s6 khasra_id r s7,
      get_khasras district_id sub_district_id villege_id (Some year)
        (add_log [EvPrint "Getting khasras."] s5)
      = (Ret khasras, s6) ->
      dict_get (Some k) khasras = Some khasra_id ->
      get_nakals district_id sub_district_id villege_id (Some year) khasra_id
        (add_log [EvPrint "Getting nakals."] s6)
      = (Ret r, s7) ->
      exists first rows used c page selection rest,
        net s6 = used ++ Response c page :: net s7 /\
        xpath_grid_rows page = first :: rows /\
        r = (map nakal_id_of_row (first :: rows),
             detail_of_row (last (first :: rows) first)) /\
        log (snd run) = log s7 ++ selection ++ rest /\
        requests_all
          (posts_with [ event_target "ctl00$ContentPlaceHolder1$GridView1";
                        (Some "__EVENTARGUMENT", Some (nakal_id_of_row first)) ])
          selection
        = true /\
        forallb (fun ev => negb (is_post ev)) rest = true /\
        forall output,
          fst run = Ret (Resolved output) ->
          out_khewat_no output = row_td2 (last (first :: rows) first) /\
          out_khatoni_no output = row_td3 (last (first :: rows) first) /\
          steps_requested
            [ posts_with [ event_target "ctl00$ContentPlaceHolder1$ddlPeriod";
                           (k_ddlPeriod, Some year) ];
              posts_with [ event_target "ctl00$ContentPlaceHolder1$ddlkhasra";
                           (k_ddlPeriod, Some year) ];
              posts_with [ event_target "ctl00$ContentPlaceHolder1$GridView1";
                           (k_ddlPeriod, Some year);
                           (Some "__EVENTARGUMENT", Some (nakal_id_of_row first)) ];
              gets nakal_khewat_uri ]
            evs.
Proof.
  cbv zeta. intro Hlisted.
  assert (Hyears : exists year later_years, years = year :: later_years).
  { destruct Hlisted as (villeges & s4 & _ & _ & Hyears).
    apply get_years_returns_years in Hyears.
    destruct years as [| year later_years]; [contradiction | eauto]. }
  destruct Hyears as (year & later_years & ->).
  exists year, later_years.
  destruct (extract_data d t v k destination_path s0) as [o sf] eqn:Erun.
  cbn [fst snd].
  assert (Hfields := fun output (E : o = Ret (Resolved output)) =>
            resolved_run_fields d t v k destination_path s0 output sf
              district_id sub_district_id villege_id year later_years s5
              (eq_trans Erun (f_equal (fun x => (x, sf)) E)) Hlisted).
  destruct Hlisted as (villeges & s4
                       & (sub_districts & s3
                          & (districts & s2 & (s1 & Hpage & Hdis) & Hd & Hsub)
                          & Ht & Hvil)
                       & Hv & Hyears).
  unfold extract_data in Erun.
  erewrite bind_Ret in Erun by reflexivity.
  erewrite bind_Ret in Erun by reflexivity.
  erewrite bind_Ret in Erun by exact Hpage.
  erewrite bind_Ret in Erun by reflexivity.
  erewrite bind_Ret in Erun by exact Hdis.
  rewrite Hd in Erun.
  erewrite bind_Ret in Erun by reflexivity.
  erewrite bind_Ret in Erun by exact Hsub.
  rewrite Ht in Erun.
  erewrite bind_Ret in Erun by reflexivity.
  erewrite bind_Ret in Erun by exact Hvil.
  rewrite Hv in Erun.
  erewrite bind_Ret in Erun by reflexivity.
  erewrite bind_Ret in Erun by exact Hyears.
  cbv beta iota in Erun.
  (* every POST from here on carries the year *)
  set (P := fun ev => implb (is_post ev) (posts_with [(k_ddlPeriod, Some year)] ev)).
  assert (Hsilent : silent_prints (fails P)) by (repeat split).
  assert (Hget : forall url, fails P (EvGet url) <= 0) by (intro; cbn; lia).
  assert (Hpost : forall {A} (func : M A) (st : CascadeStep),
             (forall s, snd (func s) = snd (step_func st s)) ->
             (forall self, holds_all [(k_ddlPeriod, Some year)] (step_data st self)) ->
             costs_at_most (fails P) 0 (retry_on_exception 3 5 func)).
  { intros A func st Hfunc Hdata.
    apply (costs_retry_free _ Hsilent); [reflexivity |].
    apply (costs_step_exact _ Hsilent func st Hfunc).
    intro self. unfold fails, P. cbn [is_post implb].
    now rewrite (posts_with_holds _ _ (Hdata self)). }
  assert (Htrace : exists evs, log sf = log s5 ++ evs /\ forallb P evs = true).
  { match type of Erun with
    | ?K s5 = _ => assert (HK : costs_at_most (fails P) 0 K)
    end.
    { apply costs_bind_free; [now apply costs_print | intros _].
      apply costs_bind_free.
      { apply (Hpost _ _ (ListKhasras district_id sub_district_id villege_id
                                      (Some year)));
          [intro; apply func_of_step | intro; repeat constructor]. }
      intro khasras.
      destruct (dict_get (Some k) khasras) as [khasra_id |]; [| apply costs_ret].
      apply costs_bind_free; [now apply costs_print | intros _].
      apply costs_bind_free.
      { apply (Hpost _ _ (ListNakals district_id sub_district_id villege_id
                                     (Some year) khasra_id));
          [intro; apply func_of_step | intro; repeat constructor]. }
      intro r. cbv zeta.
      destruct (fst r) as [| nakals_0 more]; [apply costs_ret |].
      apply costs_bind_free; [now apply costs_print | intros _].
      apply costs_bind_free.
      { apply (Hpost _ _ (SelectNakal district_id sub_district_id villege_id
                                      (Some year) khasra_id (Some nakals_0)));
          [reflexivity | intro; repeat constructor]. }
      intros _.
      apply costs_bind_free; [now apply costs_print | intros _].
      apply costs_bind_free; [| intro; apply costs_ret].
      apply (costs_retry_free _ Hsilent); [reflexivity |].
      now apply costs_get_nakal_html_func. }
    destruct (HK s5) as (evs & Hlog & Hsum).
    rewrite Erun in Hlog. cbn [snd] in Hlog.
    exists evs. split; [exact Hlog | now apply no_failure]. }
  destruct Htrace as (evs & Hlog & Hall).
  exists evs. split; [reflexivity |]. split; [exact Hlog |]. split; [exact Hall |].
  split; [intros output E; now apply (Hfields output E) |].
  (* from the list of candidates on *)
  intros khasras s6 khasra_id r s7 Hkh Hk Hnak.
  destruct (get_nakals_Ret_inv _ _ _ _ _ _ _ _ Hnak)
    as (used & c & page & first & rows & Hnet & _ & Hrows & _ & Hr).
  exists first, rows, used, c, page.
  erewrite bind_Ret in Erun by reflexivity.
  erewrite bind_Ret in Erun by exact Hkh.
  rewrite Hk in Erun.
  erewrite bind_Ret in Erun by reflexivity.
  erewrite bind_Ret in Erun by exact Hnak.
  rewrite Hr in Erun. cbn [fst snd map] in Erun.
  erewrite bind_Ret in Erun by reflexivity.
  assert (Hout : forall output,
             o = Ret (Resolved output) ->
             out_khewat_no output = row_td2 (last (first :: rows) first) /\
             out_khatoni_no output = row_td3 (last (first :: rows) first) /\
             steps_requested
               [ posts_with [ event_target "ctl00$ContentPlaceHolder1$ddlPeriod";
                              (k_ddlPeriod, Some year) ];
                 posts_with [ event_target "ctl00$ContentPlaceHolder1$ddlkhasra";
                              (k_ddlPeriod, Some year) ];
                 posts_with [ event_target "ctl00$ContentPlaceHolder1$GridView1";
                              (k_ddlPeriod, Some year);
                              (Some "__EVENTARGUMENT", Some (nakal_id_of_row first)) ];
                 gets nakal_khewat_uri ]
               evs).
  { intros output E.
    destruct (Hfields output E) as [_ H].
    destruct (H khasras s6 khasra_id r s7 Hkh Hk Hnak)
      as (H1 & H2 & nakal_id & more & evs' & Hfst & Hlog' & Hsteps).
    rewrite H1, H2, Hr. split; [reflexivity |]. split; [reflexivity |].
    rewrite Hr in Hfst. cbn [fst map] in Hfst. injection Hfst as <- _.
    rewrite Hlog in Hlog'. apply app_inv_head in Hlog'. now subst evs'. }
  (* the selection, however it ends *)
  set (Q := posts_with
              [ event_target "ctl00$ContentPlaceHolder1$GridView1";
                (Some "__EVENTARGUMENT", Some (nakal_id_of_row first)) ]).
  assert (Hfunc : forall s, exists ev tail,
             log (snd (select_nakals_func district_id sub_district_id villege_id
                         (Some year) khasra_id (Some (nakal_id_of_row first)) s))
             = log s ++ ev :: tail /\
             is_request ev = true /\ Q ev = true /\
             forallb (fun e => negb (is_request e)) tail = true).
  { apply (post_func_trace _
             (SelectNakal district_id sub_district_id villege_id (Some year)
                          khasra_id (Some (nakal_id_of_row first))));
      [reflexivity | intro; repeat constructor]. }
  destruct (wrapper_requests_any Q 3 5 _ Hfunc 2 0 None
              (add_log [EvPrint "Selecing nakal."] s7))
    as (p7 & L7 & Q7).
  change (wrapper 3 5
            (select_nakals_func district_id sub_district_id villege_id (Some year)
               khasra_id (Some (nakal_id_of_row first))) 3 0 None)
    with (select_nakals district_id sub_district_id villege_id (Some year) khasra_id
            (Some (nakal_id_of_row first))) in L7.
  assert (Qsel : requests_all Q ([EvPrint "Selecing nakal."] ++ p7) = true)
    by now apply requests_all_after_quiet.
  destruct (select_nakals district_id sub_district_id villege_id (Some year) khasra_id
              (Some (nakal_id_of_row first)) (add_log [EvPrint "Selecing nakal."] s7))
    as [[[] | e | msg] s8] eqn:Hsel; cbn [snd log add_log with_log] in L7.
  - erewrite bind_Ret in Erun by exact Hsel.
    erewrite bind_Ret in Erun by reflexivity.
    destruct (wrapper_requests_any (gets nakal_khewat_uri) 3 5
                (get_nakal_html_func destination_path)
                (get_nakal_html_func_trace destination_path)
                2 0 None (add_log [EvPrint "Getting nakal html."] s8))
      as (p8 & L8 & Q8).
    change (wrapper 3 5 (get_nakal_html_func destination_path) 3 0 None)
      with (get_nakal_html destination_path) in L8.
    assert (Hrest : forallb (fun ev => negb (is_post ev))
                            ([EvPrint "Getting nakal html."] ++ p8) = true)
      by (apply gets_no_post with (url := nakal_khewat_uri);
          now apply requests_all_after_quiet).
    assert (Hsf : log sf = log s7 ++ ([EvPrint "Selecing nakal."] ++ p7)
                                 ++ [EvPrint "Getting nakal html."] ++ p8).
    { destruct (get_nakal_html destination_path
                  (add_log [EvPrint "Getting nakal html."] s8))
        as [[document | e | msg] s9] eqn:Hhtml; cbn [snd log add_log with_log] in L8.
      - erewrite bind_Ret in Erun by exact Hhtml.
        injection Erun as _ <-. rewrite L8, L7. now rewrite <- !app_assoc.
      - erewrite bind_Raise in Erun by exact Hhtml.
        injection Erun as _ <-. rewrite L8, L7. now rewrite <- !app_assoc.
      - erewrite bind_Exit in Erun by exact Hhtml.
        injection Erun as _ <-. rewrite L8, L7. now rewrite <- !app_assoc. }
    exists ([EvPrint "Selecing nakal."] ++ p7), ([EvPrint "Getting nakal html."] ++ p8).
    repeat (split; [assumption |]). exact Hout.
  - erewrite bind_Raise in Erun by exact Hsel. injection Erun as _ <-.
    exists ([EvPrint "Selecing nakal."] ++ p7), [].
    split; [exact Hnet |]. split; [exact Hrows |]. split; [exact Hr |].
    split; [rewrite L7, app_nil_r; now rewrite <- app_assoc |].
    split; [exact Qsel |]. split; [reflexivity | exact Hout].
  - erewrite bind_Exit in Erun by exact Hsel. injection Erun as _ <-.
    exists ([EvPrint "Selecing nakal."] ++ p7), [].
    split; [exact Hnet |]. split; [exact Hrows |]. split; [exact Hr |].
    split; [rewrite L7, app_nil_r; now rewrite <- app_assoc |].
    split; [exact Qsel |]. split; [reflexivity | exact Hout].
Qed.

(** The run whose request for the nakals is first answered 503 and then
    by a table of three candidates, two years being on offer: every POST
    after the list of years carries the first of the two, the selection
    carries the id of the first candidate and the output has the cells
    of the third. *)
Lemma first_year_first_candidate_witness :
  let run := extract_data "DistrictA" "TehsilA" "VillageA" "6" None
               (Canned.start Canned.replies_retried []) in
  (exists evs first rows used c page selection rest,
      log (snd run) = log Canned.at_years_retried ++ evs /\
      forallb (fun ev => implb (is_post ev)
                               (posts_with [(k_ddlPeriod, Some "2023-2024")] ev)) evs
      = true /\
      net Canned.at_khasras_retried
      = used ++ Response c page :: net Canned.at_nakals_retried /\
      xpath_grid_rows page = first :: rows /\
      map nakal_id_of_row (first :: rows) = ["Select$0"; "Select$1"; "Select$2"] /\
      log (snd run) = log Canned.at_nakals_retried ++ selection ++ rest /\
      requests_all
        (posts_with [ event_target "ctl00$ContentPlaceHolder1$GridView1";
                      (Some "__EVENTARGUMENT", Some "Select$0") ])
        selection
      = true /\
      forallb (fun ev => negb (is_post ev)) rest = true /\
      row_td2 (last (first :: rows) first) = Some "5" /\
      row_td3 (last (first :: rows) first) = Some "11" /\
      steps_requested
        [ posts_with [ event_target "ctl00$ContentPlaceHolder1$ddlPeriod";
                       (k_ddlPeriod, Some "2023-2024") ];
          posts_with [ event_target "ctl00$ContentPlaceHolder1$ddlkhasra";
                       (k_ddlPeriod, Some "2023-2024") ];
          posts_with [ event_target "ctl00$ContentPlaceHolder1$GridView1";
                       (k_ddlPeriod, Some "2023-2024");
                       (Some "__EVENTARGUMENT", Some "Select$0") ];
          gets nakal_khewat_uri ]
        evs) /\
  run = (Ret (Resolved Canned.output_retried), Canned.at_end_retried) /\
  option_values (xpath_options "Jamabandi Year" Canned.page_years_two)
  = ["2023-2024"; "2022-2023"] /\
  map nakal_id_of_row (xpath_grid_rows Canned.page_nakals_three)
  = ["Select$0"; "Select$1"; "Select$2"] /\
  (out_jamabandi_year Canned.output_retried, out_khewat_no Canned.output_retried,
   out_khatoni_no Canned.output_retried)
  = ("2023-2024", Some "5", Some "11") /\
  filter is_sleep (log Canned.at_end_retried) = [EvSleep 5] /\
  List.length (filter is_request (log Canned.at_end_retried)) = 10.
Proof.
  cbv zeta. split; [| repeat split; vm_compute; reflexivity].
  assert (Hrun : extract_data "DistrictA" "TehsilA" "VillageA" "6" None
                   (Canned.start Canned.replies_retried [])
                 = (Ret (Resolved Canned.output_retried), Canned.at_end_retried))
    by (vm_compute; reflexivity).
  destruct (first_year_first_candidate_last_row_detail
              "DistrictA" "TehsilA" "VillageA" "6" None
              (Canned.start Canned.replies_retried [])
              (Some "01") (Some "001") (Some "0284")
              ["2023-2024"; "2022-2023"] Canned.at_years_retried)
    as (year & later_years & evs & Hyear & Hlog & Hposts & _ & Hlater).
  { exists Canned.villeges, Canned.at_villeges_retried.
    split; [| split; vm_compute; reflexivity].
    exists Canned.sub_districts, Canned.at_sub_districts_retried.
    split; [| split; vm_compute; reflexivity].
    exists Canned.districts, Canned.at_districts_retried.
    split; [| split; vm_compute; reflexivity].
    exists Canned.at_page_retried. split; vm_compute; reflexivity. }
  injection Hyear as <- <-.
  destruct (Hlater Canned.khasras Canned.at_khasras_retried (Some "6")
              (["Select$0"; "Select$1"; "Select$2"],
               {| nd_khewat_no := Some "5"; nd_khatoni_no := Some "11" |})
              Canned.at_nakals_retried)
    as (first & rows & used & c & page & selection & rest
        & Hnet & Hrows & Hr & Hsel & Hfirst & Hrest & Hout);
    [vm_compute; reflexivity | reflexivity | vm_compute; reflexivity |].
  rewrite Hrun in Hlog, Hsel, Hout. cbn [fst snd] in Hlog, Hsel, Hout.
  destruct (Hout Canned.output_retried eq_refl) as (H2 & H3 & Hsteps).
  cbn [map] in Hr. injection Hr as Hid Hids _ _.
  rewrite <- Hid in Hfirst, Hsteps.
  rewrite Hrun. cbn [snd].
  exists evs, first, rows, used, c, page, selection, rest.
  split; [exact Hlog |]. split; [exact Hposts |]. split; [exact Hnet |].
  split; [exact Hrows |].
  split; [cbn [map]; now rewrite <- Hid, <- Hids |].
  split; [exact Hsel |]. split; [exact Hfirst |]. split; [exact Hrest |].
  split; [now rewrite <- H2 |]. split; [now rewrite <- H3 | exact Hsteps].
Defined.

(** ** A forced refresh *)

Lemma update_record_refused before after row data s :
  NoDup (map id (before ++ row :: after)) ->
  db s = before ++ row :: after ->
  not_null data = false ->
  update_record (id row) data s
  = (Raise (IntegrityError "NOT NULL constraint failed"), s).
Proof.
  intros Hu Hdb Hnn. unfold update_record.
  rewrite Hdb, (find_by_id before after row Hu).
  unfold check_not_null, bind. now rewrite Hnn.
Qed.

Lemma extract_data_requests d t v k destination_path s0 output s' :
  extract_data d t v k destination_path s0 = (Ret (Resolved output), s') ->
  exists evs, log s' = log s0 ++ evs /\ steps_requested full_step_sequence evs.
Proof.
  intro H.
  apply extract_data_Resolved_inv in H
    as (district_id & sub_district_id & villege_id & khasra_id & year & later_years
        & districts & sub_districts & villeges & khasras & nakals_0 & more
        & nakal_detail & document
        & s1 & s2 & s3 & s4 & s5 & s6 & s7 & s8
        & Hpage & Hdis & _ & Hsub & _ & Hvil & _ & Hyears & Hkh & _
        & Hnak & Hsel & Hhtml & _).
  apply get_jamabandi_page_requests, step_part in Hpage.
  unfold get_districts in Hdis. unfold get_sub_districts in Hsub.
  unfold get_villeges in Hvil. unfold get_years in Hyears.
  unfold get_khasras in Hkh. unfold get_nakals in Hnak.
  unfold select_nakals in Hsel.
  post_part Hdis ListDistricts
            [event_target "ctl00$ContentPlaceHolder1$RdobtnKhasra"].
  post_part Hsub (ListSubDistricts district_id)
            [event_target "ctl00$ContentPlaceHolder1$ddldname"].
  post_part Hvil (ListVillages district_id sub_district_id)
            [event_target "ctl00$ContentPlaceHolder1$ddltname"].
  post_part Hyears (ListYears district_id sub_district_id villege_id)
            [event_target "ctl00$ContentPlaceHolder1$ddlvname"].
  post_part Hkh (ListKhasras district_id sub_district_id villege_id (Some year))
            [event_target "ctl00$ContentPlaceHolder1$ddlPeriod"].
  post_part Hnak (ListNakals district_id sub_district_id villege_id (Some year)
                             khasra_id)
            [event_target "ctl00$ContentPlaceHolder1$ddlkhasra"].
  post_part Hsel (SelectNakal district_id sub_district_id villege_id (Some year)
                              khasra_id (Some nakals_0))
            [event_target "ctl00$ContentPlaceHolder1$GridView1"].
  apply get_nakal_html_requests, step_part in Hhtml.
  destruct Hpage as (p0 & L0 & Q0). destruct Hdis as (p1 & L1 & Q1).
  destruct Hsub as (p2 & L2 & Q2). destruct Hvil as (p3 & L3 & Q3).
  destruct Hyears as (p4 & L4 & Q4). destruct Hkh as (p5 & L5 & Q5).
  destruct Hnak as (p6 & L6 & Q6). destruct Hsel as (p7 & L7 & Q7).
  destruct Hhtml as (p8 & L8 & Q8).
  exists (p0 ++ p1 ++ p2 ++ p3 ++ p4 ++ p5 ++ p6 ++ p7 ++ p8 ++ []).
  split.
  - rewrite L8, L7, L6, L5, L4, L3, L2, L1, L0, app_nil_r.
    cbn [log with_obj]. now rewrite <- !app_assoc.
  - unfold full_step_sequence.
    repeat (apply steps_requested_cons; [assumption |]). reflexivity.
Qed.

(** C9 fails as stated: a forced refresh over a cached row, answered by
    pages of which the last candidate has an empty second cell, sends
    the nine requests, resolves, and then ends with an
    [IntegrityError]: the cached row is left as it was. *)
Lemma forced_refresh_refused_on_missing_value :
  let s := Canned.start Canned.replies_blank [Canned.cached] in
  let r := main (Canned.args true) s in
  (exists output,
      fst (extract_data "DistrictA" "TehsilA" "VillageA" "6"
             (Some (html_path_of "DistrictA" "TehsilA" "VillageA" "6"))
             (add_log (announced (Canned.args true)) s))
      = Ret (Resolved output) /\
      out_khewat_no output = None) /\
  (exists detail, fst r = Raise (IntegrityError detail)) /\
  (forall s', fst r <> Ret s') /\
  db (snd r) = [Canned.cached] /\
  List.length (filter is_request (log (snd r))) = 9.
Proof.
  cbv zeta. split; [| split; [| split; [| split]]].
  - eexists. split; vm_compute; reflexivity.
  - eexists. vm_compute. reflexivity.
  - intro s'. vm_compute. discriminate.
  - vm_compute. reflexivity.
  - vm_compute. reflexivity.
Qed.

(** C9, amended. With [--force_refresh] and a row for the four names
    already in the table (ids being unique), the main block runs
    [extract_data] although the row is there.  When that returns the
    output dictionary, each of the nine steps has sent its request, in
    the order of the step sequence.  If no value of the output is
    [None], the first row found is then overwritten with the new values
    under its old id, every other row stays where it was and no row is
    added; if a value is [None] the commit is refused, the main block
    ends with an [IntegrityError] and the table is left as it was. *)
Theorem force_refresh_overwrites_cached_row
        (args : Args) (s s1 : State) (row : LandRecord) (more : list LandRecord)
        (output : Output) :
  let d := arg_district_name args in
  let t := arg_sub_district_name args in
  let v := arg_village_name args in
  let k := arg_khasra_no args in
  arg_force_refresh args = true ->
  filter (matches_input d t v k) (db s) = row :: more ->
  NoDup (map id (db s)) ->
  extract_data d t v k (Some (html_path_of d t v k)) (add_log (announced args) s)
  = (Ret (Resolved output), s1) ->
  let updated := {| id := id row; fields := record_data_of output |} in
  (exists evs,
      log s1 = log s ++ announced args ++ evs /\
      steps_requested full_step_sequence evs) /\
  exists before after,
    db s = before ++ row :: after /\
    forallb (fun r => negb (matches_input d t v k r)) before = true /\
    db s1 = db s /\
    (not_null (record_data_of output) = true ->
     main args s
     = (Ret tt,
        add_log [EvPrint (str_mul "#" 60); EvPrintData (DataRecord updated)]
                (with_db (before ++ updated :: after) s1)) /\
     map id (before ++ updated :: after) = map id (db s)) /\
    (not_null (record_data_of output) = false ->
     exists detail, main args s = (Raise (IntegrityError detail), s1)).
Proof.
  cbv zeta. intros Hforce Hfound Hunique Hext.
  split.
  { destruct (extract_data_requests _ _ _ _ _ _ _ _ Hext) as (evs & Hlog & Hsteps).
    exists evs. split; [| exact Hsteps].
    rewrite Hlog. cbn [log add_log with_log]. now rewrite <- app_assoc. }
  destruct (filter_first_split _ _ _ _ Hfound) as (before & after & Hdb & Hbefore & _).
  exists before, after. split; [exact Hdb |]. split; [exact Hbefore |].
  assert (Hdb1 : db s1 = db s).
  { pose proof (f_equal (fun r => db (snd r)) Hext) as K. cbv beta in K.
    rewrite keeps_extract_data in K. cbn in K. now rewrite <- K. }
  split; [exact Hdb1 |].
  rewrite main_unfolded. cbv zeta. rewrite Hfound, Hforce. cbn [orb].
  rewrite Hdb in Hunique. rewrite Hdb in Hdb1.
  split; intro Hnn.
  - split; [| rewrite Hdb, !map_app; reflexivity].
    erewrite bind_Ret.
    2: { erewrite bind_Ret by exact Hext.
         unfold create_record_by_checking_record.
         erewrite bind_Ret by reflexivity.
         rewrite Hdb1, <- Hdb, Hfound. cbn [negb].
         now apply update_record_by_id with (before := before) (after := after). }
    pure_step. unfold emit. now rewrite add_log_add_log.
  - eexists. erewrite bind_Raise; [reflexivity |].
    erewrite bind_Ret by exact Hext.
    unfold create_record_by_checking_record.
    erewrite bind_Ret by reflexivity.
    rewrite Hdb1, <- Hdb, Hfound. cbn [negb].
    now apply update_record_refused with (before := before) (after := after).
Qed.

Lemma force_refresh_witness :
  exists s',
    main (Canned.args true) (Canned.start Canned.replies [Canned.cached])
    = (Ret tt, s') /\
    map id (db s') = [1%Z] /\
    map (fun r => (jamabandi_year (fields r), khewat_no (fields r),
                   khatoni_no (fields r))) (db s')
    = [(Some "2022-2023", Some "3", Some "9")] /\
    (exists evs,
        log Canned.at_end_of_refresh
        = announced (Canned.args true) ++ evs /\
        steps_requested full_step_sequence evs) /\
    List.length (filter is_request (log s')) = 9.
Proof.
  destruct (force_refresh_overwrites_cached_row
              (Canned.args true) (Canned.start Canned.replies [Canned.cached])
              Canned.at_end_of_refresh Canned.cached [] Canned.output)
    as (Hsteps & before & after & Hdb & _ & _ & Hupdate & _).
  - reflexivity.
  - reflexivity.
  - repeat constructor. simpl. tauto.
  - vm_compute. reflexivity.
  - destruct (Hupdate eq_refl) as (Hmain & Hids).
    eexists. split; [exact Hmain |].
    cbn [db add_log with_log with_db] in *.
    split; [exact Hids |].
    split; [| split; [exact Hsteps | reflexivity]].
    destruct before as [| b before'].
    + injection Hdb as <-. reflexivity.
    + exfalso. injection Hdb as _ Hnil. destruct before'; discriminate.
Defined.
